(** * AI-Tutor backend: intent routing, math commands and learning tracker

    A shallow embedding of the Python sources
      - [backend/learning_tracker.py]   (class [LearningTracker]),
      - [backend/intent_classifier.py]  (class [IntentClassifier]),
      - [backend/core_agent.py]         ([CoreAgent.process_text_input],
        [_handle_command], [_assess_knowledge_if_needed]),
      - [backend/commands/math_commands.py] (class [MathCommands]),
      - [backend/commands/command__executor.py]
        ([CommandExecutor.execute_command]),
    followed by the properties of the specification that concern them
    (C1 to C10, three of them amended to what the code does) and by
    further properties of the same code (X1 to X20).

    Conventions.
      - Python [int] is [Z]; Python [float] is an IEEE-754 binary64 value,
        represented by [spec_float] with the operations of [SpecFloat] at
        precision 53 and maximal exponent 1024.
      - Python [str] is [string]; [lower] and [strip] are the ASCII parts
        of the Python methods (bytes above 127 are left alone).
      - A [dict] keyed by strings is a [gmap string _]; lists are lists.
      - Code that can raise returns a [result]; code that also mutates the
        tracker or its files runs in the monad [M] over [World].
      - The few library services that the program only calls (the regular
        expression engine, the wall clock, [datetime] formatting, [repr] of
        a float, [round]) are collected in the class [PyEnv].
      - The limit that CPython puts on the number of digits of a
        conversion between [int] and [str] (4300 by default) is modelled
        where the program converts numbers that come from the user's
        text, in the math commands: [Py.str_int] and [Py.parse_int] raise
        [ValueError] beyond it.  The other integers that the program
        prints are clock readings ([int(time.time())], below 2^1024),
        indices of list elements and counts of answers, which come near
        the limit only through a profile file written by hand; they are
        printed by [Py.decimal], without the limit.
      - Not modelled: the compensated summation that [sum] applies to
        floats from Python 3.12 on; [sum] over floats is the plain
        left-to-right sum here.  It does not matter for integer operands.
      - [print] and logging calls are left out. *)

From Stdlib Require Import ZArith String Ascii List Bool Lia.
From Stdlib Require Import Floats.SpecFloat.
From stdpp Require Import base option list strings gmap pretty.

Open Scope Z_scope.
Set Warnings "-register-all".

(* ===================================================================== *)
(** * Python values *)
(* ===================================================================== *)

Module Py.

(** The exceptions that the modelled code can meet. *)
Inductive exn : Type :=
| ZeroDivisionError
| OverflowError
| ValueError
| TypeError
| AttributeError
| KeyError
| IndexError.

(** Outcome of an expression that may raise. *)
Inductive result (A : Type) : Type :=
| Ok (a : A)
| Raise (e : exn).
Global Arguments Ok {A} a.
Global Arguments Raise {A} e.

Definition bind {A B} (r : result A) (k : A -> result B) : result B :=
  match r with
  | Ok a => k a
  | Raise e => Raise e
  end.

Global Instance result_ret : MRet result := @Ok.
Global Instance result_bind : MBind result := fun A B k r => bind r k.

(** ** binary64 floats *)

Definition float : Type := spec_float.
Definition prec : Z := 53.
Definition emax : Z := 1024.

Definition fadd : float -> float -> float := SFadd prec emax.
Definition fsub : float -> float -> float := SFsub prec emax.
Definition fmul : float -> float -> float := SFmul prec emax.
Definition fdiv : float -> float -> float := SFdiv prec emax.

(** Python comparison operators on floats; any comparison with a NaN is
    [False]. *)
Definition flt (a b : float) : bool := SFltb a b.   (* a <  b *)
Definition fle (a b : float) : bool := SFleb a b.   (* a <= b *)
Definition fgt (a b : float) : bool := SFltb b a.   (* a >  b *)
Definition fge (a b : float) : bool := SFleb b a.   (* a >= b *)
Definition feq (a b : float) : bool := SFeqb a b.   (* a == b *)

Definition is_finite (f : float) : bool :=
  match f with
  | S754_zero _ | S754_finite _ _ _ => true
  | S754_infinity _ | S754_nan => false
  end.

Definition is_zero (f : float) : bool :=
  match f with
  | S754_zero _ => true
  | _ => false
  end.

(** [math.isnan] *)
Definition is_nan (f : float) : bool :=
  match f with
  | S754_nan => true
  | _ => false
  end.

(** [float(n)] for an [int] n: round to nearest even, [OverflowError]
    when the integer is beyond the finite doubles. *)
Definition float_of_Z (z : Z) : float := binary_normalize prec emax z 0 false.

Definition int_to_float (z : Z) : result float :=
  let f := float_of_Z z in
  if is_finite f then Ok f else Raise OverflowError.

(** The integer as an unrounded significand with exponent 0, the input
    of the correctly rounded quotient below. *)
Definition exact_of_Z (z : Z) : float :=
  match z with
  | Z0 => S754_zero false
  | Zpos p => S754_finite false p 0
  | Zneg p => S754_finite true p 0
  end.

(** [a / b] for two [int]s: the quotient of the integers rounded once to
    the nearest double. *)
Definition int_truediv (a b : Z) : result float :=
  if b =? 0 then Raise ZeroDivisionError
  else
    let q := fdiv (exact_of_Z a) (exact_of_Z b) in
    if is_finite q then Ok q else Raise OverflowError.

(** [x / y] for two [float]s. *)
Definition float_truediv (x y : float) : result float :=
  if is_zero y then Raise ZeroDivisionError else Ok (fdiv x y).

(** The float literals that occur in the sources, by significand and
    exponent. *)
Definition f0_0 : float := S754_zero false.
Definition f0_5 : float := S754_finite false 4503599627370496 (-53).
Definition f0_6 : float := S754_finite false 5404319552844595 (-53).
Definition f0_7 : float := S754_finite false 6305039478318694 (-53).
Definition f0_75 : float := S754_finite false 6755399441055744 (-53).
Definition f0_8 : float := S754_finite false 7205759403792794 (-53).
Definition f0_9 : float := S754_finite false 8106479329266893 (-53).

(** Do the comparisons that the tracker makes on [c / t] agree with the
    same comparisons on the exact fraction?  ([>= 0.8], [>= 0.6],
    [>= 0.75] and [< 0.5], read as [4/5], [3/5], [3/4] and [1/2].) *)
Definition thresholds_agree (c t : Z) : bool :=
  match int_truediv c t with
  | Ok q =>
      Bool.eqb (fge q f0_8) (4 * t <=? 5 * c)
      && Bool.eqb (fge q f0_6) (3 * t <=? 5 * c)
      && Bool.eqb (fge q f0_75) (3 * t <=? 4 * c)
      && Bool.eqb (flt q f0_5) (2 * c <? t)
  | Raise _ => false
  end.

(** Exact value comparison of an integer with a float ([None] for NaN). *)
Definition compare_Z_float (z : Z) (f : float) : option comparison :=
  match f with
  | S754_nan => None
  | S754_infinity s => Some (if s then Gt else Lt)
  | S754_zero _ => Some (z ?= 0)
  | S754_finite s m e =>
      let sm := if s then Z.neg m else Z.pos m in
      Some (if 0 <=? e then z ?= sm * 2 ^ e
            else z * 2 ^ (- e) ?= sm)
  end.

(** [int(f)] for a float: truncation towards zero. *)
Definition float_to_int (f : float) : result Z :=
  match f with
  | S754_nan => Raise ValueError
  | S754_infinity _ => Raise OverflowError
  | S754_zero _ => Ok 0
  | S754_finite s m e =>
      let sm := if s then Z.neg m else Z.pos m in
      Ok (if 0 <=? e then sm * 2 ^ e else Z.quot sm (2 ^ (- e)))
  end.

(** ** Numbers as the math commands see them: [Union[int, float]] *)

Inductive number : Type :=
| Int (z : Z)
| Float (f : float).

Definition to_float (n : number) : result float :=
  match n with
  | Int z => int_to_float z
  | Float f => Ok f
  end.

Definition float_binop (op : float -> float -> float) (a b : number)
  : result number :=
  bind (to_float a) (fun x =>
  bind (to_float b) (fun y => Ok (Float (op x y)))).

Definition add (a b : number) : result number :=
  match a, b with
  | Int x, Int y => Ok (Int (x + y))
  | _, _ => float_binop fadd a b
  end.

Definition sub (a b : number) : result number :=
  match a, b with
  | Int x, Int y => Ok (Int (x - y))
  | _, _ => float_binop fsub a b
  end.

Definition mul (a b : number) : result number :=
  match a, b with
  | Int x, Int y => Ok (Int (x * y))
  | _, _ => float_binop fmul a b
  end.

Definition truediv (a b : number) : result number :=
  match a, b with
  | Int x, Int y => bind (int_truediv x y) (fun q => Ok (Float q))
  | _, _ =>
      bind (to_float a) (fun x =>
      bind (to_float b) (fun y =>
      bind (float_truediv x y) (fun q => Ok (Float q))))
  end.

(** Three-way comparison by value; [None] when a NaN is involved. *)
Definition compare (a b : number) : option comparison :=
  match a, b with
  | Int x, Int y => Some (x ?= y)
  | Int x, Float g => compare_Z_float x g
  | Float f, Int y => option_map CompOpp (compare_Z_float y f)
  | Float f, Float g => SFcompare f g
  end.

Definition eqb (a b : number) : bool :=
  match compare a b with Some Eq => true | _ => false end.
Definition leb (a b : number) : bool :=
  match compare a b with Some (Lt | Eq) => true | _ => false end.
Definition gtb (a b : number) : bool :=
  match compare a b with Some Gt => true | _ => false end.

(** [int(n)]. *)
Definition int (n : number) : result Z :=
  match n with
  | Int z => Ok z
  | Float f => float_to_int f
  end.

(** [abs(n)]. *)
Definition abs (n : number) : number :=
  match n with
  | Int z => Int (Z.abs z)
  | Float f => Float (SFabs f)
  end.

(** [max(l)] for a non-empty list: the first of the largest items. *)
Definition max (n : number) (l : list number) : number :=
  fold_left (fun best x => if gtb x best then x else best) l n.

(** ** Strings *)

Definition is_upper (c : ascii) : bool :=
  let n := N_of_ascii c in ((65 <=? n) && (n <=? 90))%N.

Definition lower_char (c : ascii) : ascii :=
  if is_upper c then ascii_of_N (N_of_ascii c + 32) else c.

(** [s.lower()] *)
Fixpoint lower (s : string) : string :=
  match s with
  | EmptyString => EmptyString
  | String c r => String (lower_char c) (lower r)
  end.

(** The ASCII characters that [str.strip()] removes. *)
Definition is_space (c : ascii) : bool :=
  let n := N_of_ascii c in
  (((9 <=? n) && (n <=? 13)) || ((28 <=? n) && (n <=? 32)))%N.

Fixpoint lstrip (s : string) : string :=
  match s with
  | EmptyString => EmptyString
  | String c r => if is_space c then lstrip r else s
  end.

Fixpoint rstrip (s : string) : string :=
  match s with
  | EmptyString => EmptyString
  | String c r =>
      match rstrip r with
      | EmptyString => if is_space c then EmptyString else String c EmptyString
      | r' => String c r'
      end
  end.

(** [s.strip()] *)
Definition strip (s : string) : string := rstrip (lstrip s).

(** [sub in s] *)
Fixpoint contains (sub s : string) : bool :=
  String.prefix sub s ||
  match s with
  | EmptyString => false
  | String _ r => contains sub r
  end.

(** [sep.join(items)] *)
Fixpoint join (sep : string) (items : list string) : string :=
  match items with
  | [] => ""
  | [x] => x
  | x :: rest => x +:+ sep +:+ join sep rest
  end.

(** The decimal numeral of an integer. *)
Definition decimal (z : Z) : string := pretty z.

(** [sys.get_int_max_str_digits()], as CPython sets it: the greatest
    number of digits that a conversion between [int] and [str] takes. *)
Definition int_max_str_digits : nat := 4300.

(** The least integer with more decimal digits than the limit. *)
Definition int_str_bound : Z := Eval vm_compute in 10 ^ Z.of_nat int_max_str_digits.

(** Has the integer no more decimal digits than the limit? *)
Definition within_digit_limit (z : Z) : bool := Z.abs z <? int_str_bound.

(** [str(n)] for an [int], also what an f-string prints for it: the
    decimal numeral, [ValueError] for more digits than the limit. *)
Definition str_int (z : Z) : result string :=
  if within_digit_limit z then Ok (decimal z) else Raise ValueError.

(** ** Numerals *)

Definition digit_value (c : ascii) : option Z :=
  let n := N_of_ascii c in
  if ((48 <=? n) && (n <=? 57))%N then Some (Z.of_N (n - 48)) else None.

(** The value of a string of decimal digits read after [acc]. *)
Fixpoint digits_value (acc : Z) (s : string) : option Z :=
  match s with
  | EmptyString => Some acc
  | String c r =>
      match digit_value c with
      | Some d => digits_value (10 * acc + d) r
      | None => None
      end
  end.

(** An optional minus sign, and what follows it. *)
Definition split_sign (s : string) : bool * string :=
  match s with
  | String "-"%char r => (true, r)
  | _ => (false, s)
  end.

(** [int(s)] for a numeral [-?\d+]; [None] stands for [ValueError],
    which more digits than the limit raise too. *)
Definition parse_int (s : string) : option Z :=
  let '(neg, body) := split_sign s in
  match body with
  | EmptyString => None
  | _ =>
      if (int_max_str_digits <? String.length body)%nat then None
      else (fun v => if neg then - v else v) <$> digits_value 0 body
  end.

(** The text before the first dot and the text after it. *)
Fixpoint split_dot (s : string) : string * option string :=
  match s with
  | EmptyString => (EmptyString, None)
  | String c r =>
      if Ascii.eqb c "."%char then (EmptyString, Some r)
      else let '(a, b) := split_dot r in (String c a, b)
  end.

(** [float(s)] for a numeral [-?\d+\.\d*]: the decimal value rounded
    once to the nearest double. *)
Definition parse_float (s : string) : option float :=
  let '(neg, body) := split_sign s in
  match split_dot body with
  | (EmptyString, _) => None
  | (whole, frac) =>
      let frac := default EmptyString frac in
      match digits_value 0 (whole +:+ frac) with
      | Some (Zpos m) =>
          Some (fdiv (S754_finite neg m 0)
                     (exact_of_Z (10 ^ Z.of_nat (String.length frac))))
      | Some _ => Some (S754_zero neg)
      | None => None
      end
  end.

(** [x in l] for a list of strings *)
Definition in_list (x : string) (l : list string) : bool :=
  bool_decide (x ∈ l).

(** [l.remove(x)] when x is in l: the first occurrence goes. *)
Fixpoint remove_first (x : string) (l : list string) : list string :=
  match l with
  | [] => []
  | y :: r => if String.eqb x y then r else y :: remove_first x r
  end.

(** [l[-n:]] for a positive n: the last n items, all of them when the
    list is shorter. *)
Definition last_n {A} (n : nat) (l : list A) : list A :=
  drop (length l - n) l.

End Py.

(* ===================================================================== *)
(** * JSON documents and files *)
(* ===================================================================== *)

(** What [json.load] returns and [json.dump] accepts.  An object keeps its
    members in the order [json.dump] writes them. *)
Inductive json : Type :=
| JNull
| JBool (b : bool)
| JInt (z : Z)
| JFloat (f : Py.float)
| JStr (s : string)
| JList (items : list json)
| JObj (members : list (string * json)).

(** The content of a path on disk. *)
Inductive File : Type :=
| NoFile                (* the path does not exist *)
| Garbled               (* the file exists but [json.load] raises on it *)
| Doc (j : json).       (* the file holds this JSON document *)

(** The list that [_save_session_data] starts from: empty without a file,
    the items of the document when it is a JSON list; [None] when the
    [try] block fails on the file (not JSON, or no list to append to). *)
Definition sessions_log (f : File) : option (list json) :=
  match f with
  | NoFile => Some []
  | Doc (JList l) => Some l
  | _ => None
  end.



(** [d[k]] on a dict written as the list of its items. *)
Definition dict_get (k : string) (d : list (string * json)) : option json :=
  snd <$> List.find (fun item => String.eqb (fst item) k) d.

Definition json_of_opt_str (o : option string) : json :=
  match o with None => JNull | Some s => JStr s end.
Definition json_of_str_list (l : list string) : json := JList (JStr <$> l).

(* ===================================================================== *)
(** * Library services *)
(* ===================================================================== *)

(** The services of the Python runtime that the program calls and the
    model does not look into.  The wall clock is read by tick: the n-th
    reading of [datetime.now()] or [time.time()] made by the program. *)
Class PyEnv : Type := {
  (** [datetime.datetime] *)
  datetime : Type;
  datetime_now : nat -> datetime;
  isoformat : datetime -> string;
  fromisoformat : string -> option datetime;        (* [None]: ValueError *)
  fromisoformat_isoformat : forall d, fromisoformat (isoformat d) = Some d;
  (** [int((b - a).total_seconds() / 60)] *)
  whole_minutes : datetime -> datetime -> Z;
  (** [int(((b - a).total_seconds() / 60) / n)] for n >= 1 *)
  shared_minutes : datetime -> datetime -> Z -> Z;
  (** [int(time.time())] *)
  time_time : nat -> Z;
  (** [re.search(pattern, text)] is not [None] *)
  re_search : string -> string -> bool;
  (** [re.findall(pattern, text)] for a pattern without groups *)
  re_findall : string -> string -> list string;
  (** [str(e)] for a caught exception e *)
  exn_text : Py.exn -> string;
  (** [str(x)], [round(x, 2)] and [f"{x:.1%}"] for a float x *)
  float_repr : Py.float -> string;
  round2 : Py.float -> Py.float;
  format_percent1 : Py.float -> string;
}.

(* ===================================================================== *)
(** * backend/learning_tracker.py *)
(* ===================================================================== *)

Section LearningTrackerModel.
Context `{PyEnv}.

(** ** The dataclasses *)

(** [LearningSession.performance_metrics], a dict with the five keys
    "questions_asked", "correct_answers", "incorrect_answers",
    "hints_used" and "topics_explored". *)
Record PerformanceMetrics : Type := {
  questions_asked : Z;
  session_correct_answers : Z;       (* key "correct_answers" *)
  session_incorrect_answers : Z;     (* key "incorrect_answers" *)
  hints_used : Z;
  topics_explored : Z;
}.

Record LearningSession : Type := {
  session_id : string;
  start_time : datetime;
  end_time : option datetime;
  topics_covered : list string;
  interactions : list json;
  performance_metrics : PerformanceMetrics;
  emotion_data : list json;
}.

Record TopicProgress : Type := {
  topic_name : string;
  knowledge_level : string;
  first_encountered : datetime;
  last_studied : datetime;
  total_time_spent : Z;
  correct_answers : Z;
  incorrect_answers : Z;
  concepts_mastered : list string;
  struggling_areas : list string;
}.

Record StudentProfile : Type := {
  student_id : string;
  name : option string;
  grade_level : option string;
  learning_style : string;
  topics : gmap string TopicProgress;
  total_sessions : Z;
  total_learning_time : Z;
  strengths : list string;
  areas_for_improvement : list string;
}.

(** ** The tracker object, its files and the clock *)

Record LearningTracker : Type := {
  current_session : option LearningSession;
  student_profile : option StudentProfile;
}.

(** The three files under [data_dir]. *)
Record Disk : Type := {
  profile_file : File;          (* student_profile.json *)
  sessions_file : File;         (* sessions.json *)
  temp_progress_file : File;    (* temp_progress.json *)
}.

Record World : Type := {
  self : LearningTracker;
  disk : Disk;
  ticks : nat;                  (* clock readings made so far *)
}.

(** ** Field updates *)

Definition set_current_session (s : option LearningSession) (w : World) : World :=
  {| self := {| current_session := s; student_profile := student_profile (self w) |};
     disk := disk w; ticks := ticks w |}.

Definition set_student_profile (p : option StudentProfile) (w : World) : World :=
  {| self := {| current_session := current_session (self w); student_profile := p |};
     disk := disk w; ticks := ticks w |}.

Definition set_profile_file (f : File) (w : World) : World :=
  {| self := self w;
     disk := {| profile_file := f; sessions_file := sessions_file (disk w);
                temp_progress_file := temp_progress_file (disk w) |};
     ticks := ticks w |}.

Definition set_sessions_file (f : File) (w : World) : World :=
  {| self := self w;
     disk := {| profile_file := profile_file (disk w); sessions_file := f;
                temp_progress_file := temp_progress_file (disk w) |};
     ticks := ticks w |}.

Definition set_temp_progress_file (f : File) (w : World) : World :=
  {| self := self w;
     disk := {| profile_file := profile_file (disk w);
                sessions_file := sessions_file (disk w);
                temp_progress_file := f |};
     ticks := ticks w |}.

Definition set_metrics (m : PerformanceMetrics) (s : LearningSession) : LearningSession :=
  {| session_id := session_id s; start_time := start_time s; end_time := end_time s;
     topics_covered := topics_covered s; interactions := interactions s;
     performance_metrics := m; emotion_data := emotion_data s |}.

Definition set_end_time (t : option datetime) (s : LearningSession) : LearningSession :=
  {| session_id := session_id s; start_time := start_time s; end_time := t;
     topics_covered := topics_covered s; interactions := interactions s;
     performance_metrics := performance_metrics s; emotion_data := emotion_data s |}.

Definition set_topics (t : gmap string TopicProgress) (p : StudentProfile) : StudentProfile :=
  {| student_id := student_id p; name := name p; grade_level := grade_level p;
     learning_style := learning_style p; topics := t;
     total_sessions := total_sessions p; total_learning_time := total_learning_time p;
     strengths := strengths p; areas_for_improvement := areas_for_improvement p |}.

Definition set_strengths (l : list string) (p : StudentProfile) : StudentProfile :=
  {| student_id := student_id p; name := name p; grade_level := grade_level p;
     learning_style := learning_style p; topics := topics p;
     total_sessions := total_sessions p; total_learning_time := total_learning_time p;
     strengths := l; areas_for_improvement := areas_for_improvement p |}.

Definition set_areas_for_improvement (l : list string) (p : StudentProfile) : StudentProfile :=
  {| student_id := student_id p; name := name p; grade_level := grade_level p;
     learning_style := learning_style p; topics := topics p;
     total_sessions := total_sessions p; total_learning_time := total_learning_time p;
     strengths := strengths p; areas_for_improvement := l |}.

Definition set_counters (c i : Z) (t : TopicProgress) : TopicProgress :=
  {| topic_name := topic_name t; knowledge_level := knowledge_level t;
     first_encountered := first_encountered t; last_studied := last_studied t;
     total_time_spent := total_time_spent t;
     correct_answers := c; incorrect_answers := i;
     concepts_mastered := concepts_mastered t; struggling_areas := struggling_areas t |}.

(** ** The monad of tracker methods: state and exceptions *)

Definition M (A : Type) : Type := World -> Py.result A * World.

Definition ret {A} (a : A) : M A := fun w => (Py.Ok a, w).

Definition raise {A} (e : Py.exn) : M A := fun w => (Py.Raise e, w).

Definition bind {A B} (m : M A) (k : A -> M B) : M B :=
  fun w =>
    match m w with
    | (Py.Ok a, w') => k a w'
    | (Py.Raise e, w') => (Py.Raise e, w')
    end.

(** [try: body except Exception as e: print(...)] *)
Definition try_except (body : M unit) : M unit :=
  fun w =>
    match body w with
    | (Py.Ok a, w') => (Py.Ok a, w')
    | (Py.Raise _, w') => (Py.Ok tt, w')
    end.

Definition lift {A} (r : Py.result A) : M A := fun w => (r, w).
Definition get : M World := fun w => (Py.Ok w, w).
Definition modify (f : World -> World) : M unit := fun w => (Py.Ok tt, f w).

Global Instance M_ret : MRet M := @ret.
Global Instance M_bind : MBind M := fun A B k m => bind m k.

(** One reading of the clock. *)
Definition tick : M nat :=
  fun w => (Py.Ok (ticks w),
            {| self := self w; disk := disk w; ticks := S (ticks w) |}).

(** [datetime.now()] *)
Definition now : M datetime := n ← tick; mret (datetime_now n).

(** [int(time.time())] *)
Definition time_now : M Z := n ← tick; mret (time_time n).

(** ** What the files hold: [dataclasses.asdict] with ISO datetimes *)

Definition metrics_to_json (m : PerformanceMetrics) : json :=
  JObj [("questions_asked", JInt (questions_asked m));
        ("correct_answers", JInt (session_correct_answers m));
        ("incorrect_answers", JInt (session_incorrect_answers m));
        ("hints_used", JInt (hints_used m));
        ("topics_explored", JInt (topics_explored m))].

Definition session_to_json (s : LearningSession) : json :=
  JObj [("session_id", JStr (session_id s));
        ("start_time", JStr (isoformat (start_time s)));
        ("end_time", match end_time s with
                     | Some t => JStr (isoformat t)
                     | None => JNull
                     end);
        ("topics_covered", json_of_str_list (topics_covered s));
        ("interactions", JList (interactions s));
        ("performance_metrics", metrics_to_json (performance_metrics s));
        ("emotion_data", JList (emotion_data s))].

Definition topic_to_json (t : TopicProgress) : json :=
  JObj [("topic_name", JStr (topic_name t));
        ("knowledge_level", JStr (knowledge_level t));
        ("first_encountered", JStr (isoformat (first_encountered t)));
        ("last_studied", JStr (isoformat (last_studied t)));
        ("total_time_spent", JInt (total_time_spent t));
        ("correct_answers", JInt (correct_answers t));
        ("incorrect_answers", JInt (incorrect_answers t));
        ("concepts_mastered", json_of_str_list (concepts_mastered t));
        ("struggling_areas", json_of_str_list (struggling_areas t))].

Definition profile_to_json (p : StudentProfile) : json :=
  JObj [("student_id", JStr (student_id p));
        ("name", json_of_opt_str (name p));
        ("grade_level", json_of_opt_str (grade_level p));
        ("learning_style", JStr (learning_style p));
        ("topics", JObj (prod_map id topic_to_json <$> map_to_list (topics p)));
        ("total_sessions", JInt (total_sessions p));
        ("total_learning_time", JInt (total_learning_time p));
        ("strengths", json_of_str_list (strengths p));
        ("areas_for_improvement", json_of_str_list (areas_for_improvement p))].

(** ** Reading a profile back: the dataclass constructors applied to the
    loaded dicts as keyword arguments

    A dataclass constructor raises [TypeError] unless the keywords are
    exactly its fields.  It does not check the type of a value; the
    records above cannot hold an ill-typed field, so a member of another
    JSON type than the one [profile_to_json] writes makes the load fail
    here. *)










(** ** Persistence *)


(** [_save_student_profile]: returns at once without a profile;
    otherwise opens the file for writing and dumps the whole profile. *)
Definition _save_student_profile : M unit :=
  w ← get;
  match student_profile (self w) with
  | None => mret tt
  | Some p => modify (set_profile_file (Doc (profile_to_json p)))
  end.

(** The body of the [try] block of [_save_session_data]. *)
Definition save_session_body (s : LearningSession) : M unit :=
  w ← get;
  sessions ← match sessions_file (disk w) with
             | NoFile => mret (JList [])
             | Garbled => raise Py.ValueError       (* json.JSONDecodeError *)
             | Doc j => mret j
             end;
  match sessions with
  | JList l =>
      let sessions := l ++ [session_to_json s] in
      let sessions := Py.last_n 50 sessions in
      modify (set_sessions_file (Doc (JList sessions)))
  | _ => raise Py.AttributeError                   (* no [append] *)
  end.

Definition _save_session_data : M unit :=
  w ← get;
  match current_session (self w) with
  | None => mret tt
  | Some s => try_except (save_session_body s)
  end.

(** [_load_temp_progress]: whatever document the file holds, [{}] when
    it is absent or unreadable. *)
Definition _load_temp_progress : M json :=
  w ← get;
  match temp_progress_file (disk w) with
  | NoFile => mret (JObj [])
  | Garbled => mret (JObj [])
  | Doc j => mret j
  end.

Definition _save_temp_progress_data (data : json) : M unit :=
  modify (set_temp_progress_file (Doc data)).

(** [d[k] = v] on a list of members: in place when the key is there,
    at the end otherwise. *)
Fixpoint members_set (k : string) (v : json) (o : list (string * json))
  : list (string * json) :=
  match o with
  | [] => [(k, v)]
  | (k', v') :: r =>
      if String.eqb k k' then (k, v) :: r else (k', v') :: members_set k v r
  end.

(** [data[k] = v] where data came from [json.load]: only a dict takes a
    string key. *)
Definition setitem (data : json) (k : string) (v : json) : Py.result json :=
  match data with
  | JObj o => Py.Ok (JObj (members_set k v o))
  | _ => Py.Raise Py.TypeError
  end.

Definition _save_temp_progress : M unit :=
  temp_data ← _load_temp_progress;
  w ← get;
  temp_data ← match current_session (self w) with
              | Some s =>
                  lift (setitem temp_data "current_session"
                    (JObj [("session_id", JStr (session_id s));
                           ("start_time", JStr (isoformat (start_time s)));
                           ("topics_covered", json_of_str_list (topics_covered s));
                           ("performance", metrics_to_json (performance_metrics s))]))
              | None => mret temp_data
              end;
  _save_temp_progress_data temp_data.

(** ** Profiles and topics *)

(** The profile that [_create_default_profile] builds when [time.time()]
    reads [t]. *)
Definition default_profile (t : Z) : StudentProfile :=
  {| student_id := "student_" +:+ Py.decimal t;
     name := None;
     grade_level := None;
     learning_style := "visual";
     topics := ∅;
     total_sessions := 0;
     total_learning_time := 0;
     strengths := [];
     areas_for_improvement := [] |}.

(** [_create_default_profile] *)
Definition _create_default_profile : M unit :=
  t ← time_now;
  modify (set_student_profile (Some (default_profile t))).

(** [self.student_profile] where the code goes on to read an attribute
    of it. *)
Definition the_profile : M StudentProfile :=
  w ← get;
  match student_profile (self w) with
  | Some p => mret p
  | None => raise Py.AttributeError
  end.

(** [if not self.student_profile: self._create_default_profile()],
    then the profile that is there. *)
Definition ensure_profile : M StudentProfile :=
  w ← get;
  match student_profile (self w) with
  | Some _ => mret tt
  | None => _create_default_profile
  end;;
  the_profile.

(** The progress record of a topic met for the first time; [t1] and
    [t2] are the two readings of [datetime.now()]. *)
Definition fresh_topic (topic : string) (t1 t2 : datetime) : TopicProgress :=
  {| topic_name := topic;
     knowledge_level := "unknown";
     first_encountered := t1;
     last_studied := t2;
     total_time_spent := 0;
     correct_answers := 0;
     incorrect_answers := 0;
     concepts_mastered := [];
     struggling_areas := [] |}.

(** [_create_topic_progress] *)
Definition _create_topic_progress (topic : string) : M unit :=
  p ← ensure_profile;
  t1 ← now;
  t2 ← now;
  modify (set_student_profile
            (Some (set_topics (<[topic := fresh_topic topic t1 t2]> (topics p)) p))).

(** [_extract_topic_from_interaction] *)
Definition topic_keywords : list (string * list string) :=
  [("math", ["math"; "add"; "subtract"; "multiply"; "divide"; "number"; "calculate"]);
   ("reading", ["read"; "story"; "book"; "text"; "comprehension"]);
   ("science", ["science"; "experiment"; "hypothesis"; "theory"]);
   ("writing", ["write"; "essay"; "paragraph"; "grammar"])].

Definition _extract_topic_from_interaction (text : string) : option string :=
  let text_lower := Py.lower text in
  fst <$> List.find
    (fun entry => existsb (fun keyword => Py.contains keyword text_lower) (snd entry))
    topic_keywords.

(** ** Sessions *)

(** [start_new_session] *)
Definition start_new_session : M string :=
  t ← time_now;
  let session_id := "session_" +:+ Py.decimal t in
  start ← now;
  modify (set_current_session (Some
    {| session_id := session_id;
       start_time := start;
       end_time := None;
       topics_covered := [];
       interactions := [];
       performance_metrics :=
         {| questions_asked := 0; session_correct_answers := 0;
            session_incorrect_answers := 0; hints_used := 0;
            topics_explored := 0 |};
       emotion_data := [] |}));;
  mret session_id.

(** [for x in l: body(x)] *)
Fixpoint for_each {A} (l : list A) (body : A -> M unit) : M unit :=
  match l with
  | [] => mret tt
  | x :: r => body x;; for_each r body
  end.

(** One round of the loop of [end_current_session] over the topics of
    the session; [n] is [len(topics_covered)]. *)
Definition touch_topic (start finish : datetime) (n : Z) (topic : string) : M unit :=
  p ← the_profile;
  match topics p !! topic with
  | None => mret tt
  | Some tp =>
      t ← now;
      let tp' := {| topic_name := topic_name tp;
                    knowledge_level := knowledge_level tp;
                    first_encountered := first_encountered tp;
                    last_studied := t;
                    total_time_spent :=
                      total_time_spent tp + shared_minutes start finish n;
                    correct_answers := correct_answers tp;
                    incorrect_answers := incorrect_answers tp;
                    concepts_mastered := concepts_mastered tp;
                    struggling_areas := struggling_areas tp |} in
      modify (set_student_profile (Some (set_topics (<[topic := tp']> (topics p)) p)))
  end.

(** [end_current_session] *)
Definition end_current_session : M unit :=
  w ← get;
  match current_session (self w) with
  | None => mret tt
  | Some s =>
      finish ← now;
      let s := set_end_time (Some finish) s in
      modify (set_current_session (Some s));;
      w ← get;
      match student_profile (self w) with
      | Some p =>
          modify (set_student_profile (Some
            {| student_id := student_id p; name := name p;
               grade_level := grade_level p;
               learning_style := learning_style p; topics := topics p;
               total_sessions := total_sessions p + 1;
               total_learning_time :=
                 total_learning_time p + whole_minutes (start_time s) finish;
               strengths := strengths p;
               areas_for_improvement := areas_for_improvement p |}));;
          for_each (topics_covered s)
            (touch_topic (start_time s) finish (Z.of_nat (length (topics_covered s))))
      | None => mret tt
      end;;
      _save_session_data;;
      _save_student_profile;;
      modify (set_current_session None)
  end.

(** [log_interaction]; the callers modelled here pass a [str] as
    response, for which [str(response)] is the response. *)
Definition log_interaction (interaction_type input_text response : string) : M unit :=
  w ← get;
  match current_session (self w) with
  | None => start_new_session;; mret tt
  | Some _ => mret tt
  end;;
  t ← now;
  let interaction :=
    JObj [("timestamp", JStr (isoformat t));
          ("type", JStr interaction_type);
          ("input", JStr input_text);
          ("response", JStr response);
          ("success", JBool true)] in
  w ← get;
  match current_session (self w) with
  | None => raise Py.AttributeError
  | Some s =>
      let pm := performance_metrics s in
      let asked := questions_asked pm + 1 in
      let fresh_topic :=
        match _extract_topic_from_interaction input_text with
        | Some topic => if Py.in_list topic (topics_covered s) then None else Some topic
        | None => None
        end in
      modify (set_current_session (Some
        {| session_id := session_id s;
           start_time := start_time s;
           end_time := end_time s;
           topics_covered :=
             match fresh_topic with
             | Some topic => topics_covered s ++ [topic]
             | None => topics_covered s
             end;
           interactions := interactions s ++ [interaction];
           performance_metrics :=
             {| questions_asked := asked;
                session_correct_answers := session_correct_answers pm;
                session_incorrect_answers := session_incorrect_answers pm;
                hints_used := hints_used pm;
                topics_explored :=
                  match fresh_topic with
                  | Some _ => topics_explored pm + 1
                  | None => topics_explored pm
                  end |};
           emotion_data := emotion_data s |}))
  end.

(** [mark_topic_encountered] *)
Definition mark_topic_encountered (topic : string) : M unit :=
  p ← ensure_profile;
  match topics p !! topic with
  | None => _create_topic_progress topic
  | Some _ => mret tt
  end;;
  _save_student_profile.

(** ** Answers *)

(** [topic_progress.correct_answers += 1], or the same on
    [incorrect_answers]. *)
Definition count_answer (is_correct : bool) (tp : TopicProgress) : TopicProgress :=
  if is_correct
  then set_counters (correct_answers tp + 1) (incorrect_answers tp) tp
  else set_counters (correct_answers tp) (incorrect_answers tp + 1) tp.

(** The rest of the branch [if is_correct:], after the counter went up:
    [tp] is the topic's progress and [p] the profile at that point. *)
Definition review_strengths (topic : string) (tp : TopicProgress) (p : StudentProfile)
  : Py.result StudentProfile :=
  if 3 <=? correct_answers tp then
    accuracy ← Py.int_truediv (correct_answers tp)
                               (correct_answers tp + incorrect_answers tp);
    if Py.fge accuracy Py.f0_75 && negb (Py.in_list topic (strengths p)) then
      let p := set_strengths (strengths p ++ [topic]) p in
      if Py.in_list topic (areas_for_improvement p)
      then mret (set_areas_for_improvement
                   (Py.remove_first topic (areas_for_improvement p)) p)
      else mret p
    else mret p
  else mret p.

(** The rest of the branch [else:]. *)
Definition review_struggles (topic : string) (tp : TopicProgress) (p : StudentProfile)
  : Py.result StudentProfile :=
  let total_attempts := correct_answers tp + incorrect_answers tp in
  if 3 <=? total_attempts then
    accuracy ← Py.int_truediv (correct_answers tp) total_attempts;
    if Py.flt accuracy Py.f0_5 && negb (Py.in_list topic (areas_for_improvement p)) then
      let p := set_areas_for_improvement (areas_for_improvement p ++ [topic]) p in
      if Py.in_list topic (strengths p)
      then mret (set_strengths (Py.remove_first topic (strengths p)) p)
      else mret p
    else mret p
  else mret p.

(** [log_answer_result]; the parameter [difficulty] is not used by the
    method. *)
Definition log_answer_result (topic : string) (is_correct : bool) : M unit :=
  w ← get;
  match current_session (self w) with
  | None => mret tt
  | Some s =>
      let pm := performance_metrics s in
      modify (set_current_session (Some (set_metrics
        {| questions_asked := questions_asked pm;
           session_correct_answers :=
             if is_correct then session_correct_answers pm + 1
             else session_correct_answers pm;
           session_incorrect_answers :=
             if is_correct then session_incorrect_answers pm
             else session_incorrect_answers pm + 1;
           hints_used := hints_used pm;
           topics_explored := topics_explored pm |} s)));;
      p ← ensure_profile;
      match topics p !! topic with
      | None => _create_topic_progress topic
      | Some _ => mret tt
      end;;
      p ← the_profile;
      match topics p !! topic with
      | None => raise Py.KeyError
      | Some tp =>
          let tp := count_answer is_correct tp in
          let p := set_topics (<[topic := tp]> (topics p)) p in
          modify (set_student_profile (Some p));;
          p ← lift (if is_correct then review_strengths topic tp p
                    else review_struggles topic tp p);
          modify (set_student_profile (Some p))
      end;;
      _save_temp_progress;;
      _save_student_profile
  end.

(** The profile that a call [log_answer_result(topic, is_correct)] made
    with an active session leaves in memory, as a function of the
    profile [before] the call and of the number [n] of clock readings
    made so far (theorem [log_answer_result_profile] below). *)
Definition profile_after_answer (topic : string) (is_correct : bool) (n : nat)
  (before : option StudentProfile) : StudentProfile :=
  let '(p0, n) := match before with
                  | Some p => (p, n)
                  | None => (default_profile (time_time n), S n)
                  end in
  let tp0 := default (fresh_topic topic (datetime_now n) (datetime_now (S n)))
                     (topics p0 !! topic) in
  let tp := count_answer is_correct tp0 in
  let p1 := set_topics (<[topic := tp]> (topics p0)) p0 in
  match (if is_correct then review_strengths topic tp p1
         else review_struggles topic tp p1) with
  | Py.Ok p2 => p2
  | Py.Raise _ => p1
  end.

(** A sequence of calls [log_answer_result(topic, is_correct)], each
    made on the state the previous one left, whether it returned or
    raised. *)
Fixpoint log_answers (calls : list (string * bool)) (w : World) : World :=
  match calls with
  | [] => w
  | (topic, is_correct) :: rest =>
      log_answers rest (snd (log_answer_result topic is_correct w))
  end.

(** The two lists of a profile are separate: neither repeats a topic
    and no topic is in both. *)
Definition lists_separate (p : StudentProfile) : Prop :=
  NoDup (strengths p) /\ NoDup (areas_for_improvement p) /\
  forall topic, topic ∈ strengths p -> topic ∈ areas_for_improvement p -> False.

(** ** Queries *)


(** The level chosen by [get_topic_knowledge] from the accuracy and the
    number of answers. *)
Definition level_of (accuracy : Py.float) (total_answers : Z) : string :=
  if Py.fge accuracy Py.f0_8 && (5 <=? total_answers) then "advanced"
  else if Py.fge accuracy Py.f0_6 && (3 <=? total_answers) then "intermediate"
  else "beginner".

(** [get_topic_knowledge]: [None], or the dict it builds. *)
Definition get_topic_knowledge (t : LearningTracker) (topic : string)
  : Py.result (option (list (string * json))) :=
  match student_profile t with
  | None => mret None
  | Some p =>
      match topics p !! topic with
      | None => mret None
      | Some topic_progress =>
          let total_answers :=
            correct_answers topic_progress + incorrect_answers topic_progress in
          if total_answers =? 0 then
            mret (Some [("level", JStr "unknown");
                        ("performance", JStr "no data");
                        ("needs_assessment", JBool true)])
          else
            accuracy ← Py.int_truediv (correct_answers topic_progress) total_answers;
            let level := level_of accuracy total_answers in
            mret (Some
              [("level", JStr level);
               ("performance",
                JStr (format_percent1 accuracy +:+ " accuracy (" +:+
                      Py.decimal (correct_answers topic_progress) +:+ "/" +:+
                      Py.decimal total_answers +:+ ")"));
               ("struggling_areas", json_of_str_list (struggling_areas topic_progress));
               ("concepts_mastered", json_of_str_list (concepts_mastered topic_progress));
               ("needs_assessment", JBool false)])
      end
  end.

(** [get_topic_performance] *)
Definition get_topic_performance (t : LearningTracker) (topic : string)
  : option (list (string * json)) :=
  match student_profile t with
  | None => None
  | Some p =>
      match topics p !! topic with
      | None => None
      | Some tp =>
          Some [("correct_answers", JInt (correct_answers tp));
                ("incorrect_answers", JInt (incorrect_answers tp));
                ("total_time", JInt (total_time_spent tp));
                ("last_studied", JStr (isoformat (last_studied tp)));
                ("struggling_areas", json_of_str_list (struggling_areas tp))]
      end
  end.

(** ** Construction and reset *)


(** [reset_progress] *)
Definition reset_progress : M unit :=
  modify (fun w =>
    {| self := {| current_session := None; student_profile := None |};
       disk := {| profile_file := NoFile; sessions_file := NoFile;
                  temp_progress_file := NoFile |};
       ticks := ticks w |}).

End LearningTrackerModel.

(* ===================================================================== *)
(** * backend/learning_tracker.py: learning objectives *)
(* ===================================================================== *)

(** [bool(x)] for a value that [json.load] returned. *)
Definition truthy (j : json) : bool :=
  match j with
  | JNull => false
  | JBool b => b
  | JInt z => negb (z =? 0)
  | JFloat f => negb (Py.is_zero f)
  | JStr s => negb (String.eqb s "")
  | JList l => negb (Nat.eqb (length l) 0)
  | JObj o => negb (Nat.eqb (length o) 0)
  end.

(** [x == s] for a loaded value x and a [str] s. *)
Definition json_eq_str (j : json) (s : string) : bool :=
  match j with
  | JStr s' => String.eqb s' s
  | _ => false
  end.

(** The items that [for obj in v] visits: the items of a list, the keys
    of a dict, the characters of a string; [TypeError] for a value that
    is not iterable. *)
Definition items_of (v : json) : Py.result (list json) :=
  match v with
  | JList l => Py.Ok l
  | JObj o => Py.Ok (JStr <$> o.*1)
  | JStr s => Py.Ok ((fun c => JStr (String c EmptyString)) <$> list_ascii_of_string s)
  | JNull | JBool _ | JInt _ | JFloat _ => Py.Raise Py.TypeError
  end.

(** [[obj for obj in items if not obj.get("completed", False)]]: only a
    dict has [get]. *)
Fixpoint active_of (items : list json) : Py.result (list json) :=
  match items with
  | [] => Py.Ok []
  | obj :: rest =>
      match obj with
      | JObj d =>
          let completed := default (JBool false) (dict_get "completed" d) in
          rest' ← active_of rest;
          mret (if truthy completed then rest' else obj :: rest')
      | _ => Py.Raise Py.AttributeError
      end
  end.

(** The list that the functions of the learning objectives work on:
    empty when the progress file is absent, unreadable or an object
    without "learning_objectives", the list under that key when there is
    one; [None] for any other content. *)
Definition objectives_list (f : File) : option (list json) :=
  match f with
  | NoFile | Garbled => Some []
  | Doc (JObj o) =>
      match dict_get "learning_objectives" o with
      | None => Some []
      | Some (JList l) => Some l
      | Some _ => None
      end
  | Doc _ => None
  end.

(** An item of that list that is a dict with an "objective" other than
    [objective]. *)
Definition other_objective (objective : string) (item : json) : bool :=
  match item with
  | JObj d =>
      match dict_get "objective" d with
      | Some v => negb (json_eq_str v objective)
      | None => false
      end
  | _ => false
  end.

Section LearningObjectivesModel.
Context `{PyEnv}.

(** The dict [objective_data] of [save_learning_objective], created at
    time [t]. *)
Definition objective_data (topic objective difficulty : string) (t : datetime) : json :=
  JObj [("topic", JStr topic);
        ("objective", JStr objective);
        ("difficulty", JStr difficulty);
        ("created_at", JStr (isoformat t));
        ("completed", JBool false)].

(** [save_learning_objective] *)
Definition save_learning_objective (topic objective difficulty : string) : M unit :=
  temp_data ← _load_temp_progress;
  (* if "learning_objectives" not in temp_data:
         temp_data["learning_objectives"] = [] *)
  temp_data ← match temp_data with
              | JObj o =>
                  match dict_get "learning_objectives" o with
                  | None => mret (JObj (members_set "learning_objectives" (JList []) o))
                  | Some _ => mret temp_data
                  end
              | JList l =>
                  if existsb (fun x => json_eq_str x "learning_objectives") l
                  then mret temp_data
                  else raise Py.TypeError          (* no item assignment by key *)
              | JStr s =>
                  if Py.contains "learning_objectives" s
                  then mret temp_data
                  else raise Py.TypeError          (* no item assignment *)
              | JNull | JBool _ | JInt _ | JFloat _ =>
                  raise Py.TypeError               (* not iterable *)
              end;
  t ← now;
  let entry := objective_data topic objective difficulty t in
  (* temp_data["learning_objectives"].append(objective_data) *)
  match temp_data with
  | JObj o =>
      match dict_get "learning_objectives" o with
      | Some (JList l) =>
          _save_temp_progress_data
            (JObj (members_set "learning_objectives" (JList (l ++ [entry])) o))
      | Some _ => raise Py.AttributeError          (* no [append] *)
      | None => raise Py.KeyError
      end
  | _ => raise Py.TypeError                        (* no subscript by key *)
  end.

(** The loop of [mark_objective_completed] over the items it visits:
    the first item whose "objective" is [objective] is completed, at the
    time read then, and the loop stops. *)
Fixpoint mark_loop (objective : string) (items : list json) : M (list json) :=
  match items with
  | [] => mret []
  | obj :: rest =>
      match obj with
      | JObj d =>
          match dict_get "objective" d with
          | None => raise Py.KeyError
          | Some v =>
              if json_eq_str v objective then
                t ← now;
                let d := members_set "completed" (JBool true) d in
                let d := members_set "completed_at" (JStr (isoformat t)) d in
                mret (JObj d :: rest)
              else
                rest' ← mark_loop objective rest;
                mret (obj :: rest')
          end
      | _ => raise Py.TypeError                    (* obj["objective"] *)
      end
  end.

(** [mark_objective_completed] *)
Definition mark_objective_completed (objective : string) : M unit :=
  temp_data ← _load_temp_progress;
  match temp_data with
  | JObj o =>
      match dict_get "learning_objectives" o with
      | None => _save_temp_progress_data temp_data
      | Some v =>
          items ← lift (items_of v);
          items' ← mark_loop objective items;
          match v with
          | JList _ =>
              _save_temp_progress_data
                (JObj (members_set "learning_objectives" (JList items') o))
          | _ => _save_temp_progress_data temp_data
          end
      end
  | _ => raise Py.AttributeError                   (* no [get] *)
  end.

(** [get_active_objectives] *)
Definition get_active_objectives : M (list json) :=
  temp_data ← _load_temp_progress;
  match temp_data with
  | JObj o =>
      match dict_get "learning_objectives" o with
      | None => mret []
      | Some v =>
          items ← lift (items_of v);
          lift (active_of items)
      end
  | _ => raise Py.AttributeError                   (* no [get] *)
  end.

End LearningObjectivesModel.

(* ===================================================================== *)
(** * Sequences of calls on the tracker *)
(* ===================================================================== *)

Section TrackerCalls.
Context `{PyEnv}.

(** The calls that the rest of the program makes on the tracker to
    record something. *)
Inductive Call : Type :=
| StartNewSession
| EndCurrentSession
| LogInteraction (interaction_type input_text response : string)
| LogAnswerResult (topic : string) (is_correct : bool)
| MarkTopicEncountered (topic : string)
| SaveLearningObjective (topic objective difficulty : string)
| MarkObjectiveCompleted (objective : string)
| ResetProgress.

Definition run_call (c : Call) : M unit :=
  match c with
  | StartNewSession => start_new_session;; mret tt
  | EndCurrentSession => end_current_session
  | LogInteraction interaction_type input_text response =>
      log_interaction interaction_type input_text response
  | LogAnswerResult topic is_correct => log_answer_result topic is_correct
  | MarkTopicEncountered topic => mark_topic_encountered topic
  | SaveLearningObjective topic objective difficulty =>
      save_learning_objective topic objective difficulty
  | MarkObjectiveCompleted objective => mark_objective_completed objective
  | ResetProgress => reset_progress
  end.

(** A sequence of calls, each made on the state that the previous one
    left, whether it returned or raised. *)
Fixpoint run_calls (calls : list Call) (w : World) : World :=
  match calls with
  | [] => w
  | c :: rest => run_calls rest (snd (run_call c w))
  end.

(** Is the call [log_answer_result(topic, is_correct)]? *)
Definition is_answer (topic : string) (is_correct : bool) (c : Call) : bool :=
  match c with
  | LogAnswerResult topic' is_correct' =>
      String.eqb topic' topic && Bool.eqb is_correct' is_correct
  | _ => false
  end.

(** The calls after which no session is active, and the calls that are
    there to change the answer counters or to forget them. *)
Definition ends_session (c : Call) : bool :=
  match c with
  | EndCurrentSession | ResetProgress => true
  | _ => false
  end.

Definition changes_answers (c : Call) : bool :=
  match c with
  | LogAnswerResult _ _ | ResetProgress => true
  | _ => false
  end.

Definition changes_objectives (c : Call) : bool :=
  match c with
  | SaveLearningObjective _ _ _ | MarkObjectiveCompleted _ | ResetProgress => true
  | _ => false
  end.

(** How many of the calls are [log_answer_result(topic, is_correct)]. *)
Definition logged_answers (topic : string) (is_correct : bool) (calls : list Call) : Z :=
  Z.of_nat (length (List.filter (is_answer topic is_correct) calls)).

(** The bookkeeping of a session agrees with its lists: one question
    asked per interaction, one topic explored per topic covered, each
    topic covered once and taken from the keyword table. *)
Definition session_consistent (s : LearningSession) : Prop :=
  questions_asked (performance_metrics s) = Z.of_nat (length (interactions s)) /\
  topics_explored (performance_metrics s) = Z.of_nat (length (topics_covered s)) /\
  NoDup (topics_covered s) /\
  topics_covered s ⊆ topic_keywords.*1.

(** The two answer counters that a profile holds for a topic, 0 and 0
    without a profile or without a record of the topic. *)
Definition answer_counters (profile : option StudentProfile) (topic : string) : Z * Z :=
  match profile ≫= (fun p => topics p !! topic) with
  | Some tp => (correct_answers tp, incorrect_answers tp)
  | None => (0, 0)
  end.

(** What the calls other than [log_answer_result] and [reset_progress]
    keep of a profile: the two lists and every answer counter. *)
Definition answers_kept (before after : option StudentProfile) : Prop :=
  from_option strengths [] after = from_option strengths [] before /\
  from_option areas_for_improvement [] after =
    from_option areas_for_improvement [] before /\
  forall topic, answer_counters after topic = answer_counters before topic.

End TrackerCalls.


(* ===================================================================== *)
(** * backend/intent_classifier.py *)
(* ===================================================================== *)

(** The dataclass [IntentPattern]. *)
Module IntentPattern.
Record t : Type := {
  pattern : string;
  intent : string;
  confidence : Py.float;
  keywords : list string;
}.
End IntentPattern.

(** The dict [best_match] of [_check_patterns]. *)
Module BestMatch.
Record t : Type := {
  confidence : Py.float;
  pattern : option string;
  keywords : list string;
}.
End BestMatch.

(** The dict returned by [classify_intent]. *)
Module IntentResult.
Record t : Type := {
  intent : string;
  confidence : Py.float;
  matched_pattern : option string;
  keywords : list string;
  original_text : string;
}.
End IntentResult.

(** [self.command_patterns] *)
Definition command_patterns : list IntentPattern.t :=
  [ (* Camera commands *)
    {| IntentPattern.pattern := "(turn on|start|open|activate|enable).*(camera|cam)";
       IntentPattern.intent := "command";
       IntentPattern.confidence := Py.f0_9;
       IntentPattern.keywords := ["camera"; "turn on"; "start"; "activate"] |};
    {| IntentPattern.pattern := "(turn off|stop|close|deactivate|disable).*(camera|cam)";
       IntentPattern.intent := "command";
       IntentPattern.confidence := Py.f0_9;
       IntentPattern.keywords := ["camera"; "turn off"; "stop"; "deactivate"] |};
    {| IntentPattern.pattern := "(take|capture).*(photo|picture|image|snapshot)";
       IntentPattern.intent := "command";
       IntentPattern.confidence := Py.f0_8;
       IntentPattern.keywords := ["take"; "capture"; "photo"; "picture"] |};
    (* Math operation commands *)
    {| IntentPattern.pattern := "(add|plus|\+).*(\d+).*(\d+)";
       IntentPattern.intent := "command";
       IntentPattern.confidence := Py.f0_8;
       IntentPattern.keywords := ["add"; "plus"; "numbers"] |};
    {| IntentPattern.pattern := "(subtract|minus|\-).*(\d+).*(\d+)";
       IntentPattern.intent := "command";
       IntentPattern.confidence := Py.f0_8;
       IntentPattern.keywords := ["subtract"; "minus"; "numbers"] |};
    {| IntentPattern.pattern := "(multiply|times|\*).*(\d+).*(\d+)";
       IntentPattern.intent := "command";
       IntentPattern.confidence := Py.f0_8;
       IntentPattern.keywords := ["multiply"; "times"; "numbers"] |};
    {| IntentPattern.pattern := "(divide|divided by|\/).*(\d+).*(\d+)";
       IntentPattern.intent := "command";
       IntentPattern.confidence := Py.f0_8;
       IntentPattern.keywords := ["divide"; "numbers"] |};
    (* Clear/reset commands *)
    {| IntentPattern.pattern := "(clear|clean|erase|reset).*(board|screen|canvas)";
       IntentPattern.intent := "command";
       IntentPattern.confidence := Py.f0_9;
       IntentPattern.keywords := ["clear"; "clean"; "board"; "screen"] |};
    (* Drawing commands *)
    {| IntentPattern.pattern := "(draw|show me|display).*(apple|apples)";
       IntentPattern.intent := "command";
       IntentPattern.confidence := Py.f0_7;
       IntentPattern.keywords := ["draw"; "show"; "apple"] |};
    {| IntentPattern.pattern := "(draw|show me|display).*(circle|circles)";
       IntentPattern.intent := "command";
       IntentPattern.confidence := Py.f0_7;
       IntentPattern.keywords := ["draw"; "show"; "circle"] |};
    (* Timer commands *)
    {| IntentPattern.pattern := "(set|start).*(timer|alarm).*(\d+).*(minute|second)";
       IntentPattern.intent := "command";
       IntentPattern.confidence := Py.f0_8;
       IntentPattern.keywords := ["timer"; "set"; "minute"; "second"] |};
    (* Weather commands *)
    {| IntentPattern.pattern := "(weather|temperature).*in.*([A-Za-z\s]+)";
       IntentPattern.intent := "command";
       IntentPattern.confidence := Py.f0_7;
       IntentPattern.keywords := ["weather"; "temperature"] |} ].

(** [self.educational_patterns] *)
Definition educational_patterns : list IntentPattern.t :=
  [ {| IntentPattern.pattern := "(explain|teach|how|why|what|when|where)";
       IntentPattern.intent := "educational";
       IntentPattern.confidence := Py.f0_6;
       IntentPattern.keywords := ["explain"; "teach"; "how"; "why"; "what"] |};
    {| IntentPattern.pattern := "(help me|can you|could you|show me how)";
       IntentPattern.intent := "educational";
       IntentPattern.confidence := Py.f0_7;
       IntentPattern.keywords := ["help"; "show me"; "how"] |};
    {| IntentPattern.pattern := "(i don't understand|confused|help)";
       IntentPattern.intent := "educational";
       IntentPattern.confidence := Py.f0_8;
       IntentPattern.keywords := ["understand"; "confused"; "help"] |};
    {| IntentPattern.pattern := "(solve|work out|figure out|calculate)";
       IntentPattern.intent := "educational";
       IntentPattern.confidence := Py.f0_6;
       IntentPattern.keywords := ["solve"; "work out"; "calculate"] |} ].

(** What makes the regular expression of a table entry decide alone: its
    confidence is a number above 0.6, beyond every keyword score, and
    its keyword list has at most five entries. *)
Definition decisive (pattern_obj : IntentPattern.t) : bool :=
  negb (Py.is_nan (IntentPattern.confidence pattern_obj)) &&
  Py.fgt (IntentPattern.confidence pattern_obj) Py.f0_6 &&
  (Z.of_nat (length (IntentPattern.keywords pattern_obj)) <=? 5).

Section IntentClassifierModel.
Context `{PyEnv}.

(** [sum(1 for keyword in keywords if keyword in text)] *)
Definition keyword_matches (keywords : list string) (text : string) : Z :=
  Z.of_nat (length (List.filter (fun keyword => Py.contains keyword text) keywords)).

(** The confidence that one round of the loop of [_check_patterns]
    computes for [pattern_obj]. *)
Definition pattern_confidence (text : string) (pattern_obj : IntentPattern.t)
  : Py.result Py.float :=
  if re_search (IntentPattern.pattern pattern_obj) text then
    mret (IntentPattern.confidence pattern_obj)
  else
    let n := keyword_matches (IntentPattern.keywords pattern_obj) text in
    if 0 <? n then
      q ← Py.int_truediv n (Z.of_nat (length (IntentPattern.keywords pattern_obj)));
      mret (Py.fmul q Py.f0_5)
    else mret Py.f0_0.

(** The loop of [_check_patterns], from the best match so far. *)
Fixpoint check_loop (text : string) (patterns : list IntentPattern.t)
  (best_match : BestMatch.t) : Py.result BestMatch.t :=
  match patterns with
  | [] => mret best_match
  | pattern_obj :: rest =>
      confidence ← pattern_confidence text pattern_obj;
      check_loop text rest
        (if Py.fgt confidence (BestMatch.confidence best_match)
         then {| BestMatch.confidence := confidence;
                 BestMatch.pattern := Some (IntentPattern.pattern pattern_obj);
                 BestMatch.keywords := IntentPattern.keywords pattern_obj |}
         else best_match)
  end.

(** [_check_patterns] *)
Definition _check_patterns (text : string) (patterns : list IntentPattern.t)
  : Py.result BestMatch.t :=
  check_loop text patterns
    {| BestMatch.confidence := Py.f0_0;
       BestMatch.pattern := None;
       BestMatch.keywords := [] |}.

(** [classify_intent] *)
Definition classify_intent (text : string) : Py.result IntentResult.t :=
  let text_lower := Py.strip (Py.lower text) in
  command_result ← _check_patterns text_lower command_patterns;
  if Py.fgt (BestMatch.confidence command_result) Py.f0_6 then
    mret {| IntentResult.intent := "command";
            IntentResult.confidence := BestMatch.confidence command_result;
            IntentResult.matched_pattern := BestMatch.pattern command_result;
            IntentResult.keywords := BestMatch.keywords command_result;
            IntentResult.original_text := text |}
  else
    educational_result ← _check_patterns text_lower educational_patterns;
    if Py.fgt (BestMatch.confidence educational_result) Py.f0_5 then
      mret {| IntentResult.intent := "educational";
              IntentResult.confidence := BestMatch.confidence educational_result;
              IntentResult.matched_pattern := BestMatch.pattern educational_result;
              IntentResult.keywords := BestMatch.keywords educational_result;
              IntentResult.original_text := text |}
    else
      mret {| IntentResult.intent := "educational";
              IntentResult.confidence := Py.f0_5;
              IntentResult.matched_pattern := None;
              IntentResult.keywords := [];
              IntentResult.original_text := text |}.

(** [any(word in text_lower for word in words)] *)
Definition any_in (words : list string) (text_lower : string) : bool :=
  existsb (fun word => Py.contains word text_lower) words.

(** [get_command_type] *)
Definition get_command_type (text : string) : option string :=
  let text_lower := Py.lower text in
  let camera :=
    if any_in ["camera"; "cam"] text_lower then
      if any_in ["on"; "start"; "open"; "activate"] text_lower then Some "camera_on"
      else if any_in ["off"; "stop"; "close"; "deactivate"] text_lower then Some "camera_off"
      else if any_in ["take"; "capture"; "photo"; "picture"] text_lower then Some "take_photo"
      else None
    else None in
  match camera with
  | Some c => Some c
  | None =>
      if any_in ["add"; "plus"; "+"] text_lower then Some "math_addition"
      else if any_in ["subtract"; "minus"; "-"] text_lower then Some "math_subtraction"
      else if any_in ["multiply"; "times"; "*"] text_lower then Some "math_multiplication"
      else if any_in ["divide"; "/"] text_lower then Some "math_division"
      else if (Py.contains "draw" text_lower || Py.contains "show" text_lower)
              && Py.contains "apple" text_lower then Some "draw_apple"
      else if (Py.contains "draw" text_lower || Py.contains "show" text_lower)
              && Py.contains "circle" text_lower then Some "draw_circle"
      else if any_in ["clear"; "clean"; "erase"; "reset"] text_lower then Some "clear_board"
      else if Py.contains "timer" text_lower then Some "set_timer"
      else if Py.contains "weather" text_lower || Py.contains "temperature" text_lower
           then Some "get_weather"
      else None
  end.

End IntentClassifierModel.

(** The same relative to any threshold. *)
Definition decides_above (threshold : Py.float) (pattern_obj : IntentPattern.t) : bool :=
  negb (Py.is_nan (IntentPattern.confidence pattern_obj)) &&
  Py.fgt (IntentPattern.confidence pattern_obj) threshold &&
  (Z.of_nat (length (IntentPattern.keywords pattern_obj)) <=? 5).

(** The best match that the loop of [_check_patterns] records for a
    pattern whose regular expression matched. *)
Definition match_of (pattern_obj : IntentPattern.t) : BestMatch.t :=
  {| BestMatch.confidence := IntentPattern.confidence pattern_obj;
     BestMatch.pattern := Some (IntentPattern.pattern pattern_obj);
     BestMatch.keywords := IntentPattern.keywords pattern_obj |}.

Section BestMatchModel.
Context `{PyEnv}.

(** What the loop of [_check_patterns] keeps true of the best match so
    far, [seen] being the patterns gone through: above the threshold it
    is the record of a pattern seen whose regular expression matches,
    and no such pattern has a higher confidence. *)
Definition best_of (threshold : Py.float) (text : string)
  (seen : list IntentPattern.t) (best : BestMatch.t) : Prop :=
  Py.is_nan (BestMatch.confidence best) = false /\
  (Py.fgt (BestMatch.confidence best) threshold = true ->
   exists pattern_obj, pattern_obj ∈ seen /\
     re_search (IntentPattern.pattern pattern_obj) text = true /\
     best = match_of pattern_obj) /\
  (forall pattern_obj, pattern_obj ∈ seen ->
     re_search (IntentPattern.pattern pattern_obj) text = true ->
     Py.fgt (IntentPattern.confidence pattern_obj) (BestMatch.confidence best) = false).

End BestMatchModel.

Section GreatestMatchModel.
Context `{PyEnv}.

(** The dict [best_match] that [_check_patterns] starts from. *)
Definition no_match : BestMatch.t :=
  {| BestMatch.confidence := Py.f0_0;
     BestMatch.pattern := None;
     BestMatch.keywords := [] |}.

(** A pattern of a table and the confidence it yields on a text. *)
Definition yields (text : string) (table : list IntentPattern.t)
  (pattern_obj : IntentPattern.t) (confidence : Py.float) : Prop :=
  pattern_obj ∈ table /\ pattern_confidence text pattern_obj = Py.Ok confidence.

(** The best-matching pattern of a table on a text: one that yields a
    confidence that no pattern of the table exceeds. *)
Definition best_matching (text : string) (table : list IntentPattern.t)
  (pattern_obj : IntentPattern.t) (confidence : Py.float) : Prop :=
  yields text table pattern_obj confidence /\
  forall other confidence', yields text table other confidence' ->
    Py.fgt confidence' confidence = false.

(** What the loop of [_check_patterns] keeps true of the best match so
    far, in these terms: no pattern gone through yields more, and it is
    the dict the loop started from or the record of a pattern gone
    through with the confidence that this pattern yields. *)
Definition greatest_of (text : string) (seen : list IntentPattern.t)
  (best : BestMatch.t) : Prop :=
  Py.is_nan (BestMatch.confidence best) = false /\
  (forall pattern_obj confidence, yields text seen pattern_obj confidence ->
     Py.fgt confidence (BestMatch.confidence best) = false) /\
  (best = no_match \/
   exists pattern_obj,
     yields text seen pattern_obj (BestMatch.confidence best) /\
     BestMatch.pattern best = Some (IntentPattern.pattern pattern_obj) /\
     BestMatch.keywords best = IntentPattern.keywords pattern_obj).

End GreatestMatchModel.



(* ===================================================================== *)
(** * backend/core_agent.py *)
(* ===================================================================== *)

(** The coroutine that [process_text_input] awaits and whose result it
    returns, or the error response of its [except] clause. *)
Inductive Handling : Type :=
| HandleCommand (text : string) (intent_result : IntentResult.t)
    (* [self._handle_command(text, intent_result)], which starts with
       [self.command_executor.execute_command(text, intent_result)] *)
| HandleEducationalQuery (text : string) (intent_result : IntentResult.t)
    (* [self._handle_educational_query(text, intent_result)], the LLM path *)
| ErrorResponse (e : Py.exn).

Section CoreAgentModel.
Context `{PyEnv}.

(** [process_text_input] up to the call it delegates to. *)
Definition process_text_input (text : string) : Handling :=
  match classify_intent text with
  | Py.Raise e => ErrorResponse e
  | Py.Ok intent_result =>
      let intent_type := IntentResult.intent intent_result in
      let confidence := IntentResult.confidence intent_result in
      if String.eqb intent_type "command" && Py.fgt confidence Py.f0_7
      then HandleCommand text intent_result
      else HandleEducationalQuery text intent_result
  end.

End CoreAgentModel.

(* ===================================================================== *)
(** * backend/commands/math_commands.py *)
(* ===================================================================== *)

(** One entry of [self.grade_approaches]. *)
Module Approach.
Record t : Type := {
  max_numbers : Z;
  use_objects : bool;
  simple_language : bool;
  visual_heavy : bool;
}.
End Approach.

(** The dict that a command returns. *)
Module CommandResult.
Record t : Type := {
  success : bool;
  response : string;
  scene : list json;
  final_answer : list (string * json);
}.
End CommandResult.

Definition third_grade : Approach.t :=
  {| Approach.max_numbers := 1000; Approach.use_objects := false;
     Approach.simple_language := false; Approach.visual_heavy := false |}.

(** [self.grade_approaches] *)
Definition grade_approaches : list (string * Approach.t) :=
  [("kindergarten",
    {| Approach.max_numbers := 10; Approach.use_objects := true;
       Approach.simple_language := true; Approach.visual_heavy := true |});
   ("first_grade",
    {| Approach.max_numbers := 20; Approach.use_objects := true;
       Approach.simple_language := true; Approach.visual_heavy := true |});
   ("second_grade",
    {| Approach.max_numbers := 100; Approach.use_objects := false;
       Approach.simple_language := true; Approach.visual_heavy := true |});
   ("third_grade", third_grade);
   ("fourth_grade",
    {| Approach.max_numbers := 10000; Approach.use_objects := false;
       Approach.simple_language := false; Approach.visual_heavy := false |});
   ("fifth_grade",
    {| Approach.max_numbers := 100000; Approach.use_objects := false;
       Approach.simple_language := false; Approach.visual_heavy := false |});
   ("sixth_grade",
    {| Approach.max_numbers := 1000000; Approach.use_objects := false;
       Approach.simple_language := false; Approach.visual_heavy := false |})].

(** [self.grade_approaches.get(grade_level, self.grade_approaches["third_grade"])] *)
Definition grade_approach (grade_level : string) : Approach.t :=
  match List.find (fun entry => String.eqb (fst entry) grade_level) grade_approaches with
  | Some entry => snd entry
  | None => third_grade
  end.

(** Sum and product of a list of integers. *)
Definition Zsum (l : list Z) : Z := foldr Z.add 0 l.
Definition Zproduct (l : list Z) : Z := foldr Z.mul 1 l.

(** The line feed of the Python literals. *)
Definition nl : string := String (ascii_of_nat 10) EmptyString.

Section MathCommandsModel.
Context `{PyEnv}.

(** [str(n)], also what an f-string prints for [{n}]: for an [int] the
    conversion that the digit limit guards. *)
Definition str_number (n : Py.number) : Py.result string :=
  match n with
  | Py.Int z => Py.str_int z
  | Py.Float f => mret (float_repr f)
  end.

(** [str(int(n) if n == int(n) else n)] *)
Definition display (n : Py.number) : Py.result string :=
  i ← Py.int n;
  if Py.eqb n (Py.Int i) then Py.str_int i else str_number n.

(** [sep.join(str(n) for n in numbers)]: the numbers are converted from
    left to right. *)
Definition join_numbers (sep : string) (numbers : list Py.number) : Py.result string :=
  strs ← mapM str_number numbers;
  mret (Py.join sep strs).

(** The parts of an f-string of the module: literal text, a field [{n}]
    for a number, a field [{sep.join(str(n) for n in numbers)}]. *)
Inductive field : Type :=
| Txt (s : string)
| Num (n : Py.number)
| Join (sep : string) (numbers : list Py.number).

Definition str_field (f : field) : Py.result string :=
  match f with
  | Txt s => mret s
  | Num n => str_number n
  | Join sep numbers => join_numbers sep numbers
  end.

(** An f-string: its fields are converted from left to right, and the
    first conversion that raises ends it. *)
Fixpoint fstring (fields : list field) : Py.result string :=
  match fields with
  | [] => mret ""
  | f :: rest =>
      s ← str_field f;
      r ← fstring rest;
      mret (s +:+ r)
  end.

(** A text element of a scene. *)
Definition text_element (id : string) (x : Z) (text : string) : json :=
  JObj [("id", JStr id); ("type", JStr "text"); ("x", JInt x); ("y", JInt 150);
        ("text", JStr text); ("fontSize", JInt 32); ("fontFamily", JStr "Arial")].

(** An apple of a scene. *)
Definition apple_element (id : string) (x y : Z) : json :=
  JObj [("id", JStr id); ("type", JStr "apple"); ("x", JInt x); ("y", JInt y);
        ("count", JInt 1)].

(** [sum(numbers)]: from 0, left to right. *)
Definition sum (numbers : list Py.number) : Py.result Py.number :=
  foldl (fun acc n => acc ← acc; Py.add acc n) (mret (Py.Int 0)) numbers.

(** [for num in rest: result = result op num] *)
Definition accumulate (op : Py.number -> Py.number -> Py.result Py.number)
  (result : Py.number) (rest : list Py.number) : Py.result Py.number :=
  foldl (fun acc n => acc ← acc; op acc n) (mret result) rest.

(** *** Addition *)

Definition _create_addition_explanation (numbers : list Py.number)
  (result : Py.number) (approach : Approach.t) (grade_level : string)
  : Py.result string :=
  if Approach.simple_language approach then
    match numbers with
    | [n0; n1] =>
        explanation ←
          fstring [Txt "Let's add "; Num n0; Txt " and "; Num n1;
                   Txt (" together!" +:+ nl +:+ nl)];
        explanation ←
          (if Approach.use_objects approach && Py.leb (Py.max n0 [n1]) (Py.Int 10) then
             apples ←
               fstring [Txt "Imagine we have "; Num n0; Txt " apples and we get ";
                        Num n1; Txt " more apples. "];
             altogether ←
               fstring [Txt "Now we have "; Num result;
                        Txt (" apples altogether!" +:+ nl +:+ nl)];
             mret (explanation +:+ apples +:+ altogether)
           else mret explanation);
        so ← fstring [Txt "So "; Num n0; Txt " + "; Num n1; Txt " = "; Num result];
        mret (explanation +:+ so)
    | _ =>
        explanation ←
          fstring [Txt "Let's add all these numbers: "; Join ", " numbers;
                   Txt ("." +:+ nl +:+ nl)];
        together ←
          fstring [Txt "When we add them all together, we get "; Num result; Txt "."];
        mret (explanation +:+ together)
    end
  else
    explanation ←
      fstring [Txt "Let's solve "; Join " + " numbers; Txt ("." +:+ nl +:+ nl)];
    let explanation :=
      if (2 <? length numbers)%nat then
        explanation +:+
        "We can add multiple numbers by combining their values step by step." +:+
        nl +:+ nl
      else explanation in
    total ←
      fstring [Txt "The sum of "; Join " + " numbers; Txt " is "; Num result; Txt "."];
    mret (explanation +:+ total).

(** The loop that lays the operands out with [sign] between them; [i]
    and [x_position] are the index and the abscissa reached, the result
    carries the abscissa after the last operand.  The index [i] of an
    element is printed by [Py.decimal]. *)
Fixpoint operand_row (name sign : string) (i x_position : Z) (numbers : list Py.number)
  : Py.result (list json * Z) :=
  match numbers with
  | [] => mret ([], x_position)
  | num :: rest =>
      t ← display num;
      let item := text_element ("num-" +:+ Py.decimal i) x_position t in
      let x_position := x_position + 60 in
      match rest with
      | [] => mret ([item], x_position)
      | _ =>
          let op := text_element (name +:+ "-" +:+ Py.decimal i) x_position sign in
          let x_position := x_position + 40 in
          '(items, x_position) ← operand_row name sign (i + 1) x_position rest;
          mret (item :: op :: items, x_position)
      end
  end.

(** [for i in range(n): scene.append(apple ...)] *)
Definition apple_group (group : string) (x_start y_pos n : Z) : list json :=
  (fun i => apple_element (group +:+ "-" +:+ Py.decimal i) (x_start + i * 50) y_pos)
    <$> seqZ 0 n.

Definition _create_addition_scene (numbers : list Py.number) (result : Py.number)
  (approach : Approach.t) : Py.result (list json) :=
  '(items, x_position) ← operand_row "plus" "+" 0 100 numbers;
  r ← display result;
  let scene := items ++ [text_element "equals" x_position "=";
                         text_element "result" (x_position + 40) r] in
  match numbers with
  | [n0; n1] =>
      if Approach.use_objects approach && Py.leb (Py.max n0 [n1]) (Py.Int 10) then
        let y_pos := 250 in
        let x_start := 100 in
        c0 ← Py.int n0;
        let first := apple_group "apple-group1" x_start y_pos c0 in
        c0' ← Py.int n0;
        let x_start := x_start + (c0' * 50 + 80) in
        c1 ← Py.int n1;
        mret (scene ++ first ++ apple_group "apple-group2" x_start y_pos c1)
      else mret scene
  | _ => mret scene
  end.

(** The dict of a command that could not be carried out. *)
Definition failure (message : string) : CommandResult.t :=
  {| CommandResult.success := false;
     CommandResult.response := message;
     CommandResult.scene := [];
     CommandResult.final_answer := [] |}.

(** [if self.learning_tracker: mark_topic_encountered("math");
    log_interaction(kind, text, solved)]: the f-string [solved] is
    evaluated between the two calls, and only with a tracker. *)
Definition log_progress (learning_tracker : bool) (kind text : string)
  (solved : Py.result string) : M unit :=
  if learning_tracker then
    mark_topic_encountered "math";;
    solved ← lift solved;
    log_interaction kind text solved
  else mret tt.

(** [_handle_addition]; [learning_tracker] tells whether the module was
    built with a tracker. *)
Definition _handle_addition (learning_tracker : bool) (numbers : list Py.number)
  (grade_level text : string) : M CommandResult.t :=
  if (length numbers <? 2)%nat then
    mret (failure "I need at least two numbers to add together.")
  else
    result ← lift (sum numbers);
    let approach := grade_approach grade_level in
    explanation ←
      lift (_create_addition_explanation numbers result approach grade_level);
    scene ← lift (_create_addition_scene numbers result approach);
    correct_value ← lift (display result);
    equals ←
      lift (fstring [Txt "Adding "; Join " + " numbers; Txt " equals "; Num result]);
    feedback_incorrect ←
      lift (fstring [Txt "Not quite. When we add "; Join " + " numbers;
                     Txt ", we get "; Num result; Txt "."]);
    let final_answer :=
      [("correct_value", JStr correct_value);
       ("explanation", JStr equals);
       ("feedback_correct", JStr "Excellent! You got the addition correct!");
       ("feedback_incorrect", JStr feedback_incorrect)] in
    log_progress learning_tracker "math_addition" text
      (fstring [Txt "Solved: "; Join " + " numbers; Txt " = "; Num result]);;
    mret {| CommandResult.success := true;
            CommandResult.response := explanation;
            CommandResult.scene := scene;
            CommandResult.final_answer := final_answer |}.

(** *** Subtraction *)

Definition _create_subtraction_explanation (numbers : list Py.number)
  (result : Py.number) (approach : Approach.t) (grade_level : string)
  : Py.result string :=
  match numbers with
  | [] => Py.Raise Py.IndexError
  | first_num :: other_nums =>
      if Approach.simple_language approach then
        match other_nums with
        | [other] =>
            explanation ←
              fstring [Txt "Let's start with "; Num first_num; Txt " and take away ";
                       Num other; Txt ("." +:+ nl +:+ nl)];
            explanation ←
              (if Approach.use_objects approach && Py.leb first_num (Py.Int 10) then
                 cookies ←
                   fstring [Txt "Imagine we have "; Num first_num;
                            Txt " cookies and we eat "; Num other; Txt " of them. "];
                 remaining ←
                   fstring [Txt "How many cookies do we have left? We have ";
                            Num result; Txt (" cookies!" +:+ nl +:+ nl)];
                 mret (explanation +:+ cookies +:+ remaining)
               else mret explanation);
            so ←
              fstring [Txt "So "; Num first_num; Txt " - "; Num other; Txt " = ";
                       Num result];
            mret (explanation +:+ so)
        | _ =>
            explanation ←
              fstring [Txt "Let's start with "; Num first_num;
                       Txt (" and subtract the other numbers." +:+ nl +:+ nl)];
            line ←
              fstring [Num first_num; Txt " - "; Join " - " other_nums; Txt " = ";
                       Num result];
            mret (explanation +:+ line)
        end
      else
        explanation ←
          fstring [Txt "Let's calculate "; Num first_num; Txt " - ";
                   Join " - " other_nums; Txt ("." +:+ nl +:+ nl)];
        let explanation :=
          explanation +:+
          "When we subtract, we find what's left after taking away." +:+ nl +:+ nl in
        outcome ← fstring [Txt "The result is "; Num result; Txt "."];
        mret (explanation +:+ outcome)
  end.

(** [for i, num in enumerate(numbers[1:], 1)]: the sign, then the
    operand. *)
Fixpoint tail_row (name sign : string) (i x_position : Z) (rest : list Py.number)
  : Py.result (list json * Z) :=
  match rest with
  | [] => mret ([], x_position)
  | num :: rest =>
      let op := text_element (name +:+ "-" +:+ Py.decimal i) x_position sign in
      let x_position := x_position + 40 in
      t ← display num;
      let item := text_element ("num-" +:+ Py.decimal i) x_position t in
      let x_position := x_position + 60 in
      '(items, x_position) ← tail_row name sign (i + 1) x_position rest;
      mret (op :: item :: items, x_position)
  end.

Definition _create_subtraction_scene (numbers : list Py.number) (result : Py.number)
  (approach : Approach.t) : Py.result (list json) :=
  match numbers with
  | [] => Py.Raise Py.IndexError
  | n0 :: rest =>
      t0 ← display n0;
      '(items, x_position) ← tail_row "minus" "-" 1 160 rest;
      r ← display result;
      mret (text_element "num-0" 100 t0 :: items ++
            [text_element "equals" x_position "=";
             text_element "result" (x_position + 40) r])
  end.

(** [_handle_subtraction] *)
Definition _handle_subtraction (learning_tracker : bool) (numbers : list Py.number)
  (grade_level text : string) : M CommandResult.t :=
  if (length numbers <? 2)%nat then
    mret (failure "I need at least two numbers for subtraction.")
  else
    match numbers with
    | [] => raise Py.IndexError
    | n0 :: rest =>
        result ← lift (accumulate Py.sub n0 rest);
        let approach := grade_approach grade_level in
        explanation ←
          lift (_create_subtraction_explanation numbers result approach grade_level);
        scene ← lift (_create_subtraction_scene numbers result approach);
        correct_value ← lift (display result);
        gives ← lift (fstring [Txt "Subtracting gives us "; Num result]);
        feedback_incorrect ←
          lift (fstring [Txt "The correct answer is "; Num result; Txt "."]);
        let final_answer :=
          [("correct_value", JStr correct_value);
           ("explanation", JStr gives);
           ("feedback_correct", JStr "Great job with subtraction!");
           ("feedback_incorrect", JStr feedback_incorrect)] in
        log_progress learning_tracker "math_subtraction" text
          (fstring [Txt "Solved: "; Num n0; Txt " - "; Join " - " rest; Txt " = ";
                    Num result]);;
        mret {| CommandResult.success := true;
                CommandResult.response := explanation;
                CommandResult.scene := scene;
                CommandResult.final_answer := final_answer |}
    end.

(** *** Division *)

Definition _create_division_explanation (numbers : list Py.number)
  (result : Py.number) (approach : Approach.t) (grade_level : string)
  : Py.result string :=
  let general :=
    explanation ←
      fstring [Txt "Let's calculate "; Join " ÷ " numbers; Txt ("." +:+ nl +:+ nl)];
    let explanation :=
      explanation +:+
      "Division helps us find how many equal groups we can make." +:+ nl +:+ nl in
    quotient ← fstring [Txt "The quotient is "; Num result; Txt "."];
    mret (explanation +:+ quotient) in
  if Approach.simple_language approach then
    match numbers with
    | [dividend; divisor] =>
        explanation ←
          fstring [Txt "Let's share "; Num dividend; Txt " items equally among ";
                   Num divisor; Txt (" groups." +:+ nl +:+ nl)];
        explanation ←
          (if Approach.use_objects approach && Py.leb dividend (Py.Int 20)
              && Py.leb divisor (Py.Int 5) then
             cookies ←
               fstring [Txt "If we have "; Num dividend;
                        Txt " cookies and share them equally among "; Num divisor;
                        Txt " friends, "];
             each ←
               fstring [Txt "each friend gets "; Num result;
                        Txt (" cookies." +:+ nl +:+ nl)];
             mret (explanation +:+ cookies +:+ each)
           else mret explanation);
        so ←
          fstring [Txt "So "; Num dividend; Txt " ÷ "; Num divisor; Txt " = ";
                   Num result];
        mret (explanation +:+ so)
    | _ => general
    end
  else general.

Definition _create_division_scene (numbers : list Py.number) (result : Py.number)
  (approach : Approach.t) : Py.result (list json) :=
  match numbers with
  | [] => Py.Raise Py.IndexError
  | n0 :: rest =>
      t0 ← display n0;
      '(items, x_position) ← tail_row "divide" "÷" 1 160 rest;
      r ← str_number result;
      mret (text_element "num-0" 100 t0 :: items ++
            [text_element "equals" x_position "=";
             text_element "result" (x_position + 40) r])
  end.

(** [if result == int(result): result = int(result)
     else: result = round(result, 2)] *)
Definition tidy (result : Py.number) : Py.result Py.number :=
  i ← Py.int result;
  if Py.eqb result (Py.Int i) then
    i ← Py.int result; mret (Py.Int i)
  else
    match result with
    | Py.Int z => mret (Py.Int z)
    | Py.Float f => mret (Py.Float (round2 f))
    end.

(** [_handle_division] *)
Definition _handle_division (learning_tracker : bool) (numbers : list Py.number)
  (grade_level text : string) : M CommandResult.t :=
  if (length numbers <? 2)%nat then
    mret (failure "I need at least two numbers for division.")
  else if existsb (fun n => Py.eqb n (Py.Int 0)) (tail numbers) then
    mret (failure "I can't divide by zero. That's undefined in mathematics.")
  else
    match numbers with
    | [] => raise Py.IndexError
    | n0 :: rest =>
        result ← lift (accumulate Py.truediv n0 rest);
        result ← lift (tidy result);
        let approach := grade_approach grade_level in
        explanation ←
          lift (_create_division_explanation numbers result approach grade_level);
        scene ← lift (_create_division_scene numbers result approach);
        correct_value ← lift (str_number result);
        gives ← lift (fstring [Txt "Dividing gives us "; Num result]);
        feedback_incorrect ←
          lift (fstring [Txt "The correct answer is "; Num result; Txt "."]);
        let final_answer :=
          [("correct_value", JStr correct_value);
           ("explanation", JStr gives);
           ("feedback_correct", JStr "Excellent division work!");
           ("feedback_incorrect", JStr feedback_incorrect)] in
        log_progress learning_tracker "math_division" text
          (fstring [Txt "Solved: "; Num n0; Txt " ÷ "; Join " ÷ " rest; Txt " = ";
                    Num result]);;
        mret {| CommandResult.success := true;
                CommandResult.response := explanation;
                CommandResult.scene := scene;
                CommandResult.final_answer := final_answer |}
    end.

(** *** Multiplication *)

Definition _create_multiplication_explanation (numbers : list Py.number)
  (result : Py.number) (approach : Approach.t) (grade_level : string)
  : Py.result string :=
  let general :=
    explanation ←
      fstring [Txt "Let's calculate "; Join " × " numbers; Txt ("." +:+ nl +:+ nl)];
    let explanation :=
      explanation +:+
      "Multiplication gives us the total when we have equal groups." +:+ nl +:+ nl in
    product ← fstring [Txt "The product is "; Num result; Txt "."];
    mret (explanation +:+ product) in
  if Approach.simple_language approach then
    match numbers with
    | [num1; num2] =>
        explanation ←
          fstring [Txt "Let's see what "; Num num1; Txt " groups of "; Num num2;
                   Txt (" looks like!" +:+ nl +:+ nl)];
        explanation ←
          (if Approach.use_objects approach && Py.leb (Py.max num1 [num2]) (Py.Int 5) then
             groups ←
               fstring [Txt "Imagine "; Num num1; Txt " groups with "; Num num2;
                        Txt (" items in each group." +:+ nl)];
             count ←
               fstring [Txt "If we count all the items, we get "; Num result;
                        Txt ("!" +:+ nl +:+ nl)];
             mret (explanation +:+ groups +:+ count)
           else mret explanation);
        so ←
          fstring [Txt "So "; Num num1; Txt " × "; Num num2; Txt " = "; Num result];
        mret (explanation +:+ so)
    | _ => general
    end
  else general.

Definition _create_multiplication_scene (numbers : list Py.number) (result : Py.number)
  (approach : Approach.t) : Py.result (list json) :=
  '(items, x_position) ← operand_row "times" "×" 0 100 numbers;
  r ← display result;
  mret (items ++ [text_element "equals" x_position "=";
                  text_element "result" (x_position + 40) r]).

(** [_handle_multiplication] *)
Definition _handle_multiplication (learning_tracker : bool) (numbers : list Py.number)
  (grade_level text : string) : M CommandResult.t :=
  if (length numbers <? 2)%nat then
    mret (failure "I need at least two numbers to multiply.")
  else
    result ← lift (accumulate Py.mul (Py.Int 1) numbers);
    let approach := grade_approach grade_level in
    explanation ←
      lift (_create_multiplication_explanation numbers result approach grade_level);
    scene ← lift (_create_multiplication_scene numbers result approach);
    correct_value ← lift (display result);
    gives ← lift (fstring [Txt "Multiplying gives us "; Num result]);
    feedback_incorrect ←
      lift (fstring [Txt "The correct answer is "; Num result; Txt "."]);
    let final_answer :=
      [("correct_value", JStr correct_value);
       ("explanation", JStr gives);
       ("feedback_correct", JStr "Perfect multiplication!");
       ("feedback_incorrect", JStr feedback_incorrect)] in
    log_progress learning_tracker "math_multiplication" text
      (fstring [Txt "Solved: "; Join " × " numbers; Txt " = "; Num result]);;
    mret {| CommandResult.success := true;
            CommandResult.response := explanation;
            CommandResult.scene := scene;
            CommandResult.final_answer := final_answer |}.

(** *** Dispatch *)

(** One round of the loop of [_extract_numbers]: a match with a dot is
    read as a float, any other as an int, and a [ValueError] skips it. *)
Definition number_of_match (m : string) : option Py.number :=
  if Py.contains "." m then Py.Float <$> Py.parse_float m
  else Py.Int <$> Py.parse_int m.

(** [_extract_numbers] *)
Definition _extract_numbers (text : string) : list Py.number :=
  let number_pattern := "-?\d+\.?\d*" in
  omap number_of_match (re_findall number_pattern text).

Definition grade_patterns : list (string * string) :=
  [("kindergarten|k-?\d", "kindergarten");
   ("first|1st|grade 1", "first_grade");
   ("second|2nd|grade 2", "second_grade");
   ("third|3rd|grade 3", "third_grade");
   ("fourth|4th|grade 4", "fourth_grade");
   ("fifth|5th|grade 5", "fifth_grade");
   ("sixth|6th|grade 6", "sixth_grade")].

(** [_determine_grade_level] *)
Definition _determine_grade_level (text : string) (numbers : list Py.number) : string :=
  let text_lower := Py.lower text in
  match List.find (fun entry => re_search (fst entry) text_lower) grade_patterns with
  | Some entry => snd entry
  | None =>
      match Py.abs <$> numbers with
      | [] => "third_grade"
      | a :: rest =>
          let max_num := Py.max a rest in
          if Py.leb max_num (Py.Int 10) then "kindergarten"
          else if Py.leb max_num (Py.Int 20) then "first_grade"
          else if Py.leb max_num (Py.Int 100) then "second_grade"
          else if Py.leb max_num (Py.Int 1000) then "third_grade"
          else if Py.leb max_num (Py.Int 10000) then "fourth_grade"
          else "fifth_grade"
      end
  end.

(** [try: body except Exception as e: return handler(e)] *)
Definition try_with {A} (body : M A) (handler : Py.exn -> A) : M A :=
  fun w =>
    match body w with
    | (Py.Ok a, w') => (Py.Ok a, w')
    | (Py.Raise e, w') => (Py.Ok (handler e), w')
    end.

(** [MathCommands.execute] *)
Definition execute (learning_tracker : bool) (command_type text : string)
  : M CommandResult.t :=
  try_with
    (let numbers := _extract_numbers text in
     let grade_level := _determine_grade_level text numbers in
     if String.eqb command_type "math_addition" then
       _handle_addition learning_tracker numbers grade_level text
     else if String.eqb command_type "math_subtraction" then
       _handle_subtraction learning_tracker numbers grade_level text
     else if String.eqb command_type "math_multiplication" then
       _handle_multiplication learning_tracker numbers grade_level text
     else if String.eqb command_type "math_division" then
       _handle_division learning_tracker numbers grade_level text
     else
       mret (failure ("Unknown math command: " +:+ command_type)))
    (fun e => failure ("Error in math calculation: " +:+ exn_text e)).

End MathCommandsModel.

(** What the conversions of the math commands come to: whether a
    number, or every number of a field, is within the digit limit, and
    the text that its conversion gives then. *)
Section MathConversions.
Context `{PyEnv}.

Definition printable (n : Py.number) : bool :=
  match n with
  | Py.Int z => Py.within_digit_limit z
  | Py.Float _ => true
  end.

Definition text_number (n : Py.number) : string :=
  match n with
  | Py.Int z => Py.decimal z
  | Py.Float f => float_repr f
  end.

Definition printable_field (f : field) : bool :=
  match f with
  | Txt _ => true
  | Num n => printable n
  | Join _ numbers => forallb printable numbers
  end.

Definition text_field (f : field) : string :=
  match f with
  | Txt s => s
  | Num n => text_number n
  | Join sep numbers => Py.join sep (text_number <$> numbers)
  end.

Definition text_fields (fields : list field) : string :=
  foldr (fun f r => text_field f +:+ r) "" fields.

End MathConversions.

(* ===================================================================== *)
(** * backend/commands/command__executor.py *)
(* ===================================================================== *)

(** The branches of the dispatch of [execute_command], in its order. *)
Inductive Branch : Type :=
| MathBranch          (* command_type.startswith("math_") *)
| CameraBranch        (* startswith("camera_") or == "take_photo" *)
| LearningBranch      (* startswith("learning_") or == "assess_knowledge" *)
| DrawingBranch       (* startswith("draw_") or == "clear_board" *)
| ServiceBranch       (* in ["get_weather", "set_timer", "search_info"] *)
| FallbackBranch.     (* else *)

Definition branch_of (command_type : string) : Branch :=
  if String.prefix "math_" command_type then MathBranch
  else if String.prefix "camera_" command_type || String.eqb command_type "take_photo"
  then CameraBranch
  else if String.prefix "learning_" command_type
          || String.eqb command_type "assess_knowledge"
  then LearningBranch
  else if String.prefix "draw_" command_type || String.eqb command_type "clear_board"
  then DrawingBranch
  else if Py.in_list command_type ["get_weather"; "set_timer"; "search_info"]
  then ServiceBranch
  else FallbackBranch.

(** The command modules. *)
Inductive CommandModule : Type :=
| MathCommands
| CameraCommands
| LearningCommands
| GeneralCommands.

(** The module whose [execute] a branch calls. *)
Definition module_of (b : Branch) : CommandModule :=
  match b with
  | MathBranch => MathCommands
  | CameraBranch => CameraCommands
  | LearningBranch => LearningCommands
  | DrawingBranch | ServiceBranch | FallbackBranch => GeneralCommands
  end.

(** What [CoreAgent._handle_command] returns: the response of a command
    that succeeded, or what [_handle_educational_query] returns for the
    same arguments. *)
Inductive CommandHandling : Type :=
| CommandResponse (question explanation : string) (scene : list json)
    (final_answer : list (string * json))
| EducationalFallback (text : string) (intent_result : IntentResult.t).

Section CommandExecutorModel.
Context `{PyEnv}.

(** [execute] of the three modules that are not modelled: any
    computation on the tracker and its files. *)
Variable camera_execute learning_execute general_execute :
  string -> string -> IntentResult.t -> M CommandResult.t.

(** [CommandExecutor.execute_command]; [learning_tracker] tells whether
    the executor was built with a tracker. *)
Definition execute_command (learning_tracker : bool) (text : string)
  (intent_result : IntentResult.t) : M CommandResult.t :=
  try_with
    (match get_command_type text with
     | None => mret (failure "Could not determine command type")
     | Some command_type =>
         if String.eqb command_type "" then
           mret (failure "Could not determine command type")
         else
           match branch_of command_type with
           | MathBranch => execute learning_tracker command_type text
           | CameraBranch => camera_execute command_type text intent_result
           | LearningBranch => learning_execute command_type text intent_result
           | DrawingBranch | ServiceBranch | FallbackBranch =>
               general_execute command_type text intent_result
           end
     end)
    (fun e => failure ("Error executing command: " +:+ exn_text e)).

(** [CoreAgent._handle_command], up to the call of
    [_handle_educational_query] that it falls back to. *)
Definition _handle_command (learning_tracker : bool) (text : string)
  (intent_result : IntentResult.t) : M CommandHandling :=
  try_with
    (command_result ← execute_command learning_tracker text intent_result;
     if CommandResult.success command_result then
       log_interaction "command" text (CommandResult.response command_result);;
       mret (CommandResponse text
               (CommandResult.response command_result)
               (CommandResult.scene command_result)
               (CommandResult.final_answer command_result))
     else mret (EducationalFallback text intent_result))
    (fun _ => EducationalFallback text intent_result).

End CommandExecutorModel.

(* ===================================================================== *)
(** * backend/core_agent.py: knowledge assessment *)
(* ===================================================================== *)

Section KnowledgeAssessmentModel.
Context `{PyEnv}.

(** [IntentClassifier.extract_topic], which is not modelled: any topic
    or none, or an exception. *)
Variable extract_topic : string -> Py.result (option string).



End KnowledgeAssessmentModel.


(** What a call of a math handler, or of [execute], comes to: an
    exception or a failure dict with the tracker untouched, or a success
    after the progress was logged under [kind]. *)
Section MathOutcomes.
Context `{PyEnv}.

Definition math_outcome (learning_tracker : bool) (kind text : string) (w : World)
  (out : Py.result CommandResult.t * World) : Prop :=
  match fst out with
  | Py.Raise _ => snd out = w
  | Py.Ok r =>
      if CommandResult.success r then
        exists solved,
          log_progress learning_tracker kind text (Py.Ok solved) w = (Py.Ok tt, snd out)
      else
        snd out = w /\ CommandResult.scene r = [] /\ CommandResult.final_answer r = []
  end.

End MathOutcomes.


(* ===================================================================== *)
(** * A sample environment *)
(* ===================================================================== *)

(** Regular expressions by Brzozowski derivatives, for the pattern syntax
    that the sources use: alternation, grouping, [.], the postfix
    operators, bracket expressions and the escapes [\d] and [\s], over
    ASCII. *)
Module Regex.

Inductive re : Type :=
| Void                          (* matches nothing *)
| Eps                           (* the empty string *)
| Sym (p : ascii -> bool)       (* one character of a set *)
| Cat (a b : re)
| Alt (a b : re)
| Star (a : re).

Fixpoint nullable (r : re) : bool :=
  match r with
  | Void => false
  | Eps => true
  | Sym _ => false
  | Cat a b => nullable a && nullable b
  | Alt a b => nullable a || nullable b
  | Star _ => true
  end.

Definition cat (a b : re) : re :=
  match a, b with
  | Void, _ | _, Void => Void
  | Eps, _ => b
  | _, Eps => a
  | _, _ => Cat a b
  end.

Definition alt (a b : re) : re :=
  match a, b with
  | Void, _ => b
  | _, Void => a
  | _, _ => Alt a b
  end.

(** Brzozowski derivative. *)
Fixpoint deriv (c : ascii) (r : re) : re :=
  match r with
  | Void | Eps => Void
  | Sym p => if p c then Eps else Void
  | Cat a b =>
      if nullable a then alt (cat (deriv c a) b) (deriv c b)
      else cat (deriv c a) b
  | Alt a b => alt (deriv c a) (deriv c b)
  | Star a => cat (deriv c a) (Star a)
  end.

(** Does some prefix of [s] match [r]? *)
Fixpoint prefix_matches (r : re) (s : string) : bool :=
  nullable r ||
  match s with
  | EmptyString => false
  | String c rest => prefix_matches (deriv c r) rest
  end.

(** [re.search]: a match starting at some position. *)
Fixpoint search (r : re) (s : string) : bool :=
  prefix_matches r s ||
  match s with
  | EmptyString => false
  | String _ rest => search r rest
  end.

(** Length of the longest prefix of [s] matching [r]. *)
Fixpoint longest (r : re) (s : string) (here : nat) (best : option nat) : option nat :=
  let best := if nullable r then Some here else best in
  match s with
  | EmptyString => best
  | String c rest => longest (deriv c r) rest (S here) best
  end.

Fixpoint drop_chars (n : nat) (s : string) : string :=
  match n, s with
  | S n', String _ rest => drop_chars n' rest
  | _, _ => s
  end.

Fixpoint take_chars (n : nat) (s : string) : string :=
  match n, s with
  | S n', String c rest => String c (take_chars n' rest)
  | _, _ => EmptyString
  end.

(** [re.findall] for a pattern that matches no empty string and whose
    greedy match is its longest one. *)
Fixpoint findall (fuel : nat) (r : re) (s : string) : list string :=
  match fuel, s with
  | S fuel', String _ rest =>
      match longest r s 0 None with
      | Some (S n) => take_chars (S n) s :: findall fuel' r (drop_chars (S n) s)
      | _ => findall fuel' r rest
      end
  | _, _ => []
  end.

(** *** The pattern syntax *)

Definition any_char : ascii -> bool := fun c => negb (Ascii.eqb c (ascii_of_nat 10)).
Definition is_digit : ascii -> bool :=
  fun c => let n := N_of_ascii c in ((48 <=? n) && (n <=? 57))%N.
Definition is_white : ascii -> bool :=
  fun c => let n := N_of_ascii c in (((9 <=? n) && (n <=? 13)) || (n =? 32))%N.
Definition in_range (a b : ascii) : ascii -> bool :=
  fun c => ((N_of_ascii a <=? N_of_ascii c) && (N_of_ascii c <=? N_of_ascii b))%N.

(** An escape [\c]. *)
Definition escape (c : ascii) : ascii -> bool :=
  if Ascii.eqb c "d" then is_digit
  else if Ascii.eqb c "s" then is_white
  else Ascii.eqb c.

(** The inside of a bracket expression, up to the closing bracket. *)
Fixpoint parse_class (s : string) (acc : ascii -> bool)
  : option ((ascii -> bool) * string) :=
  match s with
  | EmptyString => None
  | String "]" rest => Some (acc, rest)
  | String "\" (String c rest) =>
      parse_class rest (fun x => acc x || escape c x)
  | String a (String "-" (String b rest)) =>
      if Ascii.eqb b "]" then
        Some ((fun x => acc x || Ascii.eqb a x || Ascii.eqb "-" x), rest)
      else parse_class rest (fun x => acc x || in_range a b x)
  | String a rest => parse_class rest (fun x => acc x || Ascii.eqb a x)
  end.

(** Postfix operators after an atom. *)
Fixpoint postfix (r : re) (s : string) : re * string :=
  match s with
  | String "*" rest => postfix (Star r) rest
  | String "+" rest => postfix (Cat r (Star r)) rest
  | String "?" rest => postfix (Alt Eps r) rest
  | _ => (r, s)
  end.

Fixpoint parse_alt (fuel : nat) (s : string) : option (re * string) :=
  match fuel with
  | O => None
  | S fuel =>
      match parse_seq fuel s with
      | Some (a, String "|" rest) =>
          match parse_alt fuel rest with
          | Some (b, rest') => Some (Alt a b, rest')
          | None => None
          end
      | other => other
      end
  end
with parse_seq (fuel : nat) (s : string) : option (re * string) :=
  match fuel with
  | O => None
  | S fuel =>
      match s with
      | EmptyString | String "|" _ | String ")" _ => Some (Eps, s)
      | _ =>
          match parse_atom fuel s with
          | Some (a, rest) =>
              let '(a, rest) := postfix a rest in
              match parse_seq fuel rest with
              | Some (b, rest') => Some (cat a b, rest')
              | None => None
              end
          | None => None
          end
      end
  end
with parse_atom (fuel : nat) (s : string) : option (re * string) :=
  match fuel with
  | O => None
  | S fuel =>
      match s with
      | EmptyString => None
      | String "(" rest =>
          match parse_alt fuel rest with
          | Some (r, String ")" rest') => Some (r, rest')
          | _ => None
          end
      | String "[" rest =>
          match parse_class rest (fun _ => false) with
          | Some (p, rest') => Some (Sym p, rest')
          | None => None
          end
      | String "." rest => Some (Sym any_char, rest)
      | String "\" (String c rest) => Some (Sym (escape c), rest)
      | String c rest => Some (Sym (Ascii.eqb c), rest)
      end
  end.

(** [re.compile] *)
Definition compile (pattern : string) : option re :=
  match parse_alt (3 * String.length pattern + 3) pattern with
  | Some (r, EmptyString) => Some r
  | _ => None
  end.

End Regex.

(** One environment, used to run the model on concrete inputs.  It fixes
    one possible behaviour of the services: a datetime is represented by
    its ISO text and the n-th clock reading is a text built from n, every
    duration is zero minutes, the text of a float shows its significand
    and exponent, and [round] leaves a float as it is. *)
Definition sample_float_text (f : Py.float) : string :=
  match f with
  | S754_zero s => if s then "-0.0" else "0.0"
  | S754_infinity s => if s then "-inf" else "inf"
  | S754_nan => "nan"
  | S754_finite s m e =>
      (if s then "-" else "") +:+ pretty (Z.pos m) +:+ "*2**" +:+ pretty e
  end.

Definition sample_exn_text (e : Py.exn) : string :=
  match e with
  | Py.ZeroDivisionError => "division by zero"
  | Py.OverflowError => "overflow"
  | Py.ValueError => "value error"
  | Py.TypeError => "type error"
  | Py.AttributeError => "attribute error"
  | Py.KeyError => "key error"
  | Py.IndexError => "index error"
  end.

Definition sample_env : PyEnv :=
  {| datetime := string;
     datetime_now := fun n => "T" +:+ pretty n;
     isoformat := fun d => d;
     fromisoformat := fun s => Some s;
     fromisoformat_isoformat := fun d => eq_refl;
     whole_minutes := fun _ _ => 0;
     shared_minutes := fun _ _ _ => 0;
     time_time := fun n => Z.of_nat n;
     re_search := fun pattern text =>
       match Regex.compile pattern with
       | Some r => Regex.search r text
       | None => false
       end;
     re_findall := fun pattern text =>
       match Regex.compile pattern with
       | Some r => Regex.findall (String.length text) r text
       | None => []
       end;
     exn_text := sample_exn_text;
     float_repr := sample_float_text;
     round2 := fun f => f;
     format_percent1 := sample_float_text |}.

(** Sample states, in the sample environment. *)
Definition sample_time : @datetime sample_env := "T0"%string.

Definition sample_session : @LearningSession sample_env :=
  {| session_id := "session_0";
     start_time := sample_time;
     end_time := None;
     topics_covered := ["math"];
     interactions := [];
     performance_metrics :=
       {| questions_asked := 1; session_correct_answers := 0;
          session_incorrect_answers := 0; hints_used := 0;
          topics_explored := 1 |};
     emotion_data := [] |}.

Definition sample_topic (c i : Z) : @TopicProgress sample_env :=
  {| topic_name := "math";
     knowledge_level := "unknown";
     first_encountered := sample_time;
     last_studied := sample_time;
     total_time_spent := 0;
     correct_answers := c;
     incorrect_answers := i;
     concepts_mastered := [];
     struggling_areas := [] |}.

(** A profile whose only topic is "math", with [c] correct and [i]
    incorrect answers. *)
Definition sample_profile (c i : Z) : @StudentProfile sample_env :=
  @set_topics sample_env {["math" := sample_topic c i]} (@default_profile sample_env 0).

Definition sample_world (session : option (@LearningSession sample_env))
  (profile : option (@StudentProfile sample_env)) (sessions : File)
  : @World sample_env :=
  {| self := {| current_session := session; student_profile := profile |};
     disk := {| profile_file := NoFile;
                sessions_file := sessions;
                temp_progress_file := NoFile |};
     ticks := 0 |}.

(** An entry of the learning objectives, a progress file that holds a
    list of them, and a state with an active session, a profile and a
    given progress file. *)
Definition sample_objective (objective : string) : json :=
  JObj [("topic", JStr "fractions"); ("objective", JStr objective);
        ("difficulty", JStr "medium"); ("created_at", JStr "T0");
        ("completed", JBool false)].

Definition sample_progress (objectives : list json) : File :=
  Doc (JObj [("learning_objectives", JList objectives)]).

Definition sample_world_with (progress : File) : @World sample_env :=
  {| self := {| current_session := Some sample_session;
                student_profile := Some (sample_profile 4 1) |};
     disk := {| profile_file := NoFile;
                sessions_file := NoFile;
                temp_progress_file := progress |};
     ticks := 0 |}.

(** A command module that is not there, an intent result and a topic
    extraction by a single word. *)
Definition sample_module (command_type text : string) (intent_result : IntentResult.t)
  : @M sample_env CommandResult.t :=
  fun w => (Py.Ok (failure "not available"), w).

Definition sample_intent (text : string) : IntentResult.t :=
  {| IntentResult.intent := "command";
     IntentResult.confidence := Py.f0_8;
     IntentResult.matched_pattern := None;
     IntentResult.keywords := [];
     IntentResult.original_text := text |}.


(** Sample sequences of calls on the tracker. *)
Definition sample_calls : list Call :=
  [LogInteraction "educational" "what is a fraction" "A part of a whole.";
   LogAnswerResult "math" true;
   MarkTopicEncountered "science";
   LogAnswerResult "math" false;
   LogAnswerResult "science" true].

Definition sample_quiet_calls : list Call :=
  [StartNewSession;
   LogInteraction "educational" "what is a fraction" "A part of a whole.";
   MarkTopicEncountered "science";
   SaveLearningObjective "fractions" "Learn basic concepts of fractions" "medium";
   EndCurrentSession].

Definition sample_answer_calls : list Call :=
  [LogAnswerResult "math" true;
   LogInteraction "command" "add 2 and 3" "5";
   LogAnswerResult "math" false;
   EndCurrentSession].

(* ===================================================================== *)
(** * Facts about binary64 rounding *)
(* ===================================================================== *)

(** The literals are the doubles nearest to the decimal fractions. *)
Example literals_are_nearest :
  Py.int_truediv 5 10 = Py.Ok Py.f0_5 /\ Py.int_truediv 6 10 = Py.Ok Py.f0_6 /\
  Py.int_truediv 7 10 = Py.Ok Py.f0_7 /\ Py.int_truediv 75 100 = Py.Ok Py.f0_75 /\
  Py.int_truediv 8 10 = Py.Ok Py.f0_8 /\ Py.int_truediv 9 10 = Py.Ok Py.f0_9.
Proof. repeat split; reflexivity. Qed.

Lemma shr_1_nonneg mrs : 0 <= shr_m mrs -> 0 <= shr_m (shr_1 mrs) <= shr_m mrs.
Proof.
  destruct mrs as [m r s]. simpl. destruct m as [| p | p]; simpl; try lia.
  - destruct p; simpl; lia.
Qed.

Lemma shr_1_div2 mrs : 0 <= shr_m mrs -> shr_m (shr_1 mrs) = shr_m mrs / 2.
Proof.
  destruct mrs as [m r s]. simpl. destruct m as [| p | p]; simpl; try lia.
  - reflexivity.
  - intros _. destruct p; simpl.
    + rewrite (Pos2Z.inj_xI p). apply Z.div_unique with 1; lia.
    + rewrite (Pos2Z.inj_xO p). apply Z.div_unique with 0; lia.
    + reflexivity.
Qed.

Lemma pow2_xO n : 2 ^ Z.pos n~0 = 2 ^ Z.pos n * 2 ^ Z.pos n.
Proof. rewrite (Pos2Z.inj_xO n). apply Z.pow_twice_r. Qed.

Lemma pow2_xI n : 2 ^ Z.pos n~1 = 2 * (2 ^ Z.pos n * 2 ^ Z.pos n).
Proof.
  rewrite (Pos2Z.inj_xI n), Z.pow_add_r, Z.pow_twice_r, Z.pow_1_r by lia. lia.
Qed.

Lemma iter_shr_1_div n : forall mrs, 0 <= shr_m mrs ->
  shr_m (SpecFloat.iter_pos shr_1 n mrs) = shr_m mrs / 2 ^ Z.pos n.
Proof.
  induction n as [n IH | n IH |]; intros mrs Hm; simpl SpecFloat.iter_pos.
  - assert (H1 := shr_1_nonneg mrs Hm).
    assert (0 <= shr_m (SpecFloat.iter_pos shr_1 n (shr_1 mrs))).
    { rewrite IH by lia. apply Z.div_pos; lia. }
    rewrite IH by lia. rewrite IH by lia. rewrite shr_1_div2 by lia.
    rewrite !Z.div_div by lia. rewrite pow2_xI. reflexivity.
  - assert (0 <= shr_m (SpecFloat.iter_pos shr_1 n mrs)).
    { rewrite IH by lia. apply Z.div_pos; lia. }
    rewrite IH by lia. rewrite IH by lia.
    rewrite !Z.div_div by lia. rewrite pow2_xO. reflexivity.
  - rewrite shr_1_div2 by lia. reflexivity.
Qed.

Lemma shr_record_of_loc_m m l : shr_m (shr_record_of_loc m l) = m.
Proof. destruct l as [| []]; reflexivity. Qed.

Lemma shr_fexp_spec prec emax m e l :
  0 <= m ->
  let n := fexp prec emax (Zdigits2 m + e) - e in
  shr_m (fst (shr_fexp prec emax m e l)) = m / 2 ^ Z.max 0 n /\
  snd (shr_fexp prec emax m e l) = e + Z.max 0 n.
Proof.
  intros Hm n. unfold shr_fexp, shr. fold n.
  destruct n as [| p | p] eqn:E; simpl fst; simpl snd.
  - rewrite shr_record_of_loc_m. simpl. rewrite Z.div_1_r. lia.
  - rewrite iter_shr_1_div by (rewrite shr_record_of_loc_m; lia).
    rewrite shr_record_of_loc_m. rewrite Z.max_r by lia. split; reflexivity.
  - rewrite shr_record_of_loc_m. rewrite Z.max_l by lia. simpl. rewrite Z.div_1_r. lia.
Qed.

Lemma digits2_pos_size p : digits2_pos p = Pos.size p.
Proof. induction p; simpl; congruence. Qed.

Lemma Zdigits2_bounds m : 0 < m -> 2 ^ (Zdigits2 m - 1) <= m < 2 ^ Zdigits2 m.
Proof.
  destruct m as [| p | p]; try lia. intros _. simpl Zdigits2.
  rewrite digits2_pos_size.
  assert (H1 := Pos.size_gt p). assert (H2 := Pos.size_le p).
  apply Pos2Z.pos_lt_pos in H1. apply Pos2Z.pos_le_pos in H2.
  rewrite Pos2Z.inj_pow in H1, H2. rewrite (Pos2Z.inj_xO p) in H2.
  change (Z.pos 2) with 2 in *.
  split; [| exact H1].
  replace (Z.pos (Pos.size p)) with (Z.succ (Z.pos (Pos.size p) - 1)) in H2 by lia.
  rewrite Z.pow_succ_r in H2 by lia. lia.
Qed.

Lemma Zdigits2_nonneg m : 0 <= Zdigits2 m.
Proof. destruct m; simpl; lia. Qed.

Lemma Zdigits2_pos m : 0 < m -> 1 <= Zdigits2 m.
Proof. destruct m; simpl; lia. Qed.

Lemma Zdigits2_le m n : 0 <= m -> 0 <= n -> m < 2 ^ n -> Zdigits2 m <= n.
Proof.
  intros Hm Hn Hlt. destruct (Z.eq_dec m 0) as [-> | Hne]; [simpl; lia |].
  destruct (Zdigits2_bounds m) as [Hlo _]; [lia |].
  destruct (Z.le_gt_cases (Zdigits2 m) n) as [| Hgt]; [assumption | exfalso].
  assert (2 ^ n <= 2 ^ (Zdigits2 m - 1)) by (apply Z.pow_le_mono_r; lia).
  lia.
Qed.

Lemma round_nearest_even_bounds m l :
  m <= round_nearest_even m l <= m + 1.
Proof.
  unfold round_nearest_even. destruct l as [| []]; try lia.
  destruct (Z.even m); lia.
Qed.

Lemma fexp_bounds e : -1074 <= fexp 53 1024 e /\ fexp 53 1024 e = Z.max (e - 53) (-1074).
Proof. unfold fexp, emin. lia. Qed.

Lemma div_pow2_lt m d k : 0 <= m -> 0 <= k <= d -> m < 2 ^ d -> m / 2 ^ k < 2 ^ (d - k).
Proof.
  intros Hm Hk Hlt. apply Z.div_lt_upper_bound; [lia |].
  rewrite <- Z.pow_add_r by lia. replace (k + (d - k)) with d by lia. assumption.
Qed.

(* the rounded result of binary_round_aux, spelled out *)
Lemma binary_round_aux_cases sx mx ex lx :
  0 <= mx ->
  exists m1 e1 mr m2 e2,
    0 <= m1 /\ m1 = mx / 2 ^ (e1 - ex) /\ ex <= e1 /\
    e1 = Z.max ex (fexp 53 1024 (Zdigits2 mx + ex)) /\
    m1 <= mr <= m1 + 1 /\
    e2 = Z.max e1 (fexp 53 1024 (Zdigits2 mr + e1)) /\
    m2 = mr / 2 ^ (e2 - e1) /\
    binary_round_aux 53 1024 sx mx ex lx =
      match m2 with
      | Z0 => S754_zero sx
      | Zpos m => if e2 <=? 1024 - 53 then S754_finite sx m e2 else S754_infinity sx
      | Zneg _ => S754_nan
      end.
Proof.
  intros Hmx. unfold binary_round_aux.
  destruct (shr_fexp_spec 53 1024 mx ex lx Hmx) as [Hm1 He1].
  destruct (shr_fexp 53 1024 mx ex lx) as [mrs' e'] eqn:E1. simpl in Hm1, He1.
  set (mr := round_nearest_even (shr_m mrs') (loc_of_shr_record mrs')).
  assert (Hm1' : 0 <= shr_m mrs') by (rewrite Hm1; apply Z.div_pos; lia).
  assert (Hmr := round_nearest_even_bounds (shr_m mrs') (loc_of_shr_record mrs')).
  fold mr in Hmr.
  destruct (shr_fexp_spec 53 1024 mr e' loc_Exact) as [Hm2 He2]; [lia |].
  destruct (shr_fexp 53 1024 mr e' loc_Exact) as [mrs'' e''] eqn:E2. simpl in Hm2, He2.
  exists (shr_m mrs'), e', mr, (shr_m mrs''), e''.
  repeat split; try lia.
  - rewrite Hm1. f_equal. f_equal. lia.
  - rewrite Hm2. f_equal. f_equal. lia.
Qed.

Lemma binary_round_aux_finite sx mx ex lx :
  0 <= mx -> ex <= 971 -> Zdigits2 mx + ex <= 1023 ->
  Py.is_finite (binary_round_aux 53 1024 sx mx ex lx) = true.
Proof.
  intros Hmx Hex Hd.
  destruct (binary_round_aux_cases sx mx ex lx Hmx)
    as (m1 & e1 & mr & m2 & e2 & Hm1 & Em1 & Hle & Ee1 & Hmr & Ee2 & Em2 & ->).
  destruct (fexp_bounds (Zdigits2 mx + ex)) as [_ F1].
  destruct (fexp_bounds (Zdigits2 mr + e1)) as [_ F2].
  assert (He1 : e1 <= 971) by lia.
  assert (Hdr : Zdigits2 mr + e1 <= 1024).
  { assert (Hk : 0 <= e1 - ex) by lia.
    destruct (Z.le_gt_cases (e1 - ex) (Zdigits2 mx)) as [Hkd | Hkd].
    - assert (m1 < 2 ^ (Zdigits2 mx - (e1 - ex))).
      { rewrite Em1. apply div_pow2_lt; try lia.
        destruct (Z.eq_dec mx 0) as [-> | ?]; [simpl; lia |].
        apply Zdigits2_bounds; lia. }
      assert (Zdigits2 mr <= Zdigits2 mx - (e1 - ex) + 1); [| lia].
      apply Zdigits2_le; try lia.
      rewrite Z.pow_add_r, Z.pow_1_r by lia. lia.
    - assert (m1 = 0).
      { rewrite Em1. apply Z.div_small. split; [lia |].
        destruct (Z.eq_dec mx 0) as [-> | ?]; [apply Z.pow_pos_nonneg; lia |].
        destruct (Zdigits2_bounds mx) as [_ Hhi]; [lia |].
        assert (2 ^ Zdigits2 mx <= 2 ^ (e1 - ex)) by (apply Z.pow_le_mono_r; lia).
        lia. }
      assert (Zdigits2 mr <= 1); [| lia].
      apply Zdigits2_le; simpl; lia. }
  assert (He2 : e2 <= 971) by lia.
  assert (Hm2 : 0 <= m2) by (rewrite Em2; apply Z.div_pos; [lia | apply Z.pow_pos_nonneg; lia]).
  destruct m2; try lia; simpl; [reflexivity |].
  destruct (e2 <=? 1024 - 53) eqn:E; [reflexivity | apply Z.leb_gt in E; lia].
Qed.

Lemma binary_round_aux_nonzero sx mx ex lx :
  0 < mx -> -1074 <= ex ->
  Py.is_zero (binary_round_aux 53 1024 sx mx ex lx) = false.
Proof.
  intros Hmx Hex.
  destruct (binary_round_aux_cases sx mx ex lx) as
    (m1 & e1 & mr & m2 & e2 & Hm1 & Em1 & Hle & Ee1 & Hmr & Ee2 & Em2 & ->); [lia |].
  destruct (fexp_bounds (Zdigits2 mx + ex)) as [_ F1].
  destruct (fexp_bounds (Zdigits2 mr + e1)) as [_ F2].
  assert (D := Zdigits2_pos mx Hmx).
  assert (Hm1pos : 0 < m1).
  { rewrite Em1. apply Z.div_str_pos. split; [apply Z.pow_pos_nonneg; lia |].
    destruct (Zdigits2_bounds mx Hmx) as [Hlo _].
    assert (2 ^ (e1 - ex) <= 2 ^ (Zdigits2 mx - 1)) by (apply Z.pow_le_mono_r; lia).
    lia. }
  assert (Hmrpos : 0 < mr) by lia.
  assert (Dr := Zdigits2_pos mr Hmrpos).
  assert (Hm2pos : 0 < m2).
  { rewrite Em2. apply Z.div_str_pos. split; [apply Z.pow_pos_nonneg; lia |].
    destruct (Zdigits2_bounds mr Hmrpos) as [Hlo _].
    assert (2 ^ (e2 - e1) <= 2 ^ (Zdigits2 mr - 1)) by (apply Z.pow_le_mono_r; lia).
    lia. }
  destruct m2; try lia. simpl. destruct (e2 <=? 1024 - 53); reflexivity.
Qed.

Lemma int_truediv_ok a b :
  0 <= a <= b -> 0 < b -> exists q, Py.int_truediv a b = Py.Ok q.
Proof.
  intros Hab Hb. unfold Py.int_truediv.
  destruct (b =? 0) eqn:Eb; [apply Z.eqb_eq in Eb; lia |].
  assert (Hfin : Py.is_finite (Py.fdiv (Py.exact_of_Z a) (Py.exact_of_Z b)) = true);
    [| rewrite Hfin; eauto].
  destruct b as [| pb | pb]; try lia.
  destruct a as [| pa | pa]; try lia; [reflexivity |].
  unfold Py.fdiv, Py.exact_of_Z, SFdiv, SFdiv_core_binary.
  set (e' := Z.min _ _).
  set (m' := match 0 - 0 - e' with 0 => _ | Z.pos _ => _ | Z.neg _ => _ end).
  assert (He' : e' <= 0) by (unfold e'; lia).
  assert (Hm' : m' = Z.pos pa * 2 ^ (- e')).
  { unfold m'. replace (0 - 0 - e') with (- e') by lia.
    remember (- e') as s eqn:Es.
    destruct s as [| s | s]; [rewrite Z.pow_0_r; lia | | lia].
    rewrite Z.shiftl_mul_pow2 by lia. reflexivity. }
  assert (Hpow : 0 < 2 ^ (- e')) by (apply Z.pow_pos_nonneg; lia).
  assert (Hq : fst (Z.div_eucl m' (Z.pos pb)) = m' / Z.pos pb) by reflexivity.
  destruct (Z.div_eucl m' (Z.pos pb)) as [q r] eqn:Eqr. simpl in Hq.
  assert (Hq0 : 0 <= q).
  { rewrite Hq. apply Z.div_pos; [| lia]. rewrite Hm'. apply Z.mul_nonneg_nonneg; lia. }
  assert (Hq1 : q <= 2 ^ (- e')).
  { rewrite Hq. apply Z.div_le_upper_bound; [lia |]. rewrite Hm'.
    apply Z.mul_le_mono_nonneg_r; lia. }
  apply binary_round_aux_finite; try lia.
  assert (Zdigits2 q <= - e' + 1); [| lia].
  apply Zdigits2_le; try lia.
  rewrite Z.pow_add_r, Z.pow_1_r by lia. lia.
Qed.

Lemma float_of_Z_nonzero z : z <> 0 -> Py.is_zero (Py.float_of_Z z) = false.
Proof.
  intros Hz. unfold Py.float_of_Z, binary_normalize.
  destruct z as [| p | p]; try lia; unfold binary_round, shl_align;
    set (ex' := fexp Py.prec Py.emax _);
    (assert (Hex' : -1074 <= ex') by (apply fexp_bounds));
    destruct (ex' - 0) as [| d | d] eqn:Ed;
    apply binary_round_aux_nonzero; lia.
Qed.


(* ===================================================================== *)
(** * Learning tracker: knowledge levels *)
(* ===================================================================== *)

(** On every pair of counters with at most 200 answers the four float
    comparisons of the tracker give what the exact fractions give. *)
Lemma thresholds_exact_up_to_200 :
  forallb (fun t => forallb (fun c => Py.thresholds_agree c t) (seqZ 0 (t + 1)))
          (seqZ 1 200) = true.
Proof. vm_compute. reflexivity. Qed.

Section KnowledgeFacts.
Context `{PyEnv}.

Lemma level_of_cases accuracy total :
  let adv := Py.fge accuracy Py.f0_8 = true /\ 5 <= total in
  let mid := Py.fge accuracy Py.f0_6 = true /\ 3 <= total in
  (level_of accuracy total = "advanced" <-> adv) /\
  (level_of accuracy total = "intermediate" <-> ~ adv /\ mid) /\
  (level_of accuracy total = "beginner" <-> ~ adv /\ ~ mid).
Proof.
  unfold level_of.
  destruct (Py.fge accuracy Py.f0_8) eqn:E8, (Py.fge accuracy Py.f0_6) eqn:E6;
    destruct (Z.leb_spec 5 total), (Z.leb_spec 3 total); simpl;
    intuition (try discriminate; try lia; auto).
Qed.

End KnowledgeFacts.

(* ===================================================================== *)
(** * Intent classification and routing *)
(* ===================================================================== *)

(** Order facts on floats, for the literals the classifier compares with. *)
Lemma flt_fle a b : SFltb a b = true -> SFleb a b = true.
Proof. unfold SFltb, SFleb. destruct (SFcompare a b) as [[] |]; congruence. Qed.

Lemma SFcompare_positive m1 e1 m2 e2 :
  SFcompare (S754_finite false m1 e1) (S754_finite false m2 e2) =
  Some match e1 ?= e2 with
       | Lt => Lt
       | Gt => Gt
       | Eq => Pos.compare m1 m2
       end.
Proof. reflexivity. Qed.

Lemma above_0_6_above_0_5 x : Py.fgt x Py.f0_6 = true -> Py.fge x Py.f0_5 = true.
Proof.
  unfold Py.fgt, Py.fge, SFltb, SFleb, Py.f0_6, Py.f0_5.
  destruct x as [s | s | | [|] m e]; try (simpl; discriminate).
  - destruct s; [simpl; discriminate | reflexivity].
  - rewrite !SFcompare_positive.
    destruct (Z.compare_spec (-53) e) as [<- | Hlt | Hgt]; try discriminate; [| reflexivity].
    change (Pos.compare ?a ?b) with (Z.compare (Z.pos a) (Z.pos b)).
    destruct (Z.compare_spec 5404319552844595 (Z.pos m)); try discriminate.
    intros _.
    destruct (Z.compare_spec 4503599627370496 (Z.pos m)); try reflexivity; lia.
Qed.

Section IntentFacts.
Context `{PyEnv}.

Lemma keyword_matches_bounds keywords text :
  0 <= keyword_matches keywords text <= Z.of_nat (length keywords).
Proof.
  unfold keyword_matches. split; [lia |].
  apply inj_le. apply List.filter_length_le.
Qed.

(** One round of the loop always yields a confidence. *)
Lemma pattern_confidence_total text pattern_obj :
  exists c, pattern_confidence text pattern_obj = Py.Ok c.
Proof.
  unfold pattern_confidence.
  destruct (re_search _ _); [eauto |].
  destruct (Z.ltb_spec 0 (keyword_matches (IntentPattern.keywords pattern_obj) text));
    [| eauto].
  pose proof (keyword_matches_bounds (IntentPattern.keywords pattern_obj) text).
  destruct (int_truediv_ok
              (keyword_matches (IntentPattern.keywords pattern_obj) text)
              (Z.of_nat (length (IntentPattern.keywords pattern_obj))))
    as [q Hq]; [lia | lia |].
  rewrite Hq. simpl. eauto.
Qed.

Lemma check_loop_total text patterns :
  forall best, exists b, check_loop text patterns best = Py.Ok b.
Proof.
  induction patterns as [| p rest IH]; intros best; simpl; [eauto |].
  destruct (pattern_confidence_total text p) as [c ->]. simpl. apply IH.
Qed.

Lemma _check_patterns_total text patterns :
  exists b, _check_patterns text patterns = Py.Ok b.
Proof. apply check_loop_total. Qed.

Local Opaque _check_patterns.

Lemma classify_intent_returns (text : string) :
  exists r, classify_intent text = Py.Ok r.
Proof.
  unfold classify_intent.
  destruct (_check_patterns_total (Py.strip (Py.lower text)) command_patterns)
    as [cr ->].
  destruct (_check_patterns_total (Py.strip (Py.lower text)) educational_patterns)
    as [er Her].
  simpl. destruct (Py.fgt (BestMatch.confidence cr) Py.f0_6); [eauto |].
  rewrite Her. simpl.
  destruct (Py.fgt (BestMatch.confidence er) Py.f0_5); eauto.
Qed.

(** C2. [process_text_input] delegates to [_handle_command], hence to
    [execute_command], exactly when the classifier answers "command"
    with a confidence above 0.7, and to [_handle_educational_query] in
    every other case. *)
Theorem process_text_input_routes (text : string) :
  exists intent_result,
    classify_intent text = Py.Ok intent_result /\
    let is_command :=
      IntentResult.intent intent_result = "command" /\
      Py.fgt (IntentResult.confidence intent_result) Py.f0_7 = true in
    (is_command /\ process_text_input text = HandleCommand text intent_result) \/
    (~ is_command /\
     process_text_input text = HandleEducationalQuery text intent_result).
Proof.
  destruct (classify_intent_returns text) as [r Hr].
  exists r. split; [exact Hr |]. unfold process_text_input. rewrite Hr.
  destruct (String.eqb_spec (IntentResult.intent r) "command") as [Hi | Hi];
    destruct (Py.fgt (IntentResult.confidence r) Py.f0_7) eqn:Ec; simpl.
  - left. auto.
  - right. split; [intros [_ ?]; discriminate | reflexivity].
  - right. split; [intros [? _]; contradiction | reflexivity].
  - right. split; [intros [? _]; contradiction | reflexivity].
Qed.
End IntentFacts.

(** ** Commands are decided by the regular expressions *)

(** The order of floats that are not NaN: case analysis on the
    comparisons of exponents and significands. *)
Ltac compare_cases :=
  repeat match goal with
         | |- context [Z.compare ?a ?b] => destruct (Z.compare_spec a b)
         | |- context [Pos.compare ?a ?b] => destruct (Pos.compare_spec a b)
         end.

Lemma SFltb_trans a b c :
  SFltb a b = true -> SFltb b c = true -> SFltb a c = true.
Proof.
  unfold SFltb.
  destruct a as [[|] | [|] | | [|] ma ea], b as [[|] | [|] | | [|] mb eb],
           c as [[|] | [|] | | [|] mc ec];
    simpl; try discriminate; try reflexivity;
    change (Pos.compare_cont Eq ?x ?y) with (Pos.compare x y);
    compare_cases; simpl; try discriminate; try reflexivity; intros; subst; lia.
Qed.

Lemma SFltb_le_trans a b c :
  Py.is_nan b = false -> Py.is_nan c = false ->
  SFltb a c = true -> SFltb b c = false -> SFltb a b = true.
Proof.
  unfold SFltb.
  destruct a as [[|] | [|] | | [|] ma ea], b as [[|] | [|] | | [|] mb eb],
           c as [[|] | [|] | | [|] mc ec];
    simpl; try discriminate; try reflexivity;
    change (Pos.compare_cont Eq ?x ?y) with (Pos.compare x y);
    compare_cases; simpl; try discriminate; try reflexivity; intros; subst; lia.
Qed.

(** A keyword score [(k / n) * 0.5] with [0 < k <= n <= 5], the lengths
    of the keyword lists of the program, is a number not above 0.6. *)
Lemma keyword_score_low k n :
  0 < k <= n -> n <= 5 ->
  exists q, Py.int_truediv k n = Py.Ok q /\
    Py.is_nan (Py.fmul q Py.f0_5) = false /\
    Py.fgt (Py.fmul q Py.f0_5) Py.f0_6 = false.
Proof.
  intros Hk Hn.
  assert (Hn' : n = 1 \/ n = 2 \/ n = 3 \/ n = 4 \/ n = 5) by lia.
  assert (Hk' : k = 1 \/ k = 2 \/ k = 3 \/ k = 4 \/ k = 5) by lia.
  destruct Hn' as [-> | [-> | [-> | [-> | ->]]]];
    destruct Hk' as [-> | [-> | [-> | [-> | ->]]]]; try lia;
    (eexists; split; [vm_compute; reflexivity | split; vm_compute; reflexivity]).
Qed.

Lemma command_patterns_decisive : forallb decisive command_patterns = true.
Proof. vm_compute. reflexivity. Qed.

Section IntentRegexFacts.
Context `{PyEnv}.

(** The confidence of one round is above 0.6 exactly when the regular
    expression of the pattern matched. *)
Lemma pattern_confidence_decisive text pattern_obj :
  decisive pattern_obj = true ->
  exists c, pattern_confidence text pattern_obj = Py.Ok c /\
    Py.is_nan c = false /\
    Py.fgt c Py.f0_6 = re_search (IntentPattern.pattern pattern_obj) text.
Proof.
  unfold decisive, pattern_confidence. intros Hd.
  apply andb_prop in Hd as [Hd Hlen]. apply andb_prop in Hd as [Hnan Hconf].
  apply negb_true_iff in Hnan. apply Z.leb_le in Hlen.
  destruct (re_search _ _); [eauto |].
  destruct (Z.ltb_spec 0 (keyword_matches (IntentPattern.keywords pattern_obj) text)).
  - pose proof (keyword_matches_bounds (IntentPattern.keywords pattern_obj) text).
    destruct (keyword_score_low
                (keyword_matches (IntentPattern.keywords pattern_obj) text)
                (Z.of_nat (length (IntentPattern.keywords pattern_obj))))
      as (q & Hq & Hn & Hlow); [lia | lia |].
    rewrite Hq. simpl. eauto.
  - eexists. split; [reflexivity |]. split; reflexivity.
Qed.

(** The loop of [_check_patterns] ends above 0.6 exactly when it started
    above 0.6 or the regular expression of some pattern matches. *)
Lemma check_loop_decisive text patterns :
  forallb decisive patterns = true ->
  forall best, Py.is_nan (BestMatch.confidence best) = false ->
  exists b, check_loop text patterns best = Py.Ok b /\
    (Py.fgt (BestMatch.confidence b) Py.f0_6 = true <->
     Py.fgt (BestMatch.confidence best) Py.f0_6 = true \/
     exists pattern_obj, pattern_obj ∈ patterns /\
       re_search (IntentPattern.pattern pattern_obj) text = true).
Proof.
  induction patterns as [| p rest IH]; intros Hall best Hbest; simpl.
  - eexists. split; [reflexivity |]. split; [auto |].
    intros [? | (? & Hin & _)]; [assumption | inversion Hin].
  - simpl in Hall. apply andb_prop in Hall as [Hp Hrest].
    destruct (pattern_confidence_decisive text p Hp) as (c & -> & Hc & Hm). simpl.
    destruct (Py.fgt c (BestMatch.confidence best)) eqn:Hup.
    + destruct (IH Hrest {| BestMatch.confidence := c;
                            BestMatch.pattern := Some (IntentPattern.pattern p);
                            BestMatch.keywords := IntentPattern.keywords p |} Hc)
        as (b & Hb & Hiff).
      exists b. split; [exact Hb |]. rewrite Hiff. simpl. rewrite Hm. split.
      * intros [Hre | (q & Hin & Hq)].
        -- right. exists p. split; [apply list_elem_of_here | exact Hre].
        -- right. exists q. split; [apply list_elem_of_further; exact Hin | exact Hq].
      * intros [Hbest' | (q & Hin & Hq)].
        -- left. rewrite <- Hm. unfold Py.fgt in *.
           exact (SFltb_trans _ _ _ Hbest' Hup).
        -- apply elem_of_cons in Hin as [-> | Hin]; [left; exact Hq |].
           right. exists q. auto.
    + destruct (IH Hrest best Hbest) as (b & Hb & Hiff).
      exists b. split; [exact Hb |]. rewrite Hiff. split.
      * intros [Hbest' | (q & Hin & Hq)]; [left; exact Hbest' |].
        right. exists q. split; [apply list_elem_of_further; exact Hin | exact Hq].
      * intros [Hbest' | (q & Hin & Hq)]; [left; exact Hbest' |].
        apply elem_of_cons in Hin as [-> | Hin].
        -- left. rewrite <- Hm in Hq. unfold Py.fgt in *.
           exact (SFltb_le_trans _ _ _ Hbest Hc Hq Hup).
        -- right. exists q. auto.
Qed.

(** The classifier answers "command" exactly when the regular expression
    of one of the command patterns matches the lowered, stripped text:
    a keyword score alone never makes a command. *)
Lemma _check_patterns_decisive text :
  exists b, _check_patterns text command_patterns = Py.Ok b /\
    (Py.fgt (BestMatch.confidence b) Py.f0_6 = true <->
     exists pattern_obj, pattern_obj ∈ command_patterns /\
       re_search (IntentPattern.pattern pattern_obj) text = true).
Proof.
  destruct (check_loop_decisive text command_patterns command_patterns_decisive
              {| BestMatch.confidence := Py.f0_0; BestMatch.pattern := None;
                 BestMatch.keywords := [] |} eq_refl) as (b & Hb & Hiff).
  exists b. split; [exact Hb |]. rewrite Hiff. split; [| auto].
  intros [Hz | Hex]; [discriminate Hz | exact Hex].
Qed.

Local Opaque _check_patterns.

Lemma command_iff_pattern_matches text r :
  classify_intent text = Py.Ok r ->
  (IntentResult.intent r = "command" <->
   exists pattern_obj, pattern_obj ∈ command_patterns /\
     re_search (IntentPattern.pattern pattern_obj) (Py.strip (Py.lower text)) = true).
Proof.
  unfold classify_intent.
  destruct (_check_patterns_decisive (Py.strip (Py.lower text))) as (b & -> & <-).
  simpl.
  destruct (Py.fgt (BestMatch.confidence b) Py.f0_6).
  - intros [= <-]. simpl. split; reflexivity.
  - destruct (_check_patterns _ educational_patterns) as [er | e]; simpl; [| discriminate].
    destruct (Py.fgt (BestMatch.confidence er) Py.f0_5);
      intros [= <-]; simpl; split; discriminate.
Qed.
End IntentRegexFacts.

(* ===================================================================== *)
(** * Learning tracker: answers *)
(* ===================================================================== *)

(** Unfolding of the monad operations of the tracker. *)
Ltac run_tracker :=
  repeat (cbn [mbind mret M_bind M_ret bind ret get modify lift raise tick
               now time_now the_profile ensure_profile
               _create_default_profile _create_topic_progress
               set_current_session set_student_profile set_profile_file
               set_temp_progress_file set_sessions_file
               self disk ticks current_session student_profile
               profile_file sessions_file temp_progress_file
               topics set_topics fst snd]
          || unfold mbind, mret, M_bind, M_ret, bind, ret, get, modify, lift,
               raise, tick, now, time_now, the_profile, ensure_profile,
               _create_default_profile, _create_topic_progress).

Section AnswerFacts.
Context `{PyEnv}.

(** Saving touches the files only. *)
Lemma _save_student_profile_self (w : World) :
  fst (_save_student_profile w) = Py.Ok tt /\
  self (snd (_save_student_profile w)) = self w.
Proof.
  unfold _save_student_profile. run_tracker.
  destruct (student_profile (self w)); run_tracker; auto.
Qed.

Lemma _save_temp_progress_self (w : World) :
  self (snd (_save_temp_progress w)) = self w.
Proof.
  unfold _save_temp_progress, _load_temp_progress, _save_temp_progress_data.
  run_tracker.
  destruct (temp_progress_file (disk w)) as [| | j]; run_tracker;
    destruct (current_session (self w)); run_tracker; try reflexivity.
  destruct j; reflexivity.
Qed.

(** The two reviews change the two lists only. *)
Lemma review_strengths_topics topic tp p p' :
  review_strengths topic tp p = Py.Ok p' -> topics p' = topics p.
Proof.
  unfold review_strengths.
  destruct (3 <=? correct_answers tp); [| intros [= <-]; reflexivity].
  destruct (Py.int_truediv _ _) as [accuracy | e]; [| discriminate]. simpl.
  destruct (Py.fge accuracy Py.f0_75 && negb (Py.in_list topic (strengths p)));
    [| intros [= <-]; reflexivity].
  simpl. destruct (Py.in_list topic (areas_for_improvement p));
    intros [= <-]; reflexivity.
Qed.

Lemma review_struggles_topics topic tp p p' :
  review_struggles topic tp p = Py.Ok p' -> topics p' = topics p.
Proof.
  unfold review_struggles.
  destruct (3 <=? correct_answers tp + incorrect_answers tp);
    [| intros [= <-]; reflexivity].
  destruct (Py.int_truediv _ _) as [accuracy | e]; [| discriminate]. simpl.
  destruct (Py.flt accuracy Py.f0_5
            && negb (Py.in_list topic (areas_for_improvement p)));
    [| intros [= <-]; reflexivity].
  simpl. destruct (Py.in_list topic (strengths p));
    intros [= <-]; reflexivity.
Qed.

(** What [log_answer_result] leaves in memory. *)
Lemma log_answer_result_profile (w : World) s topic is_correct :
  current_session (self w) = Some s ->
  student_profile (self (snd (log_answer_result topic is_correct w))) =
  Some (profile_after_answer topic is_correct (ticks w) (student_profile (self w))).
Proof.
  intros Hs. destruct w as [[cs sp] d t]. simpl in Hs. subst cs.
  unfold log_answer_result, profile_after_answer. run_tracker.
  destruct sp as [p |]; run_tracker.
  - destruct (topics p !! topic) as [tp |] eqn:E; run_tracker.
    + rewrite E. run_tracker. simpl default.
      destruct (if is_correct then _ else _) as [p2 | e]; run_tracker;
        [| reflexivity].
      match goal with |- context [_save_temp_progress ?w] =>
        pose proof (_save_temp_progress_self w) as Ht;
        destruct (_save_temp_progress w) as [[[] | e] w1] end;
        simpl in Ht |- *; [| rewrite Ht; reflexivity].
      destruct (_save_student_profile_self w1) as [_ Hp].
      rewrite Hp, Ht. reflexivity.
    + rewrite lookup_insert_eq. run_tracker. simpl default.
      rewrite insert_insert_eq.
      destruct (if is_correct then _ else _) as [p2 | e]; run_tracker;
        [| reflexivity].
      match goal with |- context [_save_temp_progress ?w] =>
        pose proof (_save_temp_progress_self w) as Ht;
        destruct (_save_temp_progress w) as [[[] | e] w1] end;
        simpl in Ht |- *; [| rewrite Ht; reflexivity].
      destruct (_save_student_profile_self w1) as [_ Hp].
      rewrite Hp, Ht. reflexivity.
  - unfold default_profile. run_tracker.
    rewrite lookup_empty. run_tracker. rewrite lookup_insert_eq. run_tracker.
    simpl default. rewrite insert_insert_eq.
    destruct (if is_correct then _ else _) as [p2 | e]; run_tracker;
      [| reflexivity].
    match goal with |- context [_save_temp_progress ?w] =>
      pose proof (_save_temp_progress_self w) as Ht;
      destruct (_save_temp_progress w) as [[[] | e] w1] end;
      simpl in Ht |- *; [| rewrite Ht; reflexivity].
    destruct (_save_student_profile_self w1) as [_ Hp].
    rewrite Hp, Ht. reflexivity.
Qed.

(** Without a session the call does nothing. *)
Lemma log_answer_result_no_session (w : World) topic is_correct :
  current_session (self w) = None ->
  log_answer_result topic is_correct w = (Py.Ok tt, w).
Proof. intros Hs. unfold log_answer_result. run_tracker. rewrite Hs. reflexivity. Qed.

Lemma profile_after_answer_topics topic is_correct n before :
  let p0 := match before with
            | Some p => p
            | None => default_profile (time_time n)
            end in
  exists tp0,
    (topics p0 !! topic = Some tp0 \/
     topics p0 !! topic = None /\
     correct_answers tp0 = 0 /\ incorrect_answers tp0 = 0) /\
    topics (profile_after_answer topic is_correct n before) =
    <[topic := count_answer is_correct tp0]> (topics p0).
Proof.
  intros p0. unfold profile_after_answer.
  set (n' := match before with Some _ => n | None => S n end).
  assert (E : (match before with
               | Some p => (p, n)
               | None => (default_profile (time_time n), S n)
               end) = (p0, n')) by (destruct before; reflexivity).
  rewrite E. clear E.
  set (fresh := fresh_topic topic (datetime_now n') (datetime_now (S n'))).
  exists (default fresh (topics p0 !! topic)). split.
  - destruct (topics p0 !! topic); [left; reflexivity | right; auto].
  - set (tp := count_answer is_correct _). set (p1 := set_topics _ p0).
    destruct is_correct.
    + destruct (review_strengths topic tp p1) as [p2 | e] eqn:E; [| reflexivity].
      apply review_strengths_topics in E. rewrite E. reflexivity.
    + destruct (review_struggles topic tp p1) as [p2 | e] eqn:E; [| reflexivity].
      apply review_struggles_topics in E. rewrite E. reflexivity.
Qed.

(** C5. A call [log_answer_result(topic, is_correct)] made while a
    session is active adds one to [correct_answers] of the topic when
    the answer is correct and one to [incorrect_answers] otherwise,
    leaves the other counter of the topic as it was (both start from 0
    for a topic that the call creates), and leaves every other topic of
    the profile as it was. *)
Theorem log_answer_result_counts (w : World) (s : LearningSession)
  (topic : string) (is_correct : bool) :
  current_session (self w) = Some s ->
  let before := student_profile (self w) ≫= (fun p => topics p !! topic) in
  let w' := snd (log_answer_result topic is_correct w) in
  exists p' tp',
    student_profile (self w') = Some p' /\
    topics p' !! topic = Some tp' /\
    correct_answers tp' =
      from_option correct_answers 0 before + (if is_correct then 1 else 0) /\
    incorrect_answers tp' =
      from_option incorrect_answers 0 before + (if is_correct then 0 else 1) /\
    forall other, other <> topic ->
      topics p' !! other = student_profile (self w) ≫= (fun p => topics p !! other).
Proof.
  intros Hs before w'. subst w'.
  rewrite (log_answer_result_profile w s topic is_correct Hs).
  destruct (profile_after_answer_topics topic is_correct (ticks w)
              (student_profile (self w))) as (tp0 & Htp0 & Ht).
  eexists. exists (count_answer is_correct tp0).
  split; [reflexivity |]. rewrite Ht. split; [apply lookup_insert_eq |].
  assert (Hc : from_option correct_answers 0 before = correct_answers tp0 /\
               from_option incorrect_answers 0 before = incorrect_answers tp0).
  { subst before. destruct (student_profile (self w)) as [p |]; simpl in *.
    - destruct Htp0 as [-> | (-> & -> & ->)]; auto.
    - rewrite lookup_empty in Htp0. destruct Htp0 as [? | (_ & -> & ->)]; [discriminate | auto]. }
  destruct Hc as [-> ->].
  split; [| split].
  - destruct is_correct; simpl; lia.
  - destruct is_correct; simpl; lia.
  - intros other Hne. rewrite lookup_insert_ne by congruence.
    destruct (student_profile (self w)); simpl; [reflexivity | apply lookup_empty].
Qed.
End AnswerFacts.

(* ===================================================================== *)
(** * Learning tracker: strengths and areas for improvement *)
(* ===================================================================== *)

Lemma in_list_spec x l : Py.in_list x l = true <-> x ∈ l.
Proof. unfold Py.in_list. apply bool_decide_eq_true. Qed.

Lemma in_list_false x l : Py.in_list x l = false <-> x ∉ l.
Proof. unfold Py.in_list. apply bool_decide_eq_false. Qed.

Lemma remove_first_subset x y l : y ∈ Py.remove_first x l -> y ∈ l.
Proof.
  induction l as [| z l IH]; simpl; [auto |].
  destruct (String.eqb x z); rewrite ?elem_of_cons; [auto |].
  intros [-> | Hy]; auto.
Qed.

Lemma remove_first_NoDup x l : NoDup l -> NoDup (Py.remove_first x l).
Proof.
  induction 1 as [| z l Hz Hl IH]; simpl; [constructor |].
  destruct (String.eqb x z); [assumption |].
  constructor; [| assumption]. intros Hin. apply Hz. eapply remove_first_subset, Hin.
Qed.

Lemma remove_first_gone x l : NoDup l -> x ∉ Py.remove_first x l.
Proof.
  induction 1 as [| z l Hz Hl IH]; simpl; [apply not_elem_of_nil |].
  destruct (String.eqb_spec x z) as [-> | Hne]; [assumption |].
  rewrite elem_of_cons. intros [? | ?]; [congruence | contradiction].
Qed.

Section ListsFacts.
Context `{PyEnv}.

Lemma default_profile_separate t : lists_separate (default_profile t).
Proof.
  repeat split; simpl; try constructor. intros topic Hin. inversion Hin.
Qed.

Lemma review_strengths_separate topic tp p p' :
  lists_separate p -> review_strengths topic tp p = Py.Ok p' -> lists_separate p'.
Proof.
  intros (Hs & Ha & Hd). unfold review_strengths.
  destruct (3 <=? correct_answers tp); [| intros [= <-]; repeat split; auto].
  destruct (Py.int_truediv _ _) as [accuracy | e]; [| discriminate]. simpl.
  destruct (Py.fge accuracy Py.f0_75); simpl; [| intros [= <-]; repeat split; auto].
  destruct (Py.in_list topic (strengths p)) eqn:Ein; simpl;
    [intros [= <-]; repeat split; auto |].
  apply in_list_false in Ein.
  assert (Hs' : NoDup (strengths p ++ [topic])).
  { apply NoDup_app. repeat split; [assumption | | apply NoDup_singleton].
    intros x Hx Hx'. apply list_elem_of_singleton in Hx'. subst. contradiction. }
  destruct (Py.in_list topic (areas_for_improvement p)) eqn:Eia; intros [= <-]; simpl.
  - repeat split; [assumption | apply remove_first_NoDup; assumption |].
    intros x Hx Hx'. apply elem_of_app in Hx. destruct Hx as [Hx | Hx].
    + apply (Hd x Hx). eapply remove_first_subset, Hx'.
    + apply list_elem_of_singleton in Hx. subst x.
      exact (remove_first_gone _ _ Ha Hx').
  - apply in_list_false in Eia. repeat split; [assumption | assumption |].
    intros x Hx Hx'. apply elem_of_app in Hx. destruct Hx as [Hx | Hx].
    + apply (Hd x Hx Hx').
    + apply list_elem_of_singleton in Hx. subst x. contradiction.
Qed.

Lemma review_struggles_separate topic tp p p' :
  lists_separate p -> review_struggles topic tp p = Py.Ok p' -> lists_separate p'.
Proof.
  intros (Hs & Ha & Hd). unfold review_struggles.
  destruct (3 <=? correct_answers tp + incorrect_answers tp);
    [| intros [= <-]; repeat split; auto].
  destruct (Py.int_truediv _ _) as [accuracy | e]; [| discriminate]. simpl.
  destruct (Py.flt accuracy Py.f0_5); simpl; [| intros [= <-]; repeat split; auto].
  destruct (Py.in_list topic (areas_for_improvement p)) eqn:Ein; simpl;
    [intros [= <-]; repeat split; auto |].
  apply in_list_false in Ein.
  assert (Ha' : NoDup (areas_for_improvement p ++ [topic])).
  { apply NoDup_app. repeat split; [assumption | | apply NoDup_singleton].
    intros x Hx Hx'. apply list_elem_of_singleton in Hx'. subst. contradiction. }
  destruct (Py.in_list topic (strengths p)) eqn:Eis; intros [= <-]; simpl.
  - repeat split; [apply remove_first_NoDup; assumption | assumption |].
    intros x Hx Hx'. apply elem_of_app in Hx'. destruct Hx' as [Hx' | Hx'].
    + apply (Hd x); [eapply remove_first_subset, Hx | exact Hx'].
    + apply list_elem_of_singleton in Hx'. subst x.
      exact (remove_first_gone _ _ Hs Hx).
  - apply in_list_false in Eis. repeat split; [assumption | assumption |].
    intros x Hx Hx'. apply elem_of_app in Hx'. destruct Hx' as [Hx' | Hx'].
    + apply (Hd x Hx Hx').
    + apply list_elem_of_singleton in Hx'. subst x. contradiction.
Qed.

Lemma profile_after_answer_separate topic is_correct n before :
  match before with Some p => lists_separate p | None => True end ->
  lists_separate (profile_after_answer topic is_correct n before).
Proof.
  intros Hb. unfold profile_after_answer.
  set (n' := match before with Some _ => n | None => S n end).
  set (p0 := match before with Some p => p | None => default_profile (time_time n) end).
  assert (E : (match before with
               | Some p => (p, n)
               | None => (default_profile (time_time n), S n)
               end) = (p0, n')) by (destruct before; reflexivity).
  rewrite E. clear E.
  assert (Hp0 : lists_separate p0).
  { subst p0. destruct before; [assumption | apply default_profile_separate]. }
  set (tp := count_answer is_correct _). set (p1 := set_topics _ p0).
  assert (Hp1 : lists_separate p1) by exact Hp0.
  destruct is_correct.
  - destruct (review_strengths topic tp p1) as [p2 | e] eqn:E; [| assumption].
    eapply review_strengths_separate; eauto.
  - destruct (review_struggles topic tp p1) as [p2 | e] eqn:E; [| assumption].
    eapply review_struggles_separate; eauto.
Qed.

Lemma log_answer_result_separate (w : World) topic is_correct :
  match student_profile (self w) with Some p => lists_separate p | None => True end ->
  match student_profile (self (snd (log_answer_result topic is_correct w))) with
  | Some p => lists_separate p
  | None => True
  end.
Proof.
  intros Hw. destruct (current_session (self w)) as [s |] eqn:Es.
  - rewrite (log_answer_result_profile w s topic is_correct Es).
    apply profile_after_answer_separate. exact Hw.
  - rewrite log_answer_result_no_session by assumption. exact Hw.
Qed.

Lemma log_answers_separate calls : forall (w : World),
  match student_profile (self w) with Some p => lists_separate p | None => True end ->
  match student_profile (self (log_answers calls w)) with
  | Some p => lists_separate p
  | None => True
  end.
Proof.
  induction calls as [| [topic is_correct] rest IH]; intros w Hw; simpl; [exact Hw |].
  apply IH. apply log_answer_result_separate. exact Hw.
Qed.

(** C10. From a tracker without a profile or with the default profile,
    whatever calls of [log_answer_result] follow, no topic is in both
    [strengths] and [areas_for_improvement] (and neither list repeats
    a topic). *)
Theorem strengths_and_areas_disjoint (w : World) (calls : list (string * bool)) :
  (student_profile (self w) = None \/
   exists t, student_profile (self w) = Some (default_profile t)) ->
  forall p, student_profile (self (log_answers calls w)) = Some p ->
    NoDup (strengths p) /\ NoDup (areas_for_improvement p) /\
    forall topic, ~ (topic ∈ strengths p /\ topic ∈ areas_for_improvement p).
Proof.
  intros Hstart p Hp.
  pose proof (log_answers_separate calls w) as Hinv. rewrite Hp in Hinv.
  destruct Hinv as (Hs & Ha & Hd).
  - destruct Hstart as [-> | [t ->]]; [exact I | apply default_profile_separate].
  - repeat split; try assumption. intros topic [H1 H2]. exact (Hd topic H1 H2).
Qed.
End ListsFacts.

(* ===================================================================== *)
(** * Learning tracker: the sessions log *)
(* ===================================================================== *)

Lemma last_n_length {A} n (l : list A) : (length (Py.last_n n l) <= n)%nat.
Proof. unfold Py.last_n. rewrite length_drop. lia. Qed.

Lemma last_n_snoc {A} n (l : list A) x :
  (0 < n)%nat -> last (Py.last_n n (l ++ [x])) = Some x.
Proof.
  intros Hn. unfold Py.last_n. rewrite length_app. simpl.
  rewrite drop_app_le by lia. apply last_snoc.
Qed.

Section SessionFacts.
Context `{PyEnv}.

(** One round of the loop over the topics of the session returns and
    touches the profile only; so does the loop. *)
Lemma touch_topic_frame start finish n topic (w : World) :
  is_Some (student_profile (self w)) ->
  exists w',
    touch_topic start finish n topic w = (Py.Ok tt, w') /\
    current_session (self w') = current_session (self w) /\
    disk w' = disk w /\
    is_Some (student_profile (self w')).
Proof.
  intros [p Hp]. unfold touch_topic. run_tracker. rewrite Hp. run_tracker.
  destruct (topics p !! topic) as [tp |]; run_tracker; eexists;
    (split; [reflexivity |]); simpl; rewrite ?Hp; eauto.
Qed.

Lemma touch_topics_frame start finish n (covered : list string) :
  forall (w : World),
    is_Some (student_profile (self w)) ->
    exists w',
      for_each covered (touch_topic start finish n) w = (Py.Ok tt, w') /\
      current_session (self w') = current_session (self w) /\
      disk w' = disk w /\
      is_Some (student_profile (self w')).
Proof.
  induction covered as [| topic rest IH]; intros w Hp; simpl.
  - exists w. run_tracker. eauto.
  - run_tracker.
    destruct (touch_topic_frame start finish n topic w Hp)
      as (w1 & -> & Hs1 & Hd1 & Hp1).
    destruct (IH w1 Hp1) as (w' & -> & Hs & Hd & Hp').
    exists w'. rewrite Hs, Hd. auto.
Qed.

Lemma _save_student_profile_sessions (w : World) :
  sessions_file (disk (snd (_save_student_profile w))) = sessions_file (disk w).
Proof.
  unfold _save_student_profile. run_tracker.
  destruct (student_profile (self w)); reflexivity.
Qed.

(** [_save_session_data] with a readable log. *)
Lemma _save_session_data_appends (w : World) s old :
  current_session (self w) = Some s ->
  sessions_log (sessions_file (disk w)) = Some old ->
  _save_session_data w =
    (Py.Ok tt,
     set_sessions_file (Doc (JList (Py.last_n 50 (old ++ [session_to_json s])))) w).
Proof.
  intros Hs Hlog. unfold _save_session_data. run_tracker. rewrite Hs.
  unfold try_except, save_session_body. run_tracker.
  destruct (sessions_file (disk w)) as [| | [] ]; simpl in Hlog;
    try discriminate; injection Hlog as <-; reflexivity.
Qed.

(** With an unreadable log the exception is caught and the file stays
    as it is. *)
Lemma _save_session_data_unreadable (w : World) s :
  current_session (self w) = Some s ->
  sessions_log (sessions_file (disk w)) = None ->
  _save_session_data w = (Py.Ok tt, w).
Proof.
  intros Hs Hlog. unfold _save_session_data. run_tracker. rewrite Hs.
  unfold try_except, save_session_body. run_tracker.
  destruct (sessions_file (disk w)) as [| | [] ]; simpl in Hlog;
    try discriminate; reflexivity.
Qed.

(** C3, amended. [end_current_session] with an active session and a
    readable log (no file yet, or a JSON list) returns normally; the log then
    ends with the record of the session, whose [end_time] is the time
    of the call, it holds at most 50 records, namely the last 50 of the
    previous records followed by the new one, and no session is active
    any more. *)
Theorem end_current_session_appends (w : World) (s : LearningSession)
  (old : list json) :
  current_session (self w) = Some s ->
  sessions_log (sessions_file (disk w)) = Some old ->
  let finish := datetime_now (ticks w) in
  let record := session_to_json (set_end_time (Some finish) s) in
  exists w' log,
    end_current_session w = (Py.Ok tt, w') /\
    dict_get "end_time" match record with JObj o => o | _ => [] end
      = Some (JStr (isoformat finish)) /\
    sessions_file (disk w') = Doc (JList log) /\
    last log = Some record /\
    (length log <= 50)%nat /\
    log = drop (length (old ++ [record]) - 50) (old ++ [record]) /\
    current_session (self w') = None.
Proof.
  intros Hs Hlog finish record.
  destruct w as [[cs sp] d t]. simpl in Hs, Hlog. subst cs.
  unfold end_current_session. run_tracker.
  set (s' := set_end_time (Some (datetime_now t)) s).
  assert (Hsave : forall w1 : World,
            current_session (self w1) = Some s' -> disk w1 = d ->
            exists w',
              (let (r, w2) := _save_session_data w1 in
               match r with
               | Py.Ok _ =>
                   let (r0, w3) := _save_student_profile w2 in
                   match r0 with
                   | Py.Ok _ => (Py.Ok tt, set_current_session None w3)
                   | Py.Raise e => (Py.Raise e, w3)
                   end
               | Py.Raise e => (Py.Raise e, w2)
               end) = (Py.Ok tt, w') /\
              sessions_file (disk w') = Doc (JList (Py.last_n 50 (old ++ [record]))) /\
              current_session (self w') = None).
  { intros w1 Hs1 Hd1.
    rewrite (_save_session_data_appends w1 s' old Hs1) by (rewrite Hd1; exact Hlog).
    match goal with |- context [_save_student_profile ?w2] =>
      pose proof (_save_student_profile_self w2) as [Hr Hself];
      pose proof (_save_student_profile_sessions w2) as Hdisk;
      destruct (_save_student_profile w2) as [r w3] end.
    simpl in Hr, Hself, Hdisk. subst r. eexists. split; [reflexivity |].
    split; [simpl; rewrite Hdisk; reflexivity | reflexivity]. }
  assert (Hdone : forall w',
            sessions_file (disk w') = Doc (JList (Py.last_n 50 (old ++ [record]))) ->
            current_session (self w') = None ->
            exists log,
              dict_get "end_time" match record with JObj o => o | _ => [] end
                = Some (JStr (isoformat finish)) /\
              sessions_file (disk w') = Doc (JList log) /\
              last log = Some record /\ (length log <= 50)%nat /\
              log = drop (length (old ++ [record]) - 50) (old ++ [record]) /\
              current_session (self w') = None).
  { intros w' Hf Hn. exists (Py.last_n 50 (old ++ [record])).
    split; [reflexivity |]. split; [assumption |].
    split; [apply last_n_snoc; lia |]. split; [apply last_n_length |].
    split; [reflexivity | assumption]. }
  destruct sp as [p |]; run_tracker.
  - match goal with |- context [for_each _ _ ?w1] =>
      destruct (touch_topics_frame (start_time s') (datetime_now t)
                  (Z.of_nat (length (topics_covered s'))) (topics_covered s') w1)
        as (w2 & Hrun & Hcs & Hd & _); [simpl; eauto |] end.
    rewrite Hrun. simpl in Hcs, Hd.
    destruct (Hsave w2 Hcs Hd) as (w' & Hw' & Hf & Hn). rewrite Hw'.
    exists w'. destruct (Hdone w' Hf Hn) as (log & ?). exists log. auto.
  - match goal with |- context [_save_session_data ?w1] =>
      destruct (Hsave w1 eq_refl eq_refl) as (w' & Hw' & Hf & Hn) end.
    rewrite Hw'. exists w'. destruct (Hdone w' Hf Hn) as (log & ?). exists log. auto.
Qed.
End SessionFacts.

(* ===================================================================== *)
(** * Learning tracker: the profile file *)
(* ===================================================================== *)







Section ProfileFileFacts.
Context `{PyEnv}.



End ProfileFileFacts.

Section ProfileFileTheorem.
Context `{PyEnv}.

(** Without a profile in memory, saving leaves the file as it is. *)
Lemma _save_student_profile_without_profile (w : World) :
  student_profile (self w) = None -> _save_student_profile w = (Py.Ok tt, w).
Proof. intros Hp. unfold _save_student_profile. run_tracker. rewrite Hp. reflexivity. Qed.


End ProfileFileTheorem.

(* ===================================================================== *)
(** * Learning tracker: answers are kept *)
(* ===================================================================== *)

Section AnswerReturns.
Context `{PyEnv}.





Lemma _save_student_profile_writes (w : World) p :
  student_profile (self w) = Some p ->
  profile_file (disk (snd (_save_student_profile w))) = Doc (profile_to_json p).
Proof.
  intros Hp. unfold _save_student_profile. run_tracker. rewrite Hp. reflexivity.
Qed.




End AnswerReturns.

(* ===================================================================== *)
(** * Math commands *)
(* ===================================================================== *)

Lemma foldl_add_Zsum l : forall acc, foldl Z.add acc l = acc + Zsum l.
Proof. induction l as [| x l IH]; intros acc; simpl; [lia | rewrite IH; lia]. Qed.

Lemma foldl_sub_Zsum l : forall acc, foldl Z.sub acc l = acc - Zsum l.
Proof. induction l as [| x l IH]; intros acc; simpl; [lia | rewrite IH; lia]. Qed.

Lemma foldl_mul_Zproduct l : forall acc, foldl Z.mul acc l = acc * Zproduct l.
Proof. induction l as [| x l IH]; intros acc; simpl; [lia | rewrite IH; lia]. Qed.

(** ** Numerals within the digit limit *)

Lemma int_str_bound_eq : Py.int_str_bound = 10 ^ Z.of_nat Py.int_max_str_digits.
Proof. vm_compute. reflexivity. Qed.

Lemma digit_value_bounds c d : Py.digit_value c = Some d -> 0 <= d <= 9.
Proof.
  unfold Py.digit_value.
  destruct (_ && _)%N eqn:E; [| discriminate]. intros [= <-].
  apply andb_prop in E as [E1 E2]. apply N.leb_le in E1, E2. lia.
Qed.

Lemma digits_value_bound s :
  forall acc v, 0 <= acc -> Py.digits_value acc s = Some v ->
    0 <= v < (acc + 1) * 10 ^ Z.of_nat (String.length s).
Proof.
  induction s as [| c r IH]; intros acc v Hacc; cbn [Py.digits_value String.length].
  - intros [= <-]. change (10 ^ Z.of_nat 0) with 1. lia.
  - destruct (Py.digit_value c) as [d |] eqn:Ed; [| discriminate].
    apply digit_value_bounds in Ed. intros Hv.
    apply IH in Hv; [| lia].
    rewrite Nat2Z.inj_succ, Z.pow_succ_r by lia.
    set (P := 10 ^ Z.of_nat (String.length r)) in *.
    assert (0 < P) by (apply Z.pow_pos_nonneg; lia).
    nia.
Qed.

(** An integer that [int()] reads is within the limit. *)
Lemma parse_int_within_limit s z :
  Py.parse_int s = Some z -> Py.within_digit_limit z = true.
Proof.
  unfold Py.parse_int, Py.within_digit_limit.
  destruct (Py.split_sign s) as [neg body].
  destruct body as [| c r] eqn:Eb; [discriminate |]. rewrite <- Eb. clear Eb c r.
  destruct (Nat.ltb_spec Py.int_max_str_digits (String.length body)) as [| Hlen];
    [discriminate |].
  destruct (Py.digits_value 0 body) as [v |] eqn:Ev; [| discriminate].
  intros [= <-]. apply digits_value_bound in Ev; [| lia].
  apply Z.ltb_lt. rewrite int_str_bound_eq.
  assert (Hpow : 10 ^ Z.of_nat (String.length body)
                 <= 10 ^ Z.of_nat Py.int_max_str_digits)
    by (apply Z.pow_le_mono_r; lia).
  set (P := 10 ^ Z.of_nat (String.length body)) in *.
  set (B := 10 ^ Z.of_nat Py.int_max_str_digits) in *.
  destruct neg; lia.
Qed.

Section ConversionFacts.
Context `{PyEnv}.

(** The conversions, by the digit limit. *)
Lemma str_number_spec n :
  str_number n =
  if printable n then Py.Ok (text_number n) else Py.Raise Py.ValueError.
Proof. destruct n; reflexivity. Qed.

Lemma mapM_str_number numbers :
  mapM str_number numbers =
  if forallb printable numbers then Py.Ok (text_number <$> numbers)
  else Py.Raise Py.ValueError.
Proof.
  induction numbers as [| n rest IH]; [reflexivity |].
  cbn [mapM forallb]. rewrite str_number_spec, IH.
  destruct (printable n); [| reflexivity].
  destruct (forallb printable rest); reflexivity.
Qed.

Lemma join_numbers_spec sep numbers :
  join_numbers sep numbers =
  if forallb printable numbers then Py.Ok (Py.join sep (text_number <$> numbers))
  else Py.Raise Py.ValueError.
Proof.
  unfold join_numbers. rewrite mapM_str_number.
  destruct (forallb printable numbers); reflexivity.
Qed.

Lemma str_field_spec f :
  str_field f =
  if printable_field f then Py.Ok (text_field f) else Py.Raise Py.ValueError.
Proof.
  destruct f as [s | n | sep numbers]; cbn [str_field printable_field text_field];
    [reflexivity | apply str_number_spec | apply join_numbers_spec].
Qed.

Lemma fstring_spec fields :
  fstring fields =
  if forallb printable_field fields then Py.Ok (text_fields fields)
  else Py.Raise Py.ValueError.
Proof.
  induction fields as [| f rest IH]; [reflexivity |].
  cbn [fstring forallb text_fields foldr]. rewrite str_field_spec, IH.
  destruct (printable_field f); [| reflexivity].
  destruct (forallb printable_field rest); reflexivity.
Qed.

Lemma printable_ints zs :
  Forall (fun z => Py.within_digit_limit z = true) zs ->
  forallb printable (Py.Int <$> zs) = true.
Proof.
  induction 1 as [| z zs Hz _ IH]; [reflexivity |].
  cbn [fmap list_fmap forallb printable]. rewrite Hz. exact IH.
Qed.
End ConversionFacts.

(** Rewriting of the conversions: with the numbers known to be within
    the limit, and by cases on whether they are. *)
Ltac conversions :=
  cbv beta iota;
  repeat match goal with
         | H : forallb printable (?x :: ?l) = true |- _ =>
             change (printable x && forallb printable l = true) in H;
             apply andb_prop in H as [? H]
         | H : forallb printable [] = true |- _ => clear H
         end;
  rewrite ?fstring_spec, ?join_numbers_spec, ?str_number_spec;
  cbn [forallb printable_field];
  repeat match goal with
         | H : printable _ = _ |- _ => rewrite H
         | H : forallb printable _ = _ |- _ => rewrite H
         end;
  cbn [andb mbind Py.result_bind Py.bind mret Py.result_ret].

Ltac conversion_cases :=
  cbv beta iota;
  rewrite ?fstring_spec, ?join_numbers_spec, ?str_number_spec;
  cbn [forallb printable_field];
  repeat match goal with
         | |- context [printable ?n] => destruct (printable n) eqn:?
         | |- context [forallb printable ?l] => destruct (forallb printable l) eqn:?
         end;
  cbn [andb mbind Py.result_bind Py.bind mret Py.result_ret].

Section MathFacts.
Context `{PyEnv}.

(** Integer operands stay integers. *)
Lemma accumulate_ints (op : Py.number -> Py.number -> Py.result Py.number)
  (zop : Z -> Z -> Z) :
  (forall x y, op (Py.Int x) (Py.Int y) = Py.Ok (Py.Int (zop x y))) ->
  forall zs acc,
    accumulate op (Py.Int acc) (Py.Int <$> zs) = Py.Ok (Py.Int (foldl zop acc zs)).
Proof.
  intros Hop. unfold accumulate.
  induction zs as [| z zs IH]; intros acc; simpl; [reflexivity |].
  change (mret (Py.Int acc) ≫= _) with (op (Py.Int acc) (Py.Int z)).
  rewrite Hop. apply IH.
Qed.

Lemma sum_ints zs : sum (Py.Int <$> zs) = Py.Ok (Py.Int (Zsum zs)).
Proof.
  unfold sum.
  change (foldl _ _ _) with (accumulate Py.add (Py.Int 0) (Py.Int <$> zs)).
  rewrite (accumulate_ints Py.add Z.add) by reflexivity.
  rewrite foldl_add_Zsum. reflexivity.
Qed.

Lemma display_int z : display (Py.Int z) = Py.str_int z.
Proof.
  unfold display. simpl. unfold Py.eqb. simpl. rewrite Z.compare_refl. reflexivity.
Qed.

Lemma display_int_within z :
  Py.within_digit_limit z = true -> display (Py.Int z) = Py.Ok (Py.decimal z).
Proof. intros Hz. rewrite display_int. unfold Py.str_int. rewrite Hz. reflexivity. Qed.

Lemma operand_row_ints name sign zs :
  Forall (fun z => Py.within_digit_limit z = true) zs ->
  forall i x, exists items x',
    operand_row name sign i x (Py.Int <$> zs) = Py.Ok (items, x').
Proof.
  induction 1 as [| z zs Hz Hzs IH]; intros i x; simpl; [eauto |].
  rewrite (display_int_within z Hz). simpl.
  destruct zs as [| z' zs]; simpl; [eauto |].
  destruct (IH (i + 1) (x + 60 + 40)) as (items & x' & E).
  simpl in E. rewrite E. simpl. eauto.
Qed.

Lemma tail_row_ints name sign zs :
  Forall (fun z => Py.within_digit_limit z = true) zs ->
  forall i x, exists items x',
    tail_row name sign i x (Py.Int <$> zs) = Py.Ok (items, x').
Proof.
  induction 1 as [| z zs Hz Hzs IH]; intros i x; simpl; [eauto |].
  rewrite (display_int_within z Hz). simpl.
  destruct (IH (i + 1) (x + 40 + 60)) as (items & x' & E).
  change (list_fmap Z Py.number Py.Int zs) with (Py.Int <$> zs).
  rewrite E. simpl. eauto.
Qed.

Lemma _create_addition_scene_ints zs r approach :
  Forall (fun z => Py.within_digit_limit z = true) zs ->
  Py.within_digit_limit r = true ->
  exists scene, _create_addition_scene (Py.Int <$> zs) (Py.Int r) approach = Py.Ok scene.
Proof.
  intros Hzs Hr. unfold _create_addition_scene.
  destruct (operand_row_ints "plus" "+" zs Hzs 0 100) as (items & x' & ->). simpl.
  rewrite (display_int_within r Hr). simpl.
  destruct zs as [| z0 [| z1 [| z2 zs]]]; simpl; eauto.
  destruct (Approach.use_objects approach && _); simpl; eauto.
Qed.

Lemma _create_multiplication_scene_ints zs r approach :
  Forall (fun z => Py.within_digit_limit z = true) zs ->
  Py.within_digit_limit r = true ->
  exists scene,
    _create_multiplication_scene (Py.Int <$> zs) (Py.Int r) approach = Py.Ok scene.
Proof.
  intros Hzs Hr. unfold _create_multiplication_scene.
  destruct (operand_row_ints "times" "×" zs Hzs 0 100) as (items & x' & ->). simpl.
  rewrite (display_int_within r Hr). simpl. eauto.
Qed.

Lemma _create_subtraction_scene_ints z zs r approach :
  Forall (fun z => Py.within_digit_limit z = true) (z :: zs) ->
  Py.within_digit_limit r = true ->
  exists scene,
    _create_subtraction_scene (Py.Int <$> z :: zs) (Py.Int r) approach = Py.Ok scene.
Proof.
  intros Hzs Hr. apply Forall_cons in Hzs as [Hz Hzs].
  unfold _create_subtraction_scene. simpl. rewrite (display_int_within z Hz). simpl.
  change (list_fmap Z Py.number Py.Int zs) with (Py.Int <$> zs).
  destruct (tail_row_ints "minus" "-" zs Hzs 1 160) as (items & x' & ->). simpl.
  rewrite (display_int_within r Hr). simpl. eauto.
Qed.

(** Every number that [_extract_numbers] reads in a text can be
    printed: an integer that [int()] accepts is within the limit. *)
Lemma _extract_numbers_printable text :
  forallb printable (_extract_numbers text) = true.
Proof.
  apply forallb_forall. intros n Hin. apply list_elem_of_In in Hin.
  unfold _extract_numbers in Hin. apply list_elem_of_omap in Hin as (m & _ & Hm).
  unfold number_of_match in Hm. destruct (Py.contains "." m).
  - destruct (Py.parse_float m); [| discriminate]. injection Hm as <-. reflexivity.
  - destruct (Py.parse_int m) as [z |] eqn:Ez; [| discriminate]. injection Hm as <-.
    exact (parse_int_within_limit m z Ez).
Qed.

(** The explanations return when every number they print is within the
    limit. *)
Lemma _create_addition_explanation_returns numbers result approach grade_level :
  forallb printable numbers = true -> printable result = true ->
  exists explanation,
    _create_addition_explanation numbers result approach grade_level
      = Py.Ok explanation.
Proof.
  intros Hn Hr. unfold _create_addition_explanation.
  destruct (Approach.simple_language approach).
  - destruct numbers as [| n0 [| n1 [| n2 rest]]]; conversions;
      try destruct (Approach.use_objects approach && _); conversions;
      eexists; reflexivity.
  - conversions. eexists. reflexivity.
Qed.

Lemma _create_subtraction_explanation_returns n0 rest result approach grade_level :
  printable n0 = true -> forallb printable rest = true -> printable result = true ->
  exists explanation,
    _create_subtraction_explanation (n0 :: rest) result approach grade_level
      = Py.Ok explanation.
Proof.
  intros H0 Hn Hr. unfold _create_subtraction_explanation.
  destruct (Approach.simple_language approach).
  - destruct rest as [| n1 [| n2 rest]]; conversions;
      try destruct (Approach.use_objects approach && _); conversions;
      eexists; reflexivity.
  - conversions. eexists. reflexivity.
Qed.

Lemma _create_multiplication_explanation_returns numbers result approach grade_level :
  forallb printable numbers = true -> printable result = true ->
  exists explanation,
    _create_multiplication_explanation numbers result approach grade_level
      = Py.Ok explanation.
Proof.
  intros Hn Hr. unfold _create_multiplication_explanation.
  destruct (Approach.simple_language approach).
  - destruct numbers as [| n0 [| n1 [| n2 rest]]]; conversions;
      try destruct (Approach.use_objects approach && _); conversions;
      eexists; reflexivity.
  - conversions. eexists. reflexivity.
Qed.

(** An explanation that returns has printed every number and the
    result; one that does not has met the digit limit. *)
Lemma _create_addition_explanation_cases numbers result approach grade_level :
  (exists explanation,
     _create_addition_explanation numbers result approach grade_level
       = Py.Ok explanation /\
     forallb printable numbers = true /\ printable result = true) \/
  _create_addition_explanation numbers result approach grade_level
    = Py.Raise Py.ValueError.
Proof.
  unfold _create_addition_explanation.
  destruct (Approach.simple_language approach);
    [destruct numbers as [| n0 [| n1 [| n2 rest]]] |];
    try destruct (Approach.use_objects approach && _);
    conversion_cases;
    first [right; reflexivity | left; eexists; repeat split].
Qed.

Lemma _create_subtraction_explanation_cases n0 rest result approach grade_level :
  (exists explanation,
     _create_subtraction_explanation (n0 :: rest) result approach grade_level
       = Py.Ok explanation /\
     forallb printable (n0 :: rest) = true /\ printable result = true) \/
  _create_subtraction_explanation (n0 :: rest) result approach grade_level
    = Py.Raise Py.ValueError.
Proof.
  unfold _create_subtraction_explanation.
  destruct (Approach.simple_language approach);
    [destruct rest as [| n1 [| n2 rest]] |];
    try destruct (Approach.use_objects approach && _);
    conversion_cases;
    first [right; reflexivity | left; eexists; repeat split].
Qed.

Lemma _create_multiplication_explanation_cases numbers result approach grade_level :
  (exists explanation,
     _create_multiplication_explanation numbers result approach grade_level
       = Py.Ok explanation /\
     forallb printable numbers = true /\ printable result = true) \/
  _create_multiplication_explanation numbers result approach grade_level
    = Py.Raise Py.ValueError.
Proof.
  unfold _create_multiplication_explanation.
  destruct (Approach.simple_language approach);
    [destruct numbers as [| n0 [| n1 [| n2 rest]]] |];
    try destruct (Approach.use_objects approach && _);
    conversion_cases;
    first [right; reflexivity | left; eexists; repeat split].
Qed.

Lemma _create_division_explanation_cases numbers result approach grade_level :
  (exists explanation,
     _create_division_explanation numbers result approach grade_level
       = Py.Ok explanation /\
     forallb printable numbers = true /\ printable result = true) \/
  _create_division_explanation numbers result approach grade_level
    = Py.Raise Py.ValueError.
Proof.
  unfold _create_division_explanation.
  destruct (Approach.simple_language approach);
    [destruct numbers as [| n0 [| n1 [| n2 rest]]] |];
    try destruct (Approach.use_objects approach && _ && _);
    conversion_cases;
    first [right; reflexivity | left; eexists; repeat split].
Qed.

(** The tracker calls of a handler return. *)
Lemma mark_topic_encountered_returns topic (w : World) :
  exists w', mark_topic_encountered topic w = (Py.Ok tt, w').
Proof.
  unfold mark_topic_encountered. run_tracker.
  destruct (student_profile (self w)) as [p |] eqn:Ep; run_tracker.
  - rewrite Ep. run_tracker.
    destruct (topics p !! topic); run_tracker; rewrite ?Ep; run_tracker;
      match goal with |- context [_save_student_profile ?w1] =>
        destruct (_save_student_profile_self w1) as [Hr _];
        destruct (_save_student_profile w1) as [r w2] end;
      simpl in Hr; subst r; eauto.
  - unfold default_profile. run_tracker. rewrite lookup_empty. run_tracker.
    match goal with |- context [_save_student_profile ?w1] =>
      destruct (_save_student_profile_self w1) as [Hr _];
      destruct (_save_student_profile w1) as [r w2] end.
    simpl in Hr. subst r. eauto.
Qed.

Lemma log_interaction_returns kind text response (w : World) :
  exists w', log_interaction kind text response w = (Py.Ok tt, w').
Proof.
  unfold log_interaction, start_new_session. run_tracker.
  destruct (current_session (self w)) as [s |] eqn:Es; run_tracker;
    rewrite ?Es; eauto.
Qed.

(** With a tracker the progress is logged unless the f-string raises,
    which it does after the topic was marked. *)
Lemma log_progress_raises learning_tracker kind text solved (w : World) e :
  fst (log_progress learning_tracker kind text solved w) = Py.Raise e ->
  solved = Py.Raise e.
Proof.
  unfold log_progress. destruct learning_tracker; [| discriminate].
  run_tracker. destruct (mark_topic_encountered_returns "math" w) as (w1 & ->).
  destruct solved as [text' | e']; cbn.
  - destruct (log_interaction_returns kind text text' w1) as (w' & ->). discriminate.
  - intros [= ->]. reflexivity.
Qed.

Lemma log_progress_returns learning_tracker kind text solved (w : World) :
  exists w', log_progress learning_tracker kind text (Py.Ok solved) w = (Py.Ok tt, w').
Proof.
  unfold log_progress. destruct learning_tracker; [| run_tracker; eauto].
  run_tracker.
  destruct (mark_topic_encountered_returns "math" w) as (w1 & ->).
  apply log_interaction_returns.
Qed.

(** C9. With fewer than two numbers each of the four handlers returns
    a failure (success false, empty scene, empty final answer) and
    leaves the tracker, its files and the clock as they were. *)
Theorem handlers_need_two_numbers (learning_tracker : bool)
  (numbers : list Py.number) (grade_level text : string) (w : World) :
  (length numbers < 2)%nat ->
  let failed (outcome : Py.result CommandResult.t * World) :=
    exists r, outcome = (Py.Ok r, w) /\
      CommandResult.success r = false /\
      CommandResult.scene r = [] /\
      CommandResult.final_answer r = [] in
  failed (_handle_addition learning_tracker numbers grade_level text w) /\
  failed (_handle_subtraction learning_tracker numbers grade_level text w) /\
  failed (_handle_multiplication learning_tracker numbers grade_level text w) /\
  failed (_handle_division learning_tracker numbers grade_level text w).
Proof.
  intros Hlen failed. subst failed.
  unfold _handle_addition, _handle_subtraction, _handle_multiplication,
    _handle_division.
  assert (E : (length numbers <? 2)%nat = true) by (apply Nat.ltb_lt; exact Hlen).
  rewrite E. repeat split; eexists; (split; [reflexivity |]); auto.
Qed.

Lemma length_ltb_false {A} (l : list A) : (2 <= length l)%nat -> (length l <? 2)%nat = false.
Proof. intros Hl. apply Nat.ltb_ge. exact Hl. Qed.

(** A sum beyond the digit limit cannot be printed: the explanation
    raises [ValueError] before the tracker is touched. *)
Lemma _handle_addition_refuses learning_tracker numbers result grade_level text
  (w : World) :
  (2 <= length numbers)%nat ->
  sum numbers = Py.Ok result ->
  printable result = false ->
  _handle_addition learning_tracker numbers grade_level text w
    = (Py.Raise Py.ValueError, w).
Proof.
  intros Hlen Hsum Hr. unfold _handle_addition.
  rewrite (length_ltb_false numbers Hlen), Hsum. run_tracker.
  destruct (_create_addition_explanation_cases numbers result
              (grade_approach grade_level) grade_level)
    as [(explanation & _ & _ & Hr') | ->]; [congruence | reflexivity].
Qed.

(** C7, amended. On a list of at least two integers, each within the
    digit limit of the conversion between [int] and [str], the addition,
    subtraction and multiplication handlers compute the exact integer
    result: the sum of the numbers, the first number minus each of the
    following ones, the product of the numbers; and when that result is
    within the limit too they return a success whose
    [final_answer["correct_value"]] is its decimal numeral. *)
Theorem integer_arithmetic_exact (learning_tracker : bool) (zs : list Z)
  (grade_level text : string) (w : World) :
  (2 <= length zs)%nat ->
  Forall (fun z => Py.within_digit_limit z = true) zs ->
  let numbers := Py.Int <$> zs in
  let answers (value : Z) (outcome : Py.result CommandResult.t * World) :=
    Py.within_digit_limit value = true ->
    exists r w', outcome = (Py.Ok r, w') /\
      CommandResult.success r = true /\
      dict_get "correct_value" (CommandResult.final_answer r)
        = Some (JStr (Py.decimal value)) in
  sum numbers = Py.Ok (Py.Int (Zsum zs)) /\
  accumulate Py.sub (hd (Py.Int 0) numbers) (tail numbers)
    = Py.Ok (Py.Int (foldl Z.sub (hd 0 zs) (tail zs))) /\
  accumulate Py.mul (Py.Int 1) numbers = Py.Ok (Py.Int (Zproduct zs)) /\
  answers (Zsum zs)
    (_handle_addition learning_tracker numbers grade_level text w) /\
  answers (foldl Z.sub (hd 0 zs) (tail zs))
    (_handle_subtraction learning_tracker numbers grade_level text w) /\
  answers (Zproduct zs)
    (_handle_multiplication learning_tracker numbers grade_level text w).
Proof.
  intros Hlen Hzs numbers answers. subst answers numbers.
  assert (Hl : (length (Py.Int <$> zs) <? 2)%nat = false)
    by (apply length_ltb_false; rewrite length_fmap; exact Hlen).
  pose proof (printable_ints zs Hzs) as Hn.
  assert (Hmul : accumulate Py.mul (Py.Int 1) (Py.Int <$> zs)
                 = Py.Ok (Py.Int (Zproduct zs))).
  { rewrite (accumulate_ints Py.mul Z.mul) by reflexivity.
    rewrite foldl_mul_Zproduct, Z.mul_1_l. reflexivity. }
  assert (Hsub : accumulate Py.sub (hd (Py.Int 0) (Py.Int <$> zs))
                   (tail (Py.Int <$> zs))
                 = Py.Ok (Py.Int (foldl Z.sub (hd 0 zs) (tail zs)))).
  { destruct zs as [| z0 rest]; [reflexivity |]. cbn [fmap list_fmap hd tail].
    change (list_fmap Z Py.number Py.Int rest) with (Py.Int <$> rest).
    apply (accumulate_ints Py.sub Z.sub). reflexivity. }
  split; [apply sum_ints |]. split; [exact Hsub |]. split; [exact Hmul |].
  split; [| split].
  - intros Hv. unfold _handle_addition. rewrite Hl, sum_ints. run_tracker.
    assert (Hr : printable (Py.Int (Zsum zs)) = true) by exact Hv.
    destruct (_create_addition_explanation_returns (Py.Int <$> zs) (Py.Int (Zsum zs))
                (grade_approach grade_level) grade_level Hn Hr) as (explanation & ->).
    destruct (_create_addition_scene_ints zs (Zsum zs) (grade_approach grade_level)
                Hzs Hv) as (scene & ->).
    rewrite (display_int_within _ Hv). run_tracker. conversions. run_tracker.
    match goal with |- context [log_progress ?a ?b ?c (Py.Ok ?d) ?w0] =>
      destruct (log_progress_returns a b c d w0) as (w' & ->) end.
    eexists. exists w'. split; [reflexivity |]. split; reflexivity.
  - intros Hv. unfold _handle_subtraction. rewrite Hl.
    destruct zs as [| z0 rest]; [simpl in Hlen; lia |].
    cbn [fmap list_fmap hd tail] in *.
    change (list_fmap Z Py.number Py.Int rest) with (Py.Int <$> rest) in *.
    rewrite Hsub. run_tracker.
    assert (Hr : printable (Py.Int (foldl Z.sub z0 rest)) = true) by exact Hv.
    change (forallb printable (Py.Int z0 :: (Py.Int <$> rest)) = true) in Hn.
    change (printable (Py.Int z0) && forallb printable (Py.Int <$> rest) = true) in Hn.
    apply andb_prop in Hn as [H0 Hn].
    destruct (_create_subtraction_explanation_returns (Py.Int z0) (Py.Int <$> rest)
                (Py.Int (foldl Z.sub z0 rest)) (grade_approach grade_level) grade_level
                H0 Hn Hr) as (explanation & ->).
    destruct (_create_subtraction_scene_ints z0 rest (foldl Z.sub z0 rest)
                (grade_approach grade_level) Hzs Hv) as (scene & Hscene).
    cbn [fmap list_fmap] in Hscene.
    change (list_fmap Z Py.number Py.Int rest) with (Py.Int <$> rest) in Hscene.
    rewrite Hscene, (display_int_within _ Hv). run_tracker. conversions. run_tracker.
    match goal with |- context [log_progress ?a ?b ?c (Py.Ok ?d) ?w0] =>
      destruct (log_progress_returns a b c d w0) as (w' & ->) end.
    eexists. exists w'. split; [reflexivity |]. split; reflexivity.
  - intros Hv. unfold _handle_multiplication. rewrite Hl, Hmul. run_tracker.
    assert (Hr : printable (Py.Int (Zproduct zs)) = true) by exact Hv.
    destruct (_create_multiplication_explanation_returns (Py.Int <$> zs)
                (Py.Int (Zproduct zs)) (grade_approach grade_level) grade_level Hn Hr)
      as (explanation & ->).
    destruct (_create_multiplication_scene_ints zs (Zproduct zs)
                (grade_approach grade_level) Hzs Hv) as (scene & ->).
    rewrite (display_int_within _ Hv). run_tracker. conversions. run_tracker.
    match goal with |- context [log_progress ?a ?b ?c (Py.Ok ?d) ?w0] =>
      destruct (log_progress_returns a b c d w0) as (w' & ->) end.
    eexists. exists w'. split; [reflexivity |]. split; reflexivity.
Qed.
End MathFacts.

(** ** Division *)

(** A number that is not [== 0] is not a zero as a float either. *)
Lemma nonzero_to_float b y :
  Py.eqb b (Py.Int 0) = false -> Py.to_float b = Py.Ok y -> Py.is_zero y = false.
Proof.
  destruct b as [z | g]; simpl.
  - unfold Py.eqb, Py.int_to_float. simpl. intros Hz.
    destruct (Py.is_finite (Py.float_of_Z z)); [| discriminate].
    intros [= <-]. apply float_of_Z_nonzero. intros ->. discriminate.
  - unfold Py.eqb. simpl. intros Hg [= <-].
    destruct g as [s | s | | s m e]; try reflexivity. discriminate.
Qed.

Lemma to_float_raises n e : Py.to_float n = Py.Raise e -> e = Py.OverflowError.
Proof.
  destruct n as [z | f]; simpl; [| discriminate].
  unfold Py.int_to_float. destruct (Py.is_finite _); [discriminate | congruence].
Qed.

(** Dividing by a number that is not [== 0] does not raise
    [ZeroDivisionError]. *)
Lemma truediv_by_nonzero a b :
  Py.eqb b (Py.Int 0) = false -> Py.truediv a b <> Py.Raise Py.ZeroDivisionError.
Proof.
  intros Hb.
  assert (Hfloat : Py.bind (Py.to_float a) (fun x =>
            Py.bind (Py.to_float b) (fun y =>
            Py.bind (Py.float_truediv x y) (fun q => Py.Ok (Py.Float q))))
          <> Py.Raise Py.ZeroDivisionError).
  { destruct (Py.to_float a) as [x | e] eqn:Ea; simpl.
    - destruct (Py.to_float b) as [y | e] eqn:Eb; simpl.
      + unfold Py.float_truediv. rewrite (nonzero_to_float b y Hb Eb). discriminate.
      + apply to_float_raises in Eb. subst. discriminate.
    - apply to_float_raises in Ea. subst. discriminate. }
  destruct a as [x | f], b as [y | g]; try exact Hfloat.
  simpl. unfold Py.int_truediv.
  destruct (Z.eqb_spec y 0) as [-> | Hy]; [discriminate |].
  destruct (Py.is_finite _); simpl; discriminate.
Qed.

Lemma int_never_divides n : Py.int n <> Py.Raise Py.ZeroDivisionError.
Proof. destruct n as [z | [s | s | | s m e]]; simpl; discriminate. Qed.

Section DivisionFacts.
Context `{PyEnv}.

Lemma accumulate_truediv_nonzero rest :
  Forall (fun n => Py.eqb n (Py.Int 0) = false) rest ->
  forall n0, accumulate Py.truediv n0 rest <> Py.Raise Py.ZeroDivisionError.
Proof.
  unfold accumulate. intros Hrest n0.
  assert (Hgen : forall r : Py.result Py.number,
            r <> Py.Raise Py.ZeroDivisionError ->
            foldl (fun acc n => acc ← acc; Py.truediv acc n) r rest
            <> Py.Raise Py.ZeroDivisionError); [| apply Hgen; discriminate].
  induction Hrest as [| n rest Hn Hrest IH]; intros r Hr; simpl; [exact Hr |].
  apply IH. destruct r as [acc | e]; simpl; [| exact Hr].
  apply truediv_by_nonzero. exact Hn.
Qed.

Lemma str_number_never_divides n : str_number n <> Py.Raise Py.ZeroDivisionError.
Proof. rewrite str_number_spec. destruct (printable n); discriminate. Qed.

Lemma fstring_never_divides fields : fstring fields <> Py.Raise Py.ZeroDivisionError.
Proof. rewrite fstring_spec. destruct (forallb printable_field fields); discriminate. Qed.

Lemma display_never_divides n : display n <> Py.Raise Py.ZeroDivisionError.
Proof.
  unfold display. pose proof (int_never_divides n) as Hn.
  destruct (Py.int n) as [i | e]; simpl; [| congruence].
  destruct (Py.eqb n (Py.Int i)); [| apply str_number_never_divides].
  unfold Py.str_int. destruct (Py.within_digit_limit i); discriminate.
Qed.

Lemma tidy_never_divides n : tidy n <> Py.Raise Py.ZeroDivisionError.
Proof.
  unfold tidy. pose proof (int_never_divides n) as Hn.
  destruct (Py.int n) as [i | e] eqn:E; simpl; [| congruence].
  destruct (Py.eqb n (Py.Int i)); simpl; [discriminate |].
  destruct n; discriminate.
Qed.

Lemma tail_row_never_divides name sign rest :
  forall i x, tail_row name sign i x rest <> Py.Raise Py.ZeroDivisionError.
Proof.
  induction rest as [| n rest IH]; intros i x; simpl; [discriminate |].
  pose proof (display_never_divides n) as Hn.
  destruct (display n) as [t | e]; simpl; [| congruence].
  specialize (IH (i + 1) (x + 40 + 60)).
  destruct (tail_row name sign (i + 1) (x + 40 + 60) rest) as [[items x'] | e];
    simpl; [discriminate | congruence].
Qed.

Lemma _create_division_scene_never_divides numbers result approach :
  _create_division_scene numbers result approach <> Py.Raise Py.ZeroDivisionError.
Proof.
  unfold _create_division_scene. destruct numbers as [| n0 rest]; [discriminate |].
  pose proof (display_never_divides n0) as Hn.
  destruct (display n0) as [t | e]; simpl; [| congruence].
  pose proof (tail_row_never_divides "divide" "÷" rest 1 160) as Hr.
  destruct (tail_row "divide" "÷" 1 160 rest) as [[items x'] | e];
    simpl; [| congruence].
  pose proof (str_number_never_divides result) as Hs.
  destruct (str_number result) as [r | e]; simpl; [discriminate | congruence].
Qed.

(** C8. When the text gave at least two numbers and one of the
    divisors is [== 0], [_handle_division] returns the divide-by-zero
    failure (success false, empty scene, empty final answer) without
    raising and without touching the tracker.  Otherwise every divisor
    is different from zero when the division loop runs, and neither the
    loop nor the rest of the handler raises [ZeroDivisionError]. *)
Theorem division_by_zero_guarded (learning_tracker : bool)
  (numbers : list Py.number) (grade_level text : string) (w : World) :
  (2 <= length numbers)%nat ->
  (Exists (fun n => Py.eqb n (Py.Int 0) = true) (tail numbers) ->
     exists r,
       _handle_division learning_tracker numbers grade_level text w = (Py.Ok r, w) /\
       CommandResult.success r = false /\
       CommandResult.response r =
         "I can't divide by zero. That's undefined in mathematics." /\
       CommandResult.scene r = [] /\
       CommandResult.final_answer r = []) /\
  (~ Exists (fun n => Py.eqb n (Py.Int 0) = true) (tail numbers) ->
     Forall (fun n => Py.eqb n (Py.Int 0) = false) (tail numbers) /\
     accumulate Py.truediv (hd (Py.Int 0) numbers) (tail numbers)
       <> Py.Raise Py.ZeroDivisionError) /\
  fst (_handle_division learning_tracker numbers grade_level text w)
    <> Py.Raise Py.ZeroDivisionError.
Proof.
  intros Hlen. unfold _handle_division.
  rewrite (length_ltb_false numbers Hlen).
  destruct (existsb (fun n => Py.eqb n (Py.Int 0)) (tail numbers)) eqn:Ez.
  - split; [| split].
    + intros _. eexists. split; [reflexivity |]. auto.
    + intros Hno. exfalso. apply Hno.
      apply existsb_exists in Ez. destruct Ez as (n & Hin & Hn).
      apply Exists_exists. exists n. split; [apply list_elem_of_In; exact Hin | exact Hn].
    + simpl. discriminate.
  - assert (Hall : Forall (fun n => Py.eqb n (Py.Int 0) = false) (tail numbers)).
    { apply Forall_forall. intros n Hin.
      destruct (Py.eqb n (Py.Int 0)) eqn:En; [| reflexivity].
      assert (existsb (fun n => Py.eqb n (Py.Int 0)) (tail numbers) = true)
        by (apply existsb_exists; exists n; split;
            [apply list_elem_of_In; exact Hin | exact En]).
      congruence. }
    split; [| split].
    + intros Hex. exfalso. apply Exists_exists in Hex.
      destruct Hex as (n & Hin & Hn).
      rewrite Forall_forall in Hall. rewrite (Hall n Hin) in Hn. discriminate.
    + intros _. split; [exact Hall |]. apply accumulate_truediv_nonzero. exact Hall.
    + destruct numbers as [| n0 rest]; [simpl in Hlen; lia |].
      simpl tail in Hall. run_tracker.
      pose proof (accumulate_truediv_nonzero rest Hall n0) as Hacc.
      destruct (accumulate Py.truediv n0 rest) as [q | e]; run_tracker; [| congruence].
      pose proof (tidy_never_divides q) as Ht.
      destruct (tidy q) as [result | e]; run_tracker; [| congruence].
      destruct (_create_division_explanation_cases (n0 :: rest) result
                  (grade_approach grade_level) grade_level)
        as [(explanation & -> & Hn & Hr) | ->]; run_tracker; [| discriminate].
      pose proof (_create_division_scene_never_divides (n0 :: rest) result
                    (grade_approach grade_level)) as Hs.
      destruct (_create_division_scene (n0 :: rest) result
                  (grade_approach grade_level)) as [scene | e];
        run_tracker; [| congruence].
      conversions. run_tracker.
      match goal with |- context [log_progress ?a ?b ?c (Py.Ok ?d) ?w0] =>
        destruct (log_progress_returns a b c d w0) as (w' & ->) end.
      simpl. discriminate.
Qed.
End DivisionFacts.

(* ===================================================================== *)
(** * Learning tracker: levels and lists in exact arithmetic *)
(* ===================================================================== *)

Lemma thresholds_agree_small c t :
  0 <= c <= t -> 1 <= t <= 200 -> Py.thresholds_agree c t = true.
Proof.
  intros Hc Ht.
  pose proof thresholds_exact_up_to_200 as Hall.
  rewrite forallb_forall in Hall.
  assert (Hin : In t (seqZ 1 200)).
  { apply list_elem_of_In, elem_of_seqZ. lia. }
  specialize (Hall t Hin). rewrite forallb_forall in Hall.
  apply Hall. apply list_elem_of_In, elem_of_seqZ. lia.
Qed.

Lemma thresholds_exact c t :
  0 <= c <= t -> 1 <= t <= 200 ->
  exists q, Py.int_truediv c t = Py.Ok q /\
    (Py.fge q Py.f0_8 = true <-> 4 * t <= 5 * c) /\
    (Py.fge q Py.f0_6 = true <-> 3 * t <= 5 * c) /\
    (Py.fge q Py.f0_75 = true <-> 3 * t <= 4 * c) /\
    (Py.flt q Py.f0_5 = true <-> 2 * c < t).
Proof.
  intros Hc Ht. pose proof (thresholds_agree_small c t Hc Ht) as Ha.
  unfold Py.thresholds_agree in Ha.
  destruct (Py.int_truediv c t) as [q | e]; [| discriminate].
  exists q. split; [reflexivity |].
  apply andb_prop in Ha as [Ha H4]. apply andb_prop in Ha as [Ha H3].
  apply andb_prop in Ha as [H1 H2].
  apply Bool.eqb_prop in H1, H2, H3, H4.
  rewrite H1, H2, H3, H4, !Z.leb_le, Z.ltb_lt. tauto.
Qed.

Section ExactLevels.
Context `{PyEnv}.

(** X1. The levels of [get_topic_knowledge] in exact arithmetic.  For a
    topic with counters that are not negative and between 1 and 200
    answers in all, the call returns, needs no assessment, and the
    level it gives is the one that the rule gives when the accuracy is
    the exact fraction: advanced when at least 4/5 of at least 5
    answers are correct, else intermediate when at least 3/5 of at
    least 3 answers are, else beginner.  The rounding of the binary64
    quotient never moves an accuracy across 0.8 or 0.6. *)
Theorem knowledge_level_in_exact_arithmetic (t : LearningTracker)
  (p : StudentProfile) (topic : string) (tp : TopicProgress) :
  student_profile t = Some p ->
  topics p !! topic = Some tp ->
  0 <= correct_answers tp -> 0 <= incorrect_answers tp ->
  0 < correct_answers tp + incorrect_answers tp <= 200 ->
  let c := correct_answers tp in
  let total := correct_answers tp + incorrect_answers tp in
  let adv := 4 * total <= 5 * c /\ 5 <= total in
  let mid := 3 * total <= 5 * c /\ 3 <= total in
  exists d level,
    get_topic_knowledge t topic = Py.Ok (Some d) /\
    dict_get "level" d = Some (JStr level) /\
    dict_get "needs_assessment" d = Some (JBool false) /\
    (level = "advanced" <-> adv) /\
    (level = "intermediate" <-> ~ adv /\ mid) /\
    (level = "beginner" <-> ~ adv /\ ~ mid).
Proof.
  intros Hp Htp Hc Hi Htot c total adv mid. subst c total adv mid.
  unfold get_topic_knowledge. rewrite Hp, Htp.
  destruct (Z.eqb_spec (correct_answers tp + incorrect_answers tp) 0) as [E | _]; [lia |].
  destruct (thresholds_exact (correct_answers tp)
              (correct_answers tp + incorrect_answers tp))
    as (q & -> & H8 & H6 & _ & _); [lia | lia |].
  simpl. eexists. exists (level_of q (correct_answers tp + incorrect_answers tp)).
  split; [reflexivity |]. split; [reflexivity |]. split; [reflexivity |].
  pose proof (level_of_cases q (correct_answers tp + incorrect_answers tp)) as Hl.
  simpl in Hl. rewrite H8, H6 in Hl. exact Hl.
Qed.
End ExactLevels.

(* ===================================================================== *)
(** * Learning tracker: counting answers *)
(* ===================================================================== *)

Section CountingFacts.
Context `{PyEnv}.

(** What [log_answer_result] leaves of the session. *)
Lemma log_answer_result_session (w : World) s topic is_correct :
  current_session (self w) = Some s ->
  current_session (self (snd (log_answer_result topic is_correct w))) =
  Some (set_metrics
          {| questions_asked := questions_asked (performance_metrics s);
             session_correct_answers :=
               if is_correct then session_correct_answers (performance_metrics s) + 1
               else session_correct_answers (performance_metrics s);
             session_incorrect_answers :=
               if is_correct then session_incorrect_answers (performance_metrics s)
               else session_incorrect_answers (performance_metrics s) + 1;
             hints_used := hints_used (performance_metrics s);
             topics_explored := topics_explored (performance_metrics s) |} s).
Proof.
  intros Hs. destruct w as [[cs sp] d t]. simpl in Hs. subst cs.
  unfold log_answer_result. run_tracker.
  destruct sp as [p |]; run_tracker.
  - destruct (topics p !! topic) as [tp |] eqn:E; run_tracker.
    + rewrite E. run_tracker.
      destruct (if is_correct then _ else _) as [p2 | e]; run_tracker;
        [| reflexivity].
      match goal with |- context [_save_temp_progress ?w] =>
        pose proof (_save_temp_progress_self w) as Ht;
        destruct (_save_temp_progress w) as [[[] | e] w1] end;
        simpl in Ht |- *; [| rewrite Ht; reflexivity].
      destruct (_save_student_profile_self w1) as [_ Hp].
      rewrite Hp, Ht. reflexivity.
    + rewrite lookup_insert_eq. run_tracker.
      destruct (if is_correct then _ else _) as [p2 | e]; run_tracker;
        [| reflexivity].
      match goal with |- context [_save_temp_progress ?w] =>
        pose proof (_save_temp_progress_self w) as Ht;
        destruct (_save_temp_progress w) as [[[] | e] w1] end;
        simpl in Ht |- *; [| rewrite Ht; reflexivity].
      destruct (_save_student_profile_self w1) as [_ Hp].
      rewrite Hp, Ht. reflexivity.
  - unfold default_profile. run_tracker.
    rewrite lookup_empty. run_tracker. rewrite lookup_insert_eq. run_tracker.
    destruct (if is_correct then _ else _) as [p2 | e]; run_tracker;
      [| reflexivity].
    match goal with |- context [_save_temp_progress ?w] =>
      pose proof (_save_temp_progress_self w) as Ht;
      destruct (_save_temp_progress w) as [[[] | e] w1] end;
      simpl in Ht |- *; [| rewrite Ht; reflexivity].
    destruct (_save_student_profile_self w1) as [_ Hp].
    rewrite Hp, Ht. reflexivity.
Qed.

(** What [log_answer_result] does to the counters of any topic, 0 and 0
    standing for a topic without a record. *)
Lemma log_answer_result_counters (w : World) s topic is_correct other :
  current_session (self w) = Some s ->
  let before := student_profile (self w) ≫= (fun p => topics p !! other) in
  let after := student_profile (self (snd (log_answer_result topic is_correct w)))
                 ≫= (fun p => topics p !! other) in
  from_option correct_answers 0 after =
    from_option correct_answers 0 before +
    (if bool_decide (other = topic) && is_correct then 1 else 0) /\
  from_option incorrect_answers 0 after =
    from_option incorrect_answers 0 before +
    (if bool_decide (other = topic) && negb is_correct then 1 else 0).
Proof.
  intros Hs before after. subst before after.
  rewrite (log_answer_result_profile w s topic is_correct Hs).
  destruct (profile_after_answer_topics topic is_correct (ticks w)
              (student_profile (self w))) as (tp0 & Htp0 & Ht).
  cbn [mbind option_bind]. rewrite Ht.
  destruct (decide (other = topic)) as [-> | Hne].
  - rewrite bool_decide_eq_true_2 by reflexivity. rewrite lookup_insert_eq. simpl.
    assert (Hc : from_option correct_answers 0
                   (student_profile (self w) ≫= (fun p => topics p !! topic))
                 = correct_answers tp0 /\
                 from_option incorrect_answers 0
                   (student_profile (self w) ≫= (fun p => topics p !! topic))
                 = incorrect_answers tp0).
    { destruct (student_profile (self w)) as [p |]; simpl in *.
      - destruct Htp0 as [-> | (-> & -> & ->)]; auto.
      - rewrite lookup_empty in Htp0.
        destruct Htp0 as [? | (_ & -> & ->)]; [discriminate | auto]. }
    destruct Hc as [-> ->]. destruct is_correct; simpl; lia.
  - rewrite bool_decide_eq_false_2 by exact Hne. rewrite lookup_insert_ne by congruence.
    simpl. destruct (student_profile (self w)); simpl; [lia |].
    rewrite lookup_empty. simpl. lia.
Qed.

End CountingFacts.

Lemma remove_first_absent x l : x ∉ l -> Py.remove_first x l = l.
Proof.
  induction l as [| y l IH]; simpl; [reflexivity |].
  rewrite not_elem_of_cons. intros [Hne Hl].
  destruct (String.eqb_spec x y) as [-> | _]; [contradiction |].
  rewrite IH by exact Hl. reflexivity.
Qed.

Section ExactLists.
Context `{PyEnv}.

(** X2. The rule of the two lists, read in exact arithmetic: with at most
    200 answers on the topic, a correct answer puts the topic among the
    strengths exactly when it then has at least 3 correct answers, at
    least 3/4 of its answers are correct and it is not a strength yet,
    and takes it off the areas for improvement then; an incorrect
    answer puts it among the areas for improvement exactly when it then
    has at least 3 answers, less than half of them correct, and it is
    not listed yet, and takes it off the strengths then.  In every
    other case both lists stay as they are. *)
Theorem lists_rule_in_exact_arithmetic (w : World) (s : LearningSession)
  (p : StudentProfile) (topic : string) (is_correct : bool) :
  current_session (self w) = Some s ->
  student_profile (self w) = Some p ->
  let c := from_option correct_answers 0 (topics p !! topic)
           + (if is_correct then 1 else 0) in
  let i := from_option incorrect_answers 0 (topics p !! topic)
           + (if is_correct then 0 else 1) in
  0 <= c -> 0 <= i -> c + i <= 200 ->
  exists p',
    student_profile (self (snd (log_answer_result topic is_correct w))) = Some p' /\
    if is_correct then
      let joins := 3 <= c /\ 3 * (c + i) <= 4 * c /\ topic ∉ strengths p in
      (joins -> strengths p' = strengths p ++ [topic] /\
                areas_for_improvement p' = Py.remove_first topic (areas_for_improvement p)) /\
      (~ joins -> strengths p' = strengths p /\
                  areas_for_improvement p' = areas_for_improvement p)
    else
      let joins := 3 <= c + i /\ 2 * c < c + i /\ topic ∉ areas_for_improvement p in
      (joins -> areas_for_improvement p' = areas_for_improvement p ++ [topic] /\
                strengths p' = Py.remove_first topic (strengths p)) /\
      (~ joins -> areas_for_improvement p' = areas_for_improvement p /\
                  strengths p' = strengths p).
Proof.
  intros Hs Hp c i Hc Hi Hci.
  rewrite (log_answer_result_profile w s topic is_correct Hs), Hp.
  eexists. split; [reflexivity |].
  unfold profile_after_answer.
  set (tp0 := default _ (topics p !! topic)).
  assert (Hc0 : correct_answers tp0 = from_option correct_answers 0 (topics p !! topic) /\
                incorrect_answers tp0 = from_option incorrect_answers 0 (topics p !! topic)).
  { subst tp0. destruct (topics p !! topic); simpl; auto. }
  destruct Hc0 as [Hc0 Hi0].
  destruct is_correct; subst c i; cbn zeta.
  - unfold review_strengths, count_answer. cbn [correct_answers incorrect_answers set_counters].
    rewrite Hc0, Hi0.
    set (c := from_option correct_answers 0 (topics p !! topic) + 1) in *.
    set (i := from_option incorrect_answers 0 (topics p !! topic)) in *.
    assert (Hi' : 0 <= i) by lia.
    destruct (Z.leb_spec 3 c) as [H3 | H3]; cbn [strengths areas_for_improvement set_topics].
    + destruct (thresholds_exact c (c + i)) as (q & -> & _ & _ & H75 & _); [lia | lia |].
      cbn [mbind Py.result_bind Py.bind].
      cbn [strengths areas_for_improvement set_topics].
      destruct (Py.fge q Py.f0_75) eqn:Eq.
      * assert (H34 : 3 * (c + i) <= 4 * c) by (apply H75; reflexivity).
        destruct (Py.in_list topic (strengths p)) eqn:Ein; cbn [andb negb].
        -- apply in_list_spec in Ein. cbn [strengths areas_for_improvement set_topics].
           split; [intros (_ & _ & Hn); contradiction | auto].
        -- apply in_list_false in Ein.
           cbn [strengths areas_for_improvement set_strengths set_topics].
           destruct (Py.in_list topic (areas_for_improvement p)) eqn:Ea;
             cbn [mret Py.result_ret strengths areas_for_improvement
                  set_areas_for_improvement set_strengths set_topics].
           ++ split; [auto |]. intros Hn. exfalso. apply Hn. repeat split; auto; lia.
           ++ apply in_list_false in Ea. rewrite (remove_first_absent _ _ Ea).
              split; [auto |]. intros Hn. exfalso. apply Hn. repeat split; auto; lia.
      * assert (H34 : ~ 3 * (c + i) <= 4 * c) by (rewrite <- H75; congruence).
        cbn [andb]. cbn [strengths areas_for_improvement set_topics].
        split; [intros (_ & ? & _); lia | auto].
    + cbn [mret Py.result_ret strengths areas_for_improvement set_topics].
      split; [intros (? & _); lia | auto].
  - unfold review_struggles, count_answer. cbn [correct_answers incorrect_answers set_counters].
    rewrite Hc0, Hi0.
    set (c := from_option correct_answers 0 (topics p !! topic)) in *.
    set (i := from_option incorrect_answers 0 (topics p !! topic) + 1) in *.
    replace (c + 0) with c in * by lia.
    destruct (Z.leb_spec 3 (c + i)) as [H3 | H3]; cbn [strengths areas_for_improvement set_topics].
    + destruct (thresholds_exact c (c + i)) as (q & -> & _ & _ & _ & H5); [lia | lia |].
      cbn [mbind Py.result_bind Py.bind].
      cbn [strengths areas_for_improvement set_topics].
      destruct (Py.flt q Py.f0_5) eqn:Eq.
      * assert (H12 : 2 * c < c + i) by (apply H5; reflexivity).
        destruct (Py.in_list topic (areas_for_improvement p)) eqn:Ein; cbn [andb negb].
        -- apply in_list_spec in Ein. cbn [strengths areas_for_improvement set_topics].
           split; [intros (_ & _ & Hn); contradiction | auto].
        -- apply in_list_false in Ein.
           cbn [strengths areas_for_improvement set_areas_for_improvement set_topics].
           destruct (Py.in_list topic (strengths p)) eqn:Ea;
             cbn [mret Py.result_ret strengths areas_for_improvement
                  set_areas_for_improvement set_strengths set_topics].
           ++ split; [auto |]. intros Hn. exfalso. apply Hn. repeat split; auto; lia.
           ++ apply in_list_false in Ea. rewrite (remove_first_absent _ _ Ea).
              split; [auto |]. intros Hn. exfalso. apply Hn. repeat split; auto; lia.
      * assert (H12 : ~ 2 * c < c + i) by (rewrite <- H5; congruence).
        cbn [andb]. cbn [strengths areas_for_improvement set_topics].
        split; [intros (_ & ? & _); lia | auto].
    + cbn [mret Py.result_ret strengths areas_for_improvement set_topics].
      split; [intros (? & _); lia | auto].
Qed.
End ExactLists.

(* ===================================================================== *)
(** * Learning tracker: what each call keeps *)
(* ===================================================================== *)

Section CallFacts.
Context `{PyEnv}.

Lemma answers_kept_refl o : answers_kept o o.
Proof. repeat split. Qed.

Lemma answers_kept_trans a b c : answers_kept a b -> answers_kept b c -> answers_kept a c.
Proof.
  intros (H1 & H2 & H3) (H4 & H5 & H6).
  split; [congruence |]. split; [congruence |].
  intros topic. rewrite H6. apply H3.
Qed.

(** A fresh record in an empty place, or a record with the counters of
    the one it replaces, keeps everything. *)
Lemma answers_kept_insert (p : StudentProfile) topic (tp' : TopicProgress) :
  (correct_answers tp', incorrect_answers tp') = answer_counters (Some p) topic ->
  answers_kept (Some p) (Some (set_topics (<[topic := tp']> (topics p)) p)).
Proof.
  intros Hc. repeat split. intros other. unfold answer_counters in *.
  cbn [mbind option_bind topics set_topics] in *.
  destruct (decide (other = topic)) as [-> | Hne].
  - rewrite lookup_insert_eq. exact Hc.
  - rewrite lookup_insert_ne by congruence. reflexivity.
Qed.

Lemma answers_kept_default t : answers_kept None (Some (default_profile t)).
Proof. repeat split. Qed.

(** [start_new_session] *)
Lemma start_new_session_effect (w : World) :
  exists id s,
    start_new_session w =
      (Py.Ok id, {| self := {| current_session := Some s;
                               student_profile := student_profile (self w) |};
                    disk := disk w; ticks := S (S (ticks w)) |}) /\
    topics_covered s = [] /\ interactions s = [] /\
    performance_metrics s =
      {| questions_asked := 0; session_correct_answers := 0;
         session_incorrect_answers := 0; hints_used := 0; topics_explored := 0 |}.
Proof.
  unfold start_new_session. run_tracker. eexists. eexists.
  split; [reflexivity |]. repeat split.
Qed.

(** The topic found in a text is a key of the keyword table. *)
Lemma _extract_topic_from_interaction_known text topic :
  _extract_topic_from_interaction text = Some topic -> topic ∈ topic_keywords.*1.
Proof.
  unfold _extract_topic_from_interaction.
  destruct (List.find _ topic_keywords) as [entry |] eqn:E; [| discriminate].
  intros [= <-]. apply List.find_some in E as [Hin _].
  apply list_elem_of_fmap. exists entry. split; [reflexivity |].
  apply list_elem_of_In. exact Hin.
Qed.

(** [mark_topic_encountered]: the call returns; the profile it leaves
    (created when there was none) is written to the profile file; the
    topic has a record, the one it had or a fresh one; nothing else of
    the tracker changes. *)
Lemma mark_topic_encountered_effect topic (w : World) :
  exists w' p',
    mark_topic_encountered topic w = (Py.Ok tt, w') /\
    current_session (self w') = current_session (self w) /\
    student_profile (self w') = Some p' /\
    profile_file (disk w') = Doc (profile_to_json p') /\
    sessions_file (disk w') = sessions_file (disk w) /\
    temp_progress_file (disk w') = temp_progress_file (disk w) /\
    answers_kept (student_profile (self w)) (Some p') /\
    (forall other, other <> topic ->
       topics p' !! other = student_profile (self w) ≫= (fun p => topics p !! other)) /\
    match student_profile (self w) ≫= (fun p => topics p !! topic) with
    | Some tp => topics p' !! topic = Some tp
    | None => exists t1 t2, topics p' !! topic = Some (fresh_topic topic t1 t2)
    end.
Proof.
  destruct w as [[cs sp] d t].
  unfold mark_topic_encountered. run_tracker.
  destruct sp as [p |]; run_tracker.
  - destruct (topics p !! topic) as [tp |] eqn:E; run_tracker.
    + unfold _save_student_profile. run_tracker.
      eexists. exists p. split; [reflexivity |]. cbn.
      repeat split; auto. rewrite E. reflexivity.
    + unfold _save_student_profile. run_tracker.
      eexists. eexists. split; [reflexivity |]. cbn.
      split; [reflexivity |]. split; [reflexivity |]. split; [reflexivity |].
      split; [reflexivity |]. split; [reflexivity |].
      split; [| split].
      * apply answers_kept_insert. unfold answer_counters. cbn. rewrite E. reflexivity.
      * intros other Hne. cbn [topics set_topics].
        rewrite lookup_insert_ne by congruence. reflexivity.
      * rewrite E. eexists. eexists. cbn [topics set_topics]. apply lookup_insert_eq.
  - unfold default_profile. run_tracker. rewrite lookup_empty. run_tracker.
    unfold _save_student_profile. run_tracker.
    eexists. eexists. split; [reflexivity |]. cbn.
    split; [reflexivity |]. split; [reflexivity |]. split; [reflexivity |].
    split; [reflexivity |]. split; [reflexivity |].
    split; [| split].
    + repeat split. intros other. unfold answer_counters. cbn.
      destruct (decide (other = topic)) as [-> | Hne].
      * rewrite lookup_insert_eq. reflexivity.
      * rewrite lookup_insert_ne by congruence. rewrite lookup_empty. reflexivity.
    + intros other Hne. cbn [topics set_topics].
      rewrite lookup_insert_ne by congruence. apply lookup_empty.
    + eexists. eexists. cbn [topics set_topics]. apply lookup_insert_eq.
Qed.

Local Opaque _extract_topic_from_interaction.

(** [log_interaction]: the call returns and leaves a session, the one
    that was active or a new one, with one more interaction and one more
    question asked; a topic found in the text joins the topics covered
    unless it is there; profile and files are not touched. *)
Lemma log_interaction_effect interaction_type input_text response (w : World) :
  exists w' s0 s' t,
    log_interaction interaction_type input_text response w = (Py.Ok tt, w') /\
    (current_session (self w) = Some s0 \/
     current_session (self w) = None /\ topics_covered s0 = [] /\ interactions s0 = [] /\
     performance_metrics s0 =
       {| questions_asked := 0; session_correct_answers := 0;
          session_incorrect_answers := 0; hints_used := 0; topics_explored := 0 |}) /\
    current_session (self w') = Some s' /\
    student_profile (self w') = student_profile (self w) /\
    disk w' = disk w /\
    interactions s' =
      interactions s0 ++
      [JObj [("timestamp", JStr (isoformat t)); ("type", JStr interaction_type);
             ("input", JStr input_text); ("response", JStr response);
             ("success", JBool true)]] /\
    let added :=
      match _extract_topic_from_interaction input_text with
      | Some topic => if Py.in_list topic (topics_covered s0) then [] else [topic]
      | None => []
      end in
    topics_covered s' = topics_covered s0 ++ added /\
    questions_asked (performance_metrics s') =
      questions_asked (performance_metrics s0) + 1 /\
    topics_explored (performance_metrics s') =
      topics_explored (performance_metrics s0) + Z.of_nat (length added) /\
    session_correct_answers (performance_metrics s') =
      session_correct_answers (performance_metrics s0) /\
    session_incorrect_answers (performance_metrics s') =
      session_incorrect_answers (performance_metrics s0) /\
    hints_used (performance_metrics s') = hints_used (performance_metrics s0).
Proof.
  destruct w as [[cs sp] d t].
  unfold log_interaction, start_new_session. run_tracker.
  destruct cs as [s |]; run_tracker.
  - eexists. exists s. eexists. eexists. split; [reflexivity |].
    split; [left; reflexivity |]. cbn.
    split; [reflexivity |]. split; [reflexivity |]. split; [reflexivity |].
    split; [reflexivity |].
    destruct (_extract_topic_from_interaction input_text) as [topic |];
      [destruct (Py.in_list topic (topics_covered s)) |];
      cbn; rewrite ?app_nil_r; repeat split; try reflexivity; lia.
  - eexists.
    exists {| session_id := "session_" +:+ Py.decimal (time_time t);
              start_time := datetime_now (S t);
              end_time := None; topics_covered := []; interactions := [];
              performance_metrics :=
                {| questions_asked := 0; session_correct_answers := 0;
                   session_incorrect_answers := 0; hints_used := 0;
                   topics_explored := 0 |};
              emotion_data := [] |}.
    eexists. eexists. split; [reflexivity |].
    split; [right; repeat split |]. cbn.
    split; [reflexivity |]. split; [reflexivity |]. split; [reflexivity |].
    split; [reflexivity |].
    destruct (_extract_topic_from_interaction input_text) as [topic |];
      cbn; repeat split.
Qed.
End CallFacts.

Section EndSessionFacts.
Context `{PyEnv}.

(** One round of the loop of [end_current_session], and the loop: the
    totals, the lists and the answer counters of the profile stay. *)
Lemma touch_topic_keeps start finish n topic (w : World) p :
  student_profile (self w) = Some p ->
  exists w' p',
    touch_topic start finish n topic w = (Py.Ok tt, w') /\
    current_session (self w') = current_session (self w) /\
    disk w' = disk w /\
    student_profile (self w') = Some p' /\
    total_sessions p' = total_sessions p /\
    total_learning_time p' = total_learning_time p /\
    answers_kept (Some p) (Some p').
Proof.
  intros Hp. destruct w as [[cs sp] d t]. simpl in Hp. subst sp.
  unfold touch_topic. run_tracker.
  destruct (topics p !! topic) as [tp |] eqn:E; run_tracker.
  - eexists. eexists. split; [reflexivity |]. cbn.
    do 5 (split; [reflexivity |]).
    apply answers_kept_insert. unfold answer_counters. cbn. rewrite E. reflexivity.
  - eexists. exists p. split; [reflexivity |]. cbn.
    do 5 (split; [reflexivity |]). apply answers_kept_refl.
Qed.

Lemma touch_topics_keep start finish n (covered : list string) :
  forall (w : World) p,
    student_profile (self w) = Some p ->
    exists w' p',
      for_each covered (touch_topic start finish n) w = (Py.Ok tt, w') /\
      current_session (self w') = current_session (self w) /\
      disk w' = disk w /\
      student_profile (self w') = Some p' /\
      total_sessions p' = total_sessions p /\
      total_learning_time p' = total_learning_time p /\
      answers_kept (Some p) (Some p').
Proof.
  induction covered as [| topic rest IH]; intros w p Hp; simpl.
  - exists w, p. run_tracker. do 6 (split; [auto |]). apply answers_kept_refl.
  - run_tracker.
    destruct (touch_topic_keeps start finish n topic w p Hp)
      as (w1 & p1 & -> & Hs1 & Hd1 & Hp1 & Hn1 & Ht1 & Hk1).
    destruct (IH w1 p1 Hp1) as (w' & p' & -> & Hs & Hd & Hp' & Hn & Ht & Hk).
    exists w', p'. rewrite Hs, Hd, Hn, Ht. do 6 (split; [auto |]).
    eapply answers_kept_trans; eauto.
Qed.

Lemma _save_session_data_self (w : World) :
  fst (_save_session_data w) = Py.Ok tt /\
  self (snd (_save_session_data w)) = self w /\
  profile_file (disk (snd (_save_session_data w))) = profile_file (disk w) /\
  temp_progress_file (disk (snd (_save_session_data w))) = temp_progress_file (disk w).
Proof.
  unfold _save_session_data. run_tracker.
  destruct (current_session (self w)) as [s |]; run_tracker; [| auto].
  unfold try_except, save_session_body. run_tracker.
  destruct (sessions_file (disk w)) as [| | j]; run_tracker; auto.
  destruct j; run_tracker; auto.
Qed.

(** [end_current_session] with an active session: the call returns, the
    session is closed, and a profile that is there gets one more session
    and the whole minutes of this one, keeps its lists and its answer
    counters, and is written to the profile file. *)
Lemma end_current_session_effect (w : World) s :
  current_session (self w) = Some s ->
  exists w',
    end_current_session w = (Py.Ok tt, w') /\
    current_session (self w') = None /\
    temp_progress_file (disk w') = temp_progress_file (disk w) /\
    match student_profile (self w) with
    | None => student_profile (self w') = None /\
              profile_file (disk w') = profile_file (disk w)
    | Some p =>
        exists p',
          student_profile (self w') = Some p' /\
          total_sessions p' = total_sessions p + 1 /\
          total_learning_time p' =
            total_learning_time p + whole_minutes (start_time s) (datetime_now (ticks w)) /\
          answers_kept (Some p) (Some p') /\
          profile_file (disk w') = Doc (profile_to_json p')
    end.
Proof.
  intros Hs. destruct w as [[cs sp] d t]. simpl in Hs. subst cs.
  unfold end_current_session. run_tracker.
  destruct sp as [p |]; run_tracker.
  - match goal with |- context [for_each ?l ?f ?w0] =>
      destruct (touch_topics_keep (start_time s) (datetime_now t)
                  (Z.of_nat (length (topics_covered s))) (topics_covered s) w0 _ eq_refl)
        as (w1 & p1 & Hrun & Hs1 & Hd1 & Hp1 & Hn1 & Ht1 & Hk1) end.
    cbn [set_end_time topics_covered start_time] in Hrun |- *.
    rewrite Hrun. run_tracker.
    destruct (_save_session_data_self w1) as (Hr2 & Hself2 & Hpf2 & Htf2).
    destruct (_save_session_data w1) as [r2 w2]. simpl in Hr2, Hself2, Hpf2, Htf2.
    subst r2.
    pose proof (_save_student_profile_self w2) as [Hr3 Hself3].
    assert (Hp2 : student_profile (self w2) = Some p1) by (rewrite Hself2; exact Hp1).
    pose proof (_save_student_profile_writes w2 p1 Hp2) as Hw3.
    assert (Htf3 : temp_progress_file (disk (snd (_save_student_profile w2)))
                   = temp_progress_file (disk w2)).
    { unfold _save_student_profile. run_tracker. rewrite Hp2. reflexivity. }
    destruct (_save_student_profile w2) as [r3 w3]. simpl in Hr3, Hself3, Hw3, Htf3.
    subst r3. eexists. split; [reflexivity |]. cbn.
    split; [reflexivity |]. split; [rewrite Htf3, Htf2, Hd1; reflexivity |].
    exists p1. rewrite Hself3, Hself2. split; [exact Hp1 |].
    cbn in Hn1, Ht1. split; [exact Hn1 |]. split; [exact Ht1 |].
    split; [| exact Hw3].
    destruct Hk1 as (Hk1 & Hk2 & Hk3). repeat split; auto.
  - match goal with |- context [_save_session_data ?w0] =>
      destruct (_save_session_data_self w0) as (Hr2 & Hself2 & Hpf2 & Htf2);
      destruct (_save_session_data w0) as [r2 w2] end.
    simpl in Hr2, Hself2, Hpf2, Htf2. subst r2.
    assert (Hp2 : student_profile (self w2) = None) by (rewrite Hself2; reflexivity).
    rewrite (_save_student_profile_without_profile w2 Hp2).
    eexists. split; [reflexivity |]. cbn. rewrite Hself2, Hpf2, Htf2. auto.
Qed.
End EndSessionFacts.

Section CallSequences.
Context `{PyEnv}.

Lemma mark_loop_self objective (items : list json) :
  forall w : World,
    self (snd (mark_loop objective items w)) = self w /\
    disk (snd (mark_loop objective items w)) = disk w.
Proof.
  induction items as [| obj rest IH]; intros w; simpl; [auto |].
  destruct obj; run_tracker; auto.
  destruct (dict_get "objective" members) as [v |]; run_tracker; auto.
  destruct (json_eq_str v objective); run_tracker; auto.
  specialize (IH w). destruct (mark_loop objective rest w) as [[l | e] w1]; auto.
Qed.

(** The functions of the learning objectives work on the progress file
    only. *)
Lemma save_learning_objective_self topic objective difficulty (w : World) :
  self (snd (save_learning_objective topic objective difficulty w)) = self w.
Proof.
  unfold save_learning_objective, _load_temp_progress, _save_temp_progress_data.
  run_tracker.
  destruct (temp_progress_file (disk w)) as [| | j]; run_tracker; try reflexivity.
  destruct j; run_tracker; try reflexivity.
  - destruct (Py.contains _ _); run_tracker; reflexivity.
  - destruct (existsb _ _); run_tracker; reflexivity.
  - destruct (dict_get "learning_objectives" members) as [v |] eqn:E; run_tracker.
    + rewrite E. destruct v; reflexivity.
    + destruct (dict_get _ (members_set _ _ _)) as [v |]; [destruct v |]; reflexivity.
Qed.

Lemma mark_objective_completed_self objective (w : World) :
  self (snd (mark_objective_completed objective w)) = self w.
Proof.
  unfold mark_objective_completed, _load_temp_progress, _save_temp_progress_data.
  run_tracker.
  destruct (temp_progress_file (disk w)) as [| | j]; run_tracker; try reflexivity.
  destruct j; run_tracker; try reflexivity.
  destruct (dict_get "learning_objectives" members) as [v |]; run_tracker;
    [| reflexivity].
  destruct (items_of v) as [items | e] eqn:Ei; run_tracker; [| reflexivity].
  destruct (mark_loop_self objective items w) as [Hself _].
  destruct (mark_loop objective items w) as [[l | e] w1]; simpl in Hself;
    [| exact Hself].
  destruct v; exact Hself.
Qed.

(** Every call other than [log_answer_result] and [reset_progress] keeps
    the lists and the answer counters. *)
Lemma run_call_keeps_answers (c : Call) (w : World) :
  (forall topic is_correct, c <> LogAnswerResult topic is_correct) ->
  c <> ResetProgress ->
  answers_kept (student_profile (self w)) (student_profile (self (snd (run_call c w)))).
Proof.
  intros Hna Hnr. destruct c; cbn [run_call].
  - run_tracker. destruct (start_new_session_effect w) as (id & s & -> & _).
    apply answers_kept_refl.
  - destruct (current_session (self w)) as [s |] eqn:Es.
    + destruct (end_current_session_effect w s Es) as (w' & -> & _ & _ & Hp).
      cbn [snd]. destruct (student_profile (self w)) as [p |].
      * destruct Hp as (p' & -> & _ & _ & Hk & _). exact Hk.
      * destruct Hp as [-> _]. apply answers_kept_refl.
    + unfold end_current_session. run_tracker. rewrite Es. apply answers_kept_refl.
  - destruct (log_interaction_effect interaction_type input_text response w)
      as (w' & s0 & s' & t & -> & _ & _ & Hp & _).
    cbn [snd]. rewrite Hp. apply answers_kept_refl.
  - exfalso. eapply Hna. reflexivity.
  - destruct (mark_topic_encountered_effect topic w)
      as (w' & p' & -> & _ & Hp' & _ & _ & _ & Hk & _).
    cbn [snd]. rewrite Hp'. exact Hk.
  - rewrite save_learning_objective_self. apply answers_kept_refl.
  - rewrite mark_objective_completed_self. apply answers_kept_refl.
  - contradiction.
Qed.

(** Every call leaves a consistent session when it found none or a
    consistent one. *)
Lemma run_call_session_consistent (c : Call) (w : World) :
  (forall s, current_session (self w) = Some s -> session_consistent s) ->
  forall s', current_session (self (snd (run_call c w))) = Some s' ->
    session_consistent s'.
Proof.
  intros Hw s'. destruct c; cbn [run_call].
  - run_tracker. destruct (start_new_session_effect w) as (id & s & -> & Ht & Hi & Hm).
    cbn. intros [= <-]. unfold session_consistent. rewrite Ht, Hi, Hm. cbn.
    repeat split; [constructor | intros x Hx; inversion Hx].
  - destruct (current_session (self w)) as [s |] eqn:Es.
    + destruct (end_current_session_effect w s Es) as (w' & -> & Hn & _).
      cbn [snd]. rewrite Hn. discriminate.
    + unfold end_current_session. run_tracker. rewrite Es. cbn. rewrite Es. discriminate.
  - destruct (log_interaction_effect interaction_type input_text response w)
      as (w' & s0 & s1 & t & -> & Hs0 & Hs1 & _ & _ & Hi & Hrest).
    cbn zeta in Hrest. destruct Hrest as (Ht & Hq & He & _).
    cbn [snd]. rewrite Hs1. intros [= <-].
    assert (H0 : session_consistent s0).
    { destruct Hs0 as [Hs0 | (_ & Ht0 & Hi0 & Hm0)]; [apply Hw; exact Hs0 |].
      unfold session_consistent. rewrite Ht0, Hi0, Hm0. cbn.
      repeat split; [constructor | intros x Hx; inversion Hx]. }
    destruct H0 as (Hq0 & He0 & Hnd & Hsub).
    unfold session_consistent. rewrite Hi, Ht, Hq, He, Hq0, He0, !length_app. cbn [length].
    split; [lia |]. split; [lia |].
    destruct (_extract_topic_from_interaction input_text) as [topic |] eqn:Ex;
      [destruct (Py.in_list topic (topics_covered s0)) eqn:Ein |];
      rewrite ?app_nil_r; try (split; assumption).
    apply in_list_false in Ein. split.
    + apply NoDup_app. split; [exact Hnd |]. split; [| apply NoDup_singleton].
      intros x Hx Hx'. apply list_elem_of_singleton in Hx'. subst x. contradiction.
    + intros x Hx. apply elem_of_app in Hx as [Hx | Hx]; [apply Hsub; exact Hx |].
      apply list_elem_of_singleton in Hx. subst x.
      eapply _extract_topic_from_interaction_known. exact Ex.
  - destruct (current_session (self w)) as [s |] eqn:Es.
    + rewrite (log_answer_result_session w s topic is_correct Es). intros [= <-].
      destruct (Hw s eq_refl) as (Hq0 & He0 & Hnd & Hsub).
      repeat split; assumption.
    + rewrite (log_answer_result_no_session w topic is_correct Es). cbn.
      rewrite Es. discriminate.
  - destruct (mark_topic_encountered_effect topic w) as (w' & p' & -> & Hs & _).
    cbn [snd]. rewrite Hs. apply Hw.
  - rewrite save_learning_objective_self. apply Hw.
  - rewrite mark_objective_completed_self. apply Hw.
  - unfold reset_progress. run_tracker. discriminate.
Qed.

(** Every call keeps the two lists separate. *)
Lemma run_call_separate (c : Call) (w : World) :
  match student_profile (self w) with Some p => lists_separate p | None => True end ->
  match student_profile (self (snd (run_call c w))) with
  | Some p => lists_separate p
  | None => True
  end.
Proof.
  intros Hw.
  assert (Hkept : (forall topic is_correct, c <> LogAnswerResult topic is_correct) ->
                  c <> ResetProgress ->
                  match student_profile (self (snd (run_call c w))) with
                  | Some p => lists_separate p
                  | None => True
                  end).
  { intros Hna Hnr.
    destruct (run_call_keeps_answers c w Hna Hnr) as (Hs & Ha & _).
    destruct (student_profile (self (snd (run_call c w)))) as [p' |]; [| exact I].
    cbn in Hs, Ha. unfold lists_separate. rewrite Hs, Ha.
    destruct (student_profile (self w)) as [p |]; cbn; [exact Hw |].
    repeat split; try constructor. intros topic Hin. inversion Hin. }
  destruct c; try (apply Hkept; [intros ? ?; discriminate | discriminate]).
  - apply log_answer_result_separate. exact Hw.
  - cbn. exact I.
Qed.

(** A session stays active under every call but [end_current_session]
    and [reset_progress]. *)
Lemma run_call_session_active (c : Call) (w : World) :
  c <> EndCurrentSession -> c <> ResetProgress ->
  is_Some (current_session (self w)) ->
  is_Some (current_session (self (snd (run_call c w)))).
Proof.
  intros Hne Hnr [s Hs]. destruct c; cbn [run_call]; try contradiction.
  - run_tracker. destruct (start_new_session_effect w) as (id & s1 & -> & _).
    cbn. eauto.
  - destruct (log_interaction_effect interaction_type input_text response w)
      as (w' & s0 & s1 & t & -> & _ & Hs1 & _).
    cbn [snd]. rewrite Hs1. eauto.
  - rewrite (log_answer_result_session w s topic is_correct Hs). eauto.
  - destruct (mark_topic_encountered_effect topic w) as (w' & p' & -> & Hs' & _).
    cbn [snd]. rewrite Hs', Hs. eauto.
  - rewrite save_learning_objective_self, Hs. eauto.
  - rewrite mark_objective_completed_self, Hs. eauto.
Qed.

Lemma run_call_counters (c : Call) (w : World) (topic : string) :
  c <> ResetProgress ->
  is_Some (current_session (self w)) ->
  answer_counters (student_profile (self (snd (run_call c w)))) topic =
  ((answer_counters (student_profile (self w)) topic).1
     + (if is_answer topic true c then 1 else 0),
   (answer_counters (student_profile (self w)) topic).2
     + (if is_answer topic false c then 1 else 0)).
Proof.
  intros Hnr [s Hs].
  assert (Hkept : (forall t b, c <> LogAnswerResult t b) ->
            answer_counters (student_profile (self (snd (run_call c w)))) topic =
            ((answer_counters (student_profile (self w)) topic).1 + 0,
             (answer_counters (student_profile (self w)) topic).2 + 0)).
  { intros Hna. destruct (run_call_keeps_answers c w Hna Hnr) as (_ & _ & Hk).
    rewrite Hk, !Z.add_0_r. destruct (answer_counters _ _); reflexivity. }
  destruct c as [| | | t b | | | |];
    try (apply Hkept; intros ? ?; discriminate).
  clear Hkept. cbn [run_call is_answer].
  destruct (log_answer_result_counters w s t b topic Hs) as [Hc Hi].
  cbn zeta in Hc, Hi. unfold answer_counters.
  assert (Ht : String.eqb t topic = bool_decide (topic = t)).
  { destruct (String.eqb_spec t topic) as [-> | Hne].
    - rewrite bool_decide_eq_true_2; reflexivity.
    - rewrite bool_decide_eq_false_2; [reflexivity | congruence]. }
  rewrite Ht.
  destruct (student_profile (self (snd (log_answer_result t b w)))
              ≫= (fun p => topics p !! topic)) as [tp' |];
    destruct (student_profile (self w) ≫= (fun p => topics p !! topic)) as [tp |];
    destruct (bool_decide (topic = t)); destruct b;
    cbn in Hc, Hi |- *; f_equal; lia.
Qed.

End CallSequences.

(* ===================================================================== *)
(** * Learning tracker: any sequence of calls *)
(* ===================================================================== *)

Section CallSequenceTheorems.
Context `{PyEnv}.

(** X3. Whatever calls are made on the tracker, the session that is
    active afterwards, if any, is consistent when the one at the start
    was: [questions_asked] is the number of interactions logged,
    [topics_explored] is the number of topics covered, and the topics
    covered are distinct keys of the keyword table. *)
Theorem session_bookkeeping_consistent (calls : list Call) :
  forall w : World,
  (forall s, current_session (self w) = Some s -> session_consistent s) ->
  forall s', current_session (self (run_calls calls w)) = Some s' ->
    session_consistent s'.
Proof.
  induction calls as [| c rest IH]; intros w Hw; cbn [run_calls]; [exact Hw |].
  apply IH. apply run_call_session_consistent. exact Hw.
Qed.

(** X4. With a session active at the start and no call that ends it,
    the two answer counters of a topic go up by exactly the number of
    correct and of incorrect answers logged for it, whatever other
    calls come in between. *)
Theorem counters_count_logged_answers (calls : list Call) :
  forall (w : World) (topic : string),
  is_Some (current_session (self w)) ->
  forallb (fun c => negb (ends_session c)) calls = true ->
  answer_counters (student_profile (self (run_calls calls w))) topic =
  ((answer_counters (student_profile (self w)) topic).1
     + logged_answers topic true calls,
   (answer_counters (student_profile (self w)) topic).2
     + logged_answers topic false calls).
Proof.
  unfold logged_answers.
  induction calls as [| c rest IH]; intros w topic Hs Hall; cbn [run_calls].
  - cbn. rewrite !Z.add_0_r. destruct (answer_counters _ _); reflexivity.
  - cbn [forallb] in Hall. apply andb_prop in Hall as [Hc Hrest].
    assert (Hne : c <> EndCurrentSession) by (intros ->; discriminate).
    assert (Hnr : c <> ResetProgress) by (intros ->; discriminate).
    rewrite (IH _ topic (run_call_session_active c w Hne Hnr Hs) Hrest).
    rewrite (run_call_counters c w topic Hnr Hs). cbn [fst snd List.filter].
    destruct (is_answer topic true c), (is_answer topic false c);
      cbn [length]; f_equal; lia.
Qed.

(** X5. The calls other than [log_answer_result] and [reset_progress]
    never change an answer counter, the strengths or the areas for
    improvement. *)
Theorem only_answers_change_counters (calls : list Call) :
  forall w : World,
  forallb (fun c => negb (changes_answers c)) calls = true ->
  let before := student_profile (self w) in
  let after := student_profile (self (run_calls calls w)) in
  (forall topic, answer_counters after topic = answer_counters before topic) /\
  from_option strengths [] after = from_option strengths [] before /\
  from_option areas_for_improvement [] after =
    from_option areas_for_improvement [] before.
Proof.
  induction calls as [| c rest IH]; intros w Hall; cbn [run_calls]; cbn zeta.
  - auto.
  - cbn [forallb] in Hall. apply andb_prop in Hall as [Hc Hrest].
    destruct (IH (snd (run_call c w)) Hrest) as (Hk & Hs & Ha). cbn zeta in Hk, Hs, Ha.
    destruct (run_call_keeps_answers c w) as (Hs1 & Ha1 & Hk1).
    + intros topic b ->. discriminate.
    + intros ->. discriminate.
    + split; [intros topic; rewrite Hk; apply Hk1 |]. split; congruence.
Qed.

(** X6. Whatever calls are made on the tracker, the strengths and the
    areas for improvement stay free of repetitions and of common topics
    when they were at the start. *)
Theorem lists_stay_separate (calls : list Call) :
  forall w : World,
  (forall p, student_profile (self w) = Some p -> lists_separate p) ->
  forall p', student_profile (self (run_calls calls w)) = Some p' ->
    NoDup (strengths p') /\ NoDup (areas_for_improvement p') /\
    forall topic, ~ (topic ∈ strengths p' /\ topic ∈ areas_for_improvement p').
Proof.
  assert (Hinv : forall (calls : list Call) (w : World),
            match student_profile (self w) with
            | Some p => lists_separate p | None => True end ->
            match student_profile (self (run_calls calls w)) with
            | Some p => lists_separate p | None => True end).
  { clear calls. induction calls as [| c rest IH]; intros w Hw; cbn [run_calls];
      [exact Hw |].
    apply IH. apply run_call_separate. exact Hw. }
  intros w Hw p' Hp'. specialize (Hinv calls w).
  rewrite Hp' in Hinv. destruct Hinv as (Hs & Ha & Hd).
  - destruct (student_profile (self w)) as [p |]; [apply Hw; reflexivity | exact I].
  - repeat split; try assumption. intros topic [H1 H2]. exact (Hd topic H1 H2).
Qed.
End CallSequenceTheorems.

(* ===================================================================== *)
(** * Learning tracker: learning objectives *)
(* ===================================================================== *)

Lemma dict_get_members_set k v o : dict_get k (members_set k v o) = Some v.
Proof.
  unfold dict_get. induction o as [| [k' v'] r IH]; simpl.
  - rewrite String.eqb_refl. reflexivity.
  - destruct (String.eqb_spec k k') as [-> | Hne]; simpl.
    + rewrite String.eqb_refl. reflexivity.
    + destruct (String.eqb_spec k' k) as [-> | _]; [contradiction | exact IH].
Qed.

Lemma dict_get_members_set_ne k k' v o :
  k' <> k -> dict_get k' (members_set k v o) = dict_get k' o.
Proof.
  intros Hne. unfold dict_get. induction o as [| [k0 v0] r IH]; simpl.
  - destruct (String.eqb_spec k k') as [-> | _]; [contradiction | reflexivity].
  - destruct (String.eqb_spec k k0) as [-> | Hk]; simpl.
    + destruct (String.eqb_spec k0 k') as [-> | _]; [contradiction | reflexivity].
    + destruct (String.eqb_spec k0 k'); [reflexivity | exact IH].
Qed.

Lemma members_set_same k v o : dict_get k o = Some v -> members_set k v o = o.
Proof.
  unfold dict_get. induction o as [| [k' v'] r IH]; simpl; [discriminate |].
  destruct (String.eqb_spec k' k) as [-> | Hne]; simpl.
  - intros [= ->]. rewrite String.eqb_refl. reflexivity.
  - intros Hr. destruct (String.eqb_spec k k') as [-> | _]; [contradiction |].
    rewrite IH by exact Hr. reflexivity.
Qed.

Lemma active_of_app l1 l2 a1 a2 :
  active_of l1 = Py.Ok a1 -> active_of l2 = Py.Ok a2 ->
  active_of (l1 ++ l2) = Py.Ok (a1 ++ a2).
Proof.
  revert a1. induction l1 as [| x l1 IH]; intros a1; simpl.
  - intros [= <-]. auto.
  - destruct x; try discriminate.
    destruct (active_of l1) as [r1 |] eqn:E1; [| discriminate]. simpl.
    intros [= <-] H2. rewrite (IH r1 eq_refl H2). simpl.
    destruct (truthy _); reflexivity.
Qed.

(** A listing that raises does so with [AttributeError], at the first
    entry that is not a dict, whatever follows. *)
Lemma active_of_app_raises l1 l2 e :
  active_of l1 = Py.Raise e ->
  e = Py.AttributeError /\ active_of (l1 ++ l2) = Py.Raise Py.AttributeError.
Proof.
  induction l1 as [| x l1 IH]; simpl; [discriminate |].
  destruct x; try (intros [= <-]; split; reflexivity).
  destruct (active_of l1) as [r1 | e1]; simpl; [discriminate |].
  intros [= <-]. destruct (IH eq_refl) as [-> ->]. split; reflexivity.
Qed.

Section ObjectiveFacts.
Context `{PyEnv}.

Ltac run_objectives :=
  unfold save_learning_objective, mark_objective_completed, get_active_objectives,
    _load_temp_progress, _save_temp_progress_data; run_tracker.

(** [get_active_objectives] on a progress file with a list of
    objectives. *)
Lemma get_active_objectives_reads (w : World) l :
  objectives_list (temp_progress_file (disk w)) = Some l ->
  get_active_objectives w = (active_of l, w).
Proof.
  intros Hl. run_objectives.
  destruct (temp_progress_file (disk w)) as [| | j]; simpl in Hl.
  - injection Hl as <-. reflexivity.
  - injection Hl as <-. reflexivity.
  - destruct j; try discriminate. run_tracker.
    destruct (dict_get "learning_objectives" members) as [v |].
    + destruct v; try discriminate. injection Hl as <-. reflexivity.
    + injection Hl as <-. reflexivity.
Qed.

(** [save_learning_objective] on such a file appends the new objective
    and keeps the other members of the file. *)
Lemma save_learning_objective_appends (w : World) l topic objective difficulty :
  objectives_list (temp_progress_file (disk w)) = Some l ->
  exists w',
    save_learning_objective topic objective difficulty w = (Py.Ok tt, w') /\
    self w' = self w /\
    profile_file (disk w') = profile_file (disk w) /\
    sessions_file (disk w') = sessions_file (disk w) /\
    ticks w' = S (ticks w) /\
    objectives_list (temp_progress_file (disk w')) =
      Some (l ++ [objective_data topic objective difficulty (datetime_now (ticks w))]) /\
    forall k, k <> "learning_objectives" ->
      exists o',
        temp_progress_file (disk w') = Doc (JObj o') /\
        dict_get k o' =
          match temp_progress_file (disk w) with
          | Doc (JObj o) => dict_get k o
          | _ => None
          end.
Proof.
  intros Hl. destruct w as [sf [pf ssf tf] t]. run_objectives. cbn in Hl.
  assert (Hfresh : forall o k, k <> "learning_objectives" ->
            dict_get "learning_objectives" o = None ->
            dict_get k
              (members_set "learning_objectives"
                 (JList ([] ++ [objective_data topic objective difficulty (datetime_now t)]))
                 (members_set "learning_objectives" (JList []) o)) = dict_get k o).
  { intros o k Hk _. rewrite !dict_get_members_set_ne by exact Hk. reflexivity. }
  destruct tf as [| | j]; run_tracker.
  - injection Hl as <-. eexists. split; [reflexivity |].
    cbn [self disk ticks profile_file sessions_file temp_progress_file
         set_temp_progress_file objectives_list].
    do 4 (split; [reflexivity |]). rewrite dict_get_members_set.
    split; [reflexivity |]. intros k Hk. eexists. split; [reflexivity |].
    apply (Hfresh [] k Hk eq_refl).
  - injection Hl as <-. eexists. split; [reflexivity |].
    cbn [self disk ticks profile_file sessions_file temp_progress_file
         set_temp_progress_file objectives_list].
    do 4 (split; [reflexivity |]). rewrite dict_get_members_set.
    split; [reflexivity |]. intros k Hk. eexists. split; [reflexivity |].
    apply (Hfresh [] k Hk eq_refl).
  - destruct j; try discriminate. run_tracker.
    destruct (dict_get "learning_objectives" members) as [v |] eqn:E; run_tracker;
      cbn [objectives_list] in Hl; rewrite ?E in Hl.
    + destruct v; try discriminate. injection Hl as <-. rewrite E. run_tracker.
      eexists. split; [reflexivity |].
      cbn [self disk ticks profile_file sessions_file temp_progress_file
         set_temp_progress_file objectives_list].
      do 4 (split; [reflexivity |]). rewrite dict_get_members_set.
      split; [reflexivity |]. intros k Hk. eexists. split; [reflexivity |].
      apply dict_get_members_set_ne. exact Hk.
    + injection Hl as <-. rewrite dict_get_members_set. run_tracker.
      eexists. split; [reflexivity |].
      cbn [self disk ticks profile_file sessions_file temp_progress_file
         set_temp_progress_file objectives_list].
      do 4 (split; [reflexivity |]). rewrite dict_get_members_set.
      split; [reflexivity |]. intros k Hk. eexists. split; [reflexivity |].
      apply Hfresh; assumption.
Qed.

(** The loop of [mark_objective_completed] when no item has the
    objective, and when one has it. *)
Lemma mark_loop_none objective (l : list json) (w : World) :
  forallb (other_objective objective) l = true ->
  mark_loop objective l w = (Py.Ok l, w).
Proof.
  induction l as [| x l IH]; simpl; [reflexivity |].
  intros Hall. apply andb_prop in Hall as [Hx Hl].
  destruct x; try discriminate. simpl in Hx.
  destruct (dict_get "objective" members) as [v |]; [| discriminate].
  destruct (json_eq_str v objective); [discriminate |].
  run_tracker. rewrite (IH Hl). reflexivity.
Qed.

Lemma mark_loop_first objective (pre : list json) d v post (w : World) :
  forallb (other_objective objective) pre = true ->
  dict_get "objective" d = Some v ->
  json_eq_str v objective = true ->
  mark_loop objective (pre ++ JObj d :: post) w =
    (Py.Ok (pre ++
            JObj (members_set "completed_at" (JStr (isoformat (datetime_now (ticks w))))
                    (members_set "completed" (JBool true) d)) :: post),
     {| self := self w; disk := disk w; ticks := S (ticks w) |}).
Proof.
  intros Hpre Hd Hv. induction pre as [| x pre IH]; simpl.
  - rewrite Hd, Hv. run_tracker. reflexivity.
  - simpl in Hpre. apply andb_prop in Hpre as [Hx Hpre].
    destruct x; try discriminate. simpl in Hx.
    destruct (dict_get "objective" members) as [vx |]; [| discriminate].
    destruct (json_eq_str vx objective); [discriminate |].
    run_tracker. rewrite (IH Hpre). reflexivity.
Qed.

Lemma mark_objective_completed_first (w : World) objective pre d post :
  objectives_list (temp_progress_file (disk w)) = Some (pre ++ JObj d :: post) ->
  forallb (other_objective objective) pre = true ->
  dict_get "objective" d = Some (JStr objective) ->
  let d' := members_set "completed_at" (JStr (isoformat (datetime_now (ticks w))))
              (members_set "completed" (JBool true) d) in
  exists w',
    mark_objective_completed objective w = (Py.Ok tt, w') /\
    self w' = self w /\
    profile_file (disk w') = profile_file (disk w) /\
    sessions_file (disk w') = sessions_file (disk w) /\
    objectives_list (temp_progress_file (disk w')) = Some (pre ++ JObj d' :: post).
Proof.
  intros Hl Hpre Hd d'. destruct w as [sf [pf ssf tf] t]. cbn in Hl.
  destruct tf as [| | j]; cbn in Hl;
    try (injection Hl as Hl; destruct pre; discriminate).
  destruct j; try discriminate.
  destruct (dict_get "learning_objectives" members) as [v |] eqn:E;
    rewrite ?E in Hl;
    [| injection Hl as Hl; destruct pre; discriminate].
  destruct v; try discriminate. injection Hl as ->.
  run_objectives. rewrite E. run_tracker. cbn [items_of].
  rewrite (mark_loop_first objective pre d (JStr objective) post _ Hpre Hd)
    by (simpl; apply String.eqb_refl).
  run_tracker. eexists. split; [reflexivity |].
  cbn [self disk ticks profile_file sessions_file temp_progress_file
         set_temp_progress_file objectives_list].
  do 3 (split; [reflexivity |]). rewrite dict_get_members_set. reflexivity.
Qed.
End ObjectiveFacts.

Section ObjectiveTheorems.
Context `{PyEnv}.

(** X7. A saved objective is active: on a progress file that is absent,
    unreadable or an object whose "learning_objectives" is absent or a
    list, [save_learning_objective] returns, and what
    [get_active_objectives] gives afterwards follows what it gave
    before the call: the same objectives, followed by the new one, which
    carries the topic, the text, the difficulty and the time of the call
    and is not completed; and where it raised before, which it does
    with [AttributeError] on a list with an entry that is not a dict, it
    raises [AttributeError] afterwards too. *)
Theorem saved_objective_is_active (w : World) (l : list json)
  (topic objective difficulty : string) :
  objectives_list (temp_progress_file (disk w)) = Some l ->
  exists w',
    save_learning_objective topic objective difficulty w = (Py.Ok tt, w') /\
    match fst (get_active_objectives w) with
    | Py.Ok active =>
        get_active_objectives w' =
          (Py.Ok (active ++
                  [JObj [("topic", JStr topic); ("objective", JStr objective);
                         ("difficulty", JStr difficulty);
                         ("created_at", JStr (isoformat (datetime_now (ticks w))));
                         ("completed", JBool false)]]), w')
    | Py.Raise e =>
        e = Py.AttributeError /\
        get_active_objectives w' = (Py.Raise Py.AttributeError, w')
    end.
Proof.
  intros Hl.
  destruct (save_learning_objective_appends w l topic objective difficulty Hl)
    as (w' & Hrun & _ & _ & _ & _ & Hl' & _).
  exists w'. split; [exact Hrun |].
  rewrite (get_active_objectives_reads w l Hl), (get_active_objectives_reads w' _ Hl').
  cbn [fst]. destruct (active_of l) as [active | e] eqn:Ha.
  - erewrite (active_of_app l _ active); [reflexivity | exact Ha | reflexivity].
  - destruct (active_of_app_raises l
                [objective_data topic objective difficulty (datetime_now (ticks w))]
                e Ha) as [-> ->].
    split; reflexivity.
Qed.

(** X8. Completing an objective touches the first entry with that text
    only: when the entries before it are dicts with another
    "objective", [mark_objective_completed] returns, sets "completed"
    to true and "completed_at" to the time of the call in that entry,
    keeps its other members, and keeps every other entry and the
    order. *)
Theorem mark_objective_completed_marks_first (w : World) (objective : string)
  (pre : list json) (d : list (string * json)) (post : list json) :
  objectives_list (temp_progress_file (disk w)) = Some (pre ++ JObj d :: post) ->
  forallb (other_objective objective) pre = true ->
  dict_get "objective" d = Some (JStr objective) ->
  exists w' d',
    mark_objective_completed objective w = (Py.Ok tt, w') /\
    objectives_list (temp_progress_file (disk w')) = Some (pre ++ JObj d' :: post) /\
    dict_get "completed" d' = Some (JBool true) /\
    dict_get "completed_at" d' = Some (JStr (isoformat (datetime_now (ticks w)))) /\
    (forall k, k <> "completed" -> k <> "completed_at" -> dict_get k d' = dict_get k d) /\
    self w' = self w /\
    profile_file (disk w') = profile_file (disk w) /\
    sessions_file (disk w') = sessions_file (disk w).
Proof.
  intros Hl Hpre Hd.
  destruct (mark_objective_completed_first w objective pre d post Hl Hpre Hd)
    as (w' & Hrun & Hself & Hpf & Hsf & Hl').
  exists w'. eexists. split; [exact Hrun |]. split; [exact Hl' |].
  split; [| split; [| split]].
  - rewrite dict_get_members_set_ne by discriminate. apply dict_get_members_set.
  - apply dict_get_members_set.
  - intros k Hk1 Hk2. rewrite !dict_get_members_set_ne by assumption. reflexivity.
  - auto.
Qed.

(** X9. A completed objective is no longer active: saving an objective
    whose text no listed objective has and completing it leaves
    [get_active_objectives] as it was before the two calls. *)
Theorem completed_objective_is_not_active (w : World) (l active : list json)
  (topic objective difficulty : string) :
  objectives_list (temp_progress_file (disk w)) = Some l ->
  active_of l = Py.Ok active ->
  forallb (other_objective objective) l = true ->
  exists w1 w2,
    save_learning_objective topic objective difficulty w = (Py.Ok tt, w1) /\
    mark_objective_completed objective w1 = (Py.Ok tt, w2) /\
    get_active_objectives w2 = (Py.Ok active, w2).
Proof.
  intros Hl Ha Hother.
  destruct (save_learning_objective_appends w l topic objective difficulty Hl)
    as (w1 & Hrun1 & _ & _ & _ & _ & Hl1 & _).
  unfold objective_data in Hl1.
  destruct (mark_objective_completed_first w1 objective l _ [] Hl1 Hother eq_refl)
    as (w2 & Hrun2 & _ & _ & _ & Hl2).
  exists w1, w2. split; [exact Hrun1 |]. split; [exact Hrun2 |].
  rewrite (get_active_objectives_reads w2 _ Hl2).
  erewrite (active_of_app l _ active []); [rewrite app_nil_r; reflexivity | exact Ha |].
  cbn [active_of]. rewrite dict_get_members_set_ne by discriminate.
  rewrite dict_get_members_set. reflexivity.
Qed.

(** X10. With any other content of the progress file (a document that is
    not an object, or an object whose "learning_objectives" is not a
    list) [save_learning_objective] raises [TypeError] or
    [AttributeError] and writes nothing. *)
Theorem save_learning_objective_refuses (w : World)
  (topic objective difficulty : string) :
  objectives_list (temp_progress_file (disk w)) = None ->
  exists e,
    fst (save_learning_objective topic objective difficulty w) = Py.Raise e /\
    (e = Py.TypeError \/ e = Py.AttributeError) /\
    disk (snd (save_learning_objective topic objective difficulty w)) = disk w /\
    self (snd (save_learning_objective topic objective difficulty w)) = self w.
Proof.
  intros Hl. destruct w as [sf [pf ssf tf] t]. cbn in Hl.
  unfold save_learning_objective, _load_temp_progress, _save_temp_progress_data.
  run_tracker.
  destruct tf as [| | j]; try discriminate. run_tracker.
  destruct j; run_tracker; try (eexists; split; [reflexivity |]; auto).
  - destruct (Py.contains _ _); run_tracker; eexists; (split; [reflexivity |]); auto.
  - destruct (existsb _ _); run_tracker; eexists; (split; [reflexivity |]); auto.
  - cbn [objectives_list] in Hl.
    destruct (dict_get "learning_objectives" members) as [v |] eqn:E; [| discriminate].
    run_tracker. rewrite E.
    destruct v; try discriminate; eexists; (split; [reflexivity |]); auto.
Qed.
End ObjectiveTheorems.

Section ObjectiveFrame.
Context `{PyEnv}.

(** [_save_temp_progress] rewrites "current_session" only. *)
Lemma _save_temp_progress_objectives (w : World) :
  objectives_list (temp_progress_file (disk (snd (_save_temp_progress w)))) =
  objectives_list (temp_progress_file (disk w)) /\
  profile_file (disk (snd (_save_temp_progress w))) = profile_file (disk w) /\
  sessions_file (disk (snd (_save_temp_progress w))) = sessions_file (disk w).
Proof.
  destruct w as [[cs sp] [pf ssf tf] t].
  unfold _save_temp_progress, _load_temp_progress, _save_temp_progress_data.
  run_tracker.
  destruct tf as [| | j]; run_tracker; destruct cs as [s |]; run_tracker;
    cbn [setitem]; run_tracker; auto.
  - destruct j; cbn [setitem]; run_tracker; auto.
    cbn [disk temp_progress_file set_temp_progress_file objectives_list profile_file
         sessions_file].
    rewrite dict_get_members_set_ne by discriminate. auto.
Qed.

Lemma _save_student_profile_temp (w : World) :
  temp_progress_file (disk (snd (_save_student_profile w))) = temp_progress_file (disk w).
Proof.
  unfold _save_student_profile. run_tracker.
  destruct (student_profile (self w)); reflexivity.
Qed.

Lemma log_answer_result_objectives topic is_correct (w : World) :
  objectives_list
    (temp_progress_file (disk (snd (log_answer_result topic is_correct w)))) =
  objectives_list (temp_progress_file (disk w)).
Proof.
  destruct w as [[cs sp] d t].
  assert (Hsaves : forall w1 : World, disk w1 = d ->
            objectives_list (temp_progress_file (disk (snd
              (let (r, w2) := _save_temp_progress w1 in
               match r with
               | Py.Ok _ => _save_student_profile w2
               | Py.Raise e => (Py.Raise e, w2)
               end)))) = objectives_list (temp_progress_file d)).
  { intros w1 <-. destruct (_save_temp_progress_objectives w1) as (Ho & _).
    destruct (_save_temp_progress w1) as [[[] | e] w2]; cbn [snd] in Ho |- *;
      [| exact Ho].
    rewrite _save_student_profile_temp. exact Ho. }
  unfold log_answer_result. run_tracker.
  destruct cs as [s |]; run_tracker; [| reflexivity].
  destruct sp as [p |]; run_tracker.
  - destruct (topics p !! topic) as [tp |] eqn:E; run_tracker.
    + rewrite E. run_tracker.
      destruct (if is_correct then _ else _) as [p2 | e]; run_tracker;
        [| reflexivity].
      match goal with |- context [_save_temp_progress ?w1] =>
        exact (Hsaves w1 eq_refl) end.
    + rewrite lookup_insert_eq. run_tracker.
      destruct (if is_correct then _ else _) as [p2 | e]; run_tracker;
        [| reflexivity].
      match goal with |- context [_save_temp_progress ?w1] =>
        exact (Hsaves w1 eq_refl) end.
  - unfold default_profile. run_tracker.
    rewrite lookup_empty. run_tracker. rewrite lookup_insert_eq. run_tracker.
    destruct (if is_correct then _ else _) as [p2 | e]; run_tracker;
      [| reflexivity].
    match goal with |- context [_save_temp_progress ?w1] =>
      exact (Hsaves w1 eq_refl) end.
Qed.

Lemma run_call_objectives (c : Call) (w : World) :
  changes_objectives c = false ->
  objectives_list (temp_progress_file (disk (snd (run_call c w)))) =
  objectives_list (temp_progress_file (disk w)).
Proof.
  intros Hc. destruct c; try discriminate; cbn [run_call].
  - run_tracker. destruct (start_new_session_effect w) as (id & s & -> & _). reflexivity.
  - destruct (current_session (self w)) as [s |] eqn:Es.
    + destruct (end_current_session_effect w s Es) as (w' & -> & _ & Ht & _).
      cbn [snd]. rewrite Ht. reflexivity.
    + unfold end_current_session. run_tracker. rewrite Es. reflexivity.
  - destruct (log_interaction_effect interaction_type input_text response w)
      as (w' & s0 & s' & t & -> & _ & _ & _ & Hd & _).
    cbn [snd]. rewrite Hd. reflexivity.
  - apply log_answer_result_objectives.
  - destruct (mark_topic_encountered_effect topic w)
      as (w' & p' & -> & _ & _ & _ & _ & Ht & _).
    cbn [snd]. rewrite Ht. reflexivity.
Qed.

(** X11. Only the calls on the learning objectives (and the reset) change
    them: every other sequence of calls, answers and session changes
    included, leaves the list of objectives of the progress file as it
    was. *)
Theorem only_objective_calls_change_objectives (calls : list Call) :
  forall w : World,
  forallb (fun c => negb (changes_objectives c)) calls = true ->
  objectives_list (temp_progress_file (disk (run_calls calls w))) =
  objectives_list (temp_progress_file (disk w)).
Proof.
  induction calls as [| c rest IH]; intros w Hall; cbn [run_calls]; [reflexivity |].
  cbn [forallb] in Hall. apply andb_prop in Hall as [Hc Hrest].
  rewrite (IH _ Hrest). apply run_call_objectives.
  apply negb_true_iff. exact Hc.
Qed.
End ObjectiveFrame.

(* ===================================================================== *)
(** * Intent classification: the regular expressions decide *)
(* ===================================================================== *)

Lemma SFltb_irrefl a : SFltb a a = false.
Proof.
  unfold SFltb. destruct a as [[|] | [|] | | [|] m e]; simpl; try reflexivity;
    rewrite Z.compare_refl;
    change (Pos.compare_cont Eq ?x ?y) with (Pos.compare x y);
    rewrite Pos.compare_refl; reflexivity.
Qed.

(** From [x <= b] and [b < c]: not [c < x]. *)
Lemma SFltb_le_lt a b c :
  SFltb b a = false -> SFltb b c = true -> Py.is_nan a = false ->
  SFltb c a = false.
Proof.
  unfold SFltb.
  destruct a as [[|] | [|] | | [|] ma ea], b as [[|] | [|] | | [|] mb eb],
           c as [[|] | [|] | | [|] mc ec];
    simpl; try discriminate; try reflexivity;
    change (Pos.compare_cont Eq ?x ?y) with (Pos.compare x y);
    compare_cases; simpl; try discriminate; try reflexivity; intros; subst; lia.
Qed.

(** A keyword score is a number not above 0.5. *)
Lemma keyword_score_at_most_half k n :
  0 < k <= n -> n <= 5 ->
  exists q, Py.int_truediv k n = Py.Ok q /\
    Py.is_nan (Py.fmul q Py.f0_5) = false /\
    Py.fgt (Py.fmul q Py.f0_5) Py.f0_5 = false /\
    Py.fgt (Py.fmul q Py.f0_5) Py.f0_6 = false.
Proof.
  intros Hk Hn.
  assert (Hn' : n = 1 \/ n = 2 \/ n = 3 \/ n = 4 \/ n = 5) by lia.
  assert (Hk' : k = 1 \/ k = 2 \/ k = 3 \/ k = 4 \/ k = 5) by lia.
  destruct Hn' as [-> | [-> | [-> | [-> | ->]]]];
    destruct Hk' as [-> | [-> | [-> | [-> | ->]]]]; try lia;
    (eexists; split; [vm_compute; reflexivity |];
     split; [vm_compute; reflexivity |]; split; vm_compute; reflexivity).
Qed.

Lemma command_patterns_decide : forallb (decides_above Py.f0_6) command_patterns = true.
Proof. vm_compute. reflexivity. Qed.

Lemma educational_patterns_decide :
  forallb (decides_above Py.f0_5) educational_patterns = true.
Proof. vm_compute. reflexivity. Qed.

Section BestMatchFacts.
Context `{PyEnv}.
Variable threshold : Py.float.
Hypothesis threshold_cases : threshold = Py.f0_5 \/ threshold = Py.f0_6.

(** One round gives the confidence of the pattern when its regular
    expression matches and a number not above the threshold otherwise. *)
Lemma pattern_confidence_cases text pattern_obj :
  decides_above threshold pattern_obj = true ->
  exists c, pattern_confidence text pattern_obj = Py.Ok c /\
    Py.is_nan c = false /\
    Py.fgt c threshold = re_search (IntentPattern.pattern pattern_obj) text /\
    (re_search (IntentPattern.pattern pattern_obj) text = true ->
     c = IntentPattern.confidence pattern_obj).
Proof.
  unfold decides_above, pattern_confidence. intros Hd.
  apply andb_prop in Hd as [Hd Hlen]. apply andb_prop in Hd as [Hnan Hconf].
  apply negb_true_iff in Hnan. apply Z.leb_le in Hlen.
  destruct (re_search _ _); [eauto 6 |].
  destruct (Z.ltb_spec 0 (keyword_matches (IntentPattern.keywords pattern_obj) text)).
  - pose proof (keyword_matches_bounds (IntentPattern.keywords pattern_obj) text).
    destruct (keyword_score_at_most_half
                (keyword_matches (IntentPattern.keywords pattern_obj) text)
                (Z.of_nat (length (IntentPattern.keywords pattern_obj))))
      as (q & Hq & Hn & H5 & H6); [lia | lia |].
    rewrite Hq. simpl. eexists. split; [reflexivity |]. split; [exact Hn |].
    split; [| discriminate]. destruct threshold_cases as [-> | ->]; assumption.
  - eexists. split; [reflexivity |]. split; [reflexivity |].
    split; [| discriminate]. destruct threshold_cases as [-> | ->]; reflexivity.
Qed.

Lemma check_loop_best text patterns :
  forallb (decides_above threshold) patterns = true ->
  forall seen best,
    forallb (decides_above threshold) seen = true ->
    best_of threshold text seen best ->
    exists b, check_loop text patterns best = Py.Ok b /\
      best_of threshold text (seen ++ patterns) b.
Proof.
  induction patterns as [| p rest IH]; intros Hall seen best Hseen Hbest; simpl.
  - exists best. rewrite app_nil_r. auto.
  - simpl in Hall. apply andb_prop in Hall as [Hp Hrest].
    destruct (pattern_confidence_cases text p Hp) as (c & -> & Hc & Hm & Heq). simpl.
    assert (Hseen' : forallb (decides_above threshold) (seen ++ [p]) = true).
    { rewrite forallb_app, Hseen. simpl. rewrite Hp. reflexivity. }
    replace (seen ++ p :: rest) with ((seen ++ [p]) ++ rest)
      by (rewrite <- app_assoc; reflexivity).
    destruct Hbest as (Hnan & Hfrom & Hmax).
    apply IH; [exact Hrest | exact Hseen' |].
    destruct (Py.fgt c (BestMatch.confidence best)) eqn:Hup.
    + split; [exact Hc |]. cbn [BestMatch.confidence]. split.
      * intros Hc'. rewrite Hm in Hc'. exists p.
        split; [apply elem_of_app; right; apply list_elem_of_here |].
        split; [exact Hc' |]. unfold match_of. rewrite (Heq Hc'). reflexivity.
      * intros q Hq Hmq. apply elem_of_app in Hq as [Hq | Hq].
        -- unfold Py.fgt in *.
           apply (SFltb_le_lt _ (BestMatch.confidence best) c);
             [apply Hmax; assumption | exact Hup |].
           rewrite forallb_forall in Hseen.
           assert (Hdq : decides_above threshold q = true)
             by (apply Hseen, list_elem_of_In; exact Hq).
           unfold decides_above in Hdq.
           apply andb_prop in Hdq as [Hdq _]. apply andb_prop in Hdq as [Hdq _].
           apply negb_true_iff in Hdq. exact Hdq.
        -- apply list_elem_of_singleton in Hq. subst q.
           rewrite <- (Heq Hmq). unfold Py.fgt. apply SFltb_irrefl.
    + split; [exact Hnan |]. split.
      * intros Hb. destruct (Hfrom Hb) as (q & Hq & Hmq & Hbq).
        exists q. split; [apply elem_of_app; left; exact Hq | auto].
      * intros q Hq Hmq. apply elem_of_app in Hq as [Hq | Hq]; [auto |].
        apply list_elem_of_singleton in Hq. subst q.
        rewrite <- (Heq Hmq). exact Hup.
Qed.

(** [_check_patterns] on a table: the best match is above the threshold
    exactly when some regular expression of the table matches; it is
    then the record of a pattern of the table that matches, and no
    matching pattern of the table has a higher confidence. *)
Lemma _check_patterns_best text patterns :
  forallb (decides_above threshold) patterns = true ->
  exists b, _check_patterns text patterns = Py.Ok b /\
    (Py.fgt (BestMatch.confidence b) threshold = true <->
     exists pattern_obj, pattern_obj ∈ patterns /\
       re_search (IntentPattern.pattern pattern_obj) text = true) /\
    (Py.fgt (BestMatch.confidence b) threshold = true ->
     exists pattern_obj, pattern_obj ∈ patterns /\
       re_search (IntentPattern.pattern pattern_obj) text = true /\
       b = match_of pattern_obj) /\
    (forall pattern_obj, pattern_obj ∈ patterns ->
       re_search (IntentPattern.pattern pattern_obj) text = true ->
       Py.fgt (IntentPattern.confidence pattern_obj) (BestMatch.confidence b) = false).
Proof.
  intros Hall. unfold _check_patterns.
  destruct (check_loop_best text patterns Hall []
              {| BestMatch.confidence := Py.f0_0; BestMatch.pattern := None;
                 BestMatch.keywords := [] |} eq_refl) as (b & Hb & Hn & Hfrom & Hmax).
  { split; [reflexivity |]. split.
    - cbn. destruct threshold_cases as [-> | ->]; discriminate.
    - intros q Hq. inversion Hq. }
  cbn [app] in *. exists b. split; [exact Hb |]. split; [| split; assumption].
  split.
  - intros Hgt. destruct (Hfrom Hgt) as (q & Hq & Hmq & _). eauto.
  - intros (q & Hq & Hmq). pose proof (Hmax q Hq Hmq) as Hle.
    rewrite forallb_forall in Hall.
    assert (Hdq : decides_above threshold q = true)
      by (apply Hall, list_elem_of_In; exact Hq).
    unfold decides_above in Hdq.
    apply andb_prop in Hdq as [Hdq _]. apply andb_prop in Hdq as [Hdn Hdq].
    apply negb_true_iff in Hdn. unfold Py.fgt in *.
    exact (SFltb_le_trans _ _ _ Hn Hdn Hdq Hle).
Qed.
End BestMatchFacts.

Section GreatestMatchFacts.
Context `{PyEnv}.
Variable threshold : Py.float.
Hypothesis threshold_cases : threshold = Py.f0_5 \/ threshold = Py.f0_6.

(** The confidences that the patterns of a table yield are numbers. *)
Lemma yields_number text table pattern_obj confidence :
  forallb (decides_above threshold) table = true ->
  yields text table pattern_obj confidence ->
  Py.is_nan confidence = false.
Proof.
  intros Hall [Hin Hc]. rewrite forallb_forall in Hall.
  destruct (pattern_confidence_cases threshold threshold_cases text pattern_obj)
    as (c & Hc' & Hn & _); [apply Hall, list_elem_of_In; exact Hin |].
  congruence.
Qed.

Lemma check_loop_greatest text patterns :
  forall seen best,
    forallb (decides_above threshold) (seen ++ patterns) = true ->
    greatest_of text seen best ->
    exists b, check_loop text patterns best = Py.Ok b /\
      greatest_of text (seen ++ patterns) b.
Proof.
  induction patterns as [| p rest IH]; intros seen best Hall Hbest; simpl.
  - exists best. rewrite app_nil_r. auto.
  - replace (seen ++ p :: rest) with ((seen ++ [p]) ++ rest) in *
      by (rewrite <- app_assoc; reflexivity).
    assert (Hseen : forallb (decides_above threshold) (seen ++ [p]) = true).
    { rewrite forallb_app in Hall. apply andb_prop in Hall as [Hall _]. exact Hall. }
    assert (Hp : decides_above threshold p = true).
    { rewrite forallb_app in Hseen. apply andb_prop in Hseen as [_ Hp].
      simpl in Hp. rewrite andb_true_r in Hp. exact Hp. }
    destruct (pattern_confidence_cases threshold threshold_cases text p Hp)
      as (c & Hc & Hn & _).
    rewrite Hc. simpl. apply IH; [exact Hall |].
    destruct Hbest as (Hnan & Hmax & Hfrom).
    destruct (Py.fgt c (BestMatch.confidence best)) eqn:Hup.
    + split; [exact Hn |]. cbn [BestMatch.confidence BestMatch.pattern BestMatch.keywords].
      split.
      * intros q cq [Hq Hcq]. apply elem_of_app in Hq as [Hq | Hq].
        -- unfold Py.fgt in *.
           apply (SFltb_le_lt _ (BestMatch.confidence best) c);
             [apply (Hmax q cq); split; assumption | exact Hup |].
           apply (yields_number text (seen ++ [p]) q cq Hseen).
           split; [apply elem_of_app; left; exact Hq | exact Hcq].
        -- apply list_elem_of_singleton in Hq. subst q.
           assert (cq = c) by congruence. subst cq.
           unfold Py.fgt. apply SFltb_irrefl.
      * right. exists p. split; [| split; reflexivity].
        split; [apply elem_of_app; right; apply list_elem_of_here | exact Hc].
    + split; [exact Hnan |]. split.
      * intros q cq [Hq Hcq]. apply elem_of_app in Hq as [Hq | Hq].
        -- apply (Hmax q cq). split; assumption.
        -- apply list_elem_of_singleton in Hq. subst q.
           assert (cq = c) by congruence. subst cq. exact Hup.
      * destruct Hfrom as [-> | (q & [Hq Hcq] & Hpq & Hkq)]; [left; reflexivity |].
        right. exists q. split; [| split; assumption].
        split; [apply elem_of_app; left; exact Hq | exact Hcq].
Qed.

(** [_check_patterns] on a table: its result is above the threshold
    exactly when the best-matching pattern of the table yields more than
    the threshold, and it is then the record of that pattern. *)
Lemma _check_patterns_greatest text table :
  forallb (decides_above threshold) table = true ->
  exists b, _check_patterns text table = Py.Ok b /\
    Py.is_nan (BestMatch.confidence b) = false /\
    (Py.fgt (BestMatch.confidence b) threshold = true <->
     exists pattern_obj confidence,
       best_matching text table pattern_obj confidence /\
       Py.fgt confidence threshold = true) /\
    (Py.fgt (BestMatch.confidence b) threshold = true ->
     exists pattern_obj,
       best_matching text table pattern_obj (BestMatch.confidence b) /\
       BestMatch.pattern b = Some (IntentPattern.pattern pattern_obj) /\
       BestMatch.keywords b = IntentPattern.keywords pattern_obj) /\
    (Py.fgt (BestMatch.confidence b) threshold = false ->
     forall pattern_obj confidence, yields text table pattern_obj confidence ->
       Py.fgt confidence threshold = false).
Proof.
  intros Hall. unfold _check_patterns.
  destruct (check_loop_greatest text table [] no_match Hall)
    as (b & Hb & Hnan & Hmax & Hfrom).
  { split; [reflexivity |]. split; [| left; reflexivity].
    intros q cq [Hq _]. inversion Hq. }
  cbn [app] in *. exists b. split; [exact Hb |]. split; [exact Hnan |].
  assert (Hgt : Py.fgt (BestMatch.confidence b) threshold = true ->
            exists pattern_obj,
              best_matching text table pattern_obj (BestMatch.confidence b) /\
              BestMatch.pattern b = Some (IntentPattern.pattern pattern_obj) /\
              BestMatch.keywords b = IntentPattern.keywords pattern_obj).
  { intros Hg. destruct Hfrom as [-> | (q & Hq & Hpq & Hkq)].
    - exfalso. cbn in Hg. destruct threshold_cases as [-> | ->]; discriminate.
    - exists q. split; [| split; assumption]. split; [exact Hq | exact Hmax]. }
  assert (Hle : forall pattern_obj confidence,
            yields text table pattern_obj confidence ->
            Py.fgt confidence threshold = true ->
            Py.fgt (BestMatch.confidence b) threshold = true).
  { intros q cq Hq Hg. unfold Py.fgt in *.
    apply (SFltb_le_trans threshold (BestMatch.confidence b) cq);
      [exact Hnan | apply (yields_number text table q cq Hall Hq) | exact Hg |].
    apply (Hmax q cq Hq). }
  split; [| split; [exact Hgt |]].
  - split.
    + intros Hg. destruct (Hgt Hg) as (q & Hq & _). eauto.
    + intros (q & cq & [Hq _] & Hg). exact (Hle q cq Hq Hg).
  - intros Hng q cq Hq. destruct (Py.fgt cq threshold) eqn:Hg; [| reflexivity].
    rewrite (Hle q cq Hq Hg) in Hng. discriminate.
Qed.
End GreatestMatchFacts.

Section ClassifierClaim.
Context `{PyEnv}.

Local Opaque _check_patterns.

(** C6. [classify_intent] returns for every text, with intent "command"
    or "educational" and a confidence of at least 0.5.  The intent is
    "command" exactly when the best-matching command pattern, the one
    that yields a confidence that no command pattern exceeds, yields
    more than 0.6, which it does exactly when the regular expression of
    some command pattern matches; the result then carries the
    confidence, the pattern and the keywords of that pattern.  When no
    command pattern yields more than 0.6 the result is "educational":
    with the confidence and the pattern of the best-matching educational
    pattern when that yields more than 0.5, and with confidence 0.5, no
    matched pattern and no keywords when no educational pattern yields
    more than 0.5. *)
Theorem classify_intent_total_two_valued (text : string) :
  let text_lower := Py.strip (Py.lower text) in
  let exceeds (table : list IntentPattern.t) (threshold : Py.float) :=
    exists pattern_obj confidence,
      yields text_lower table pattern_obj confidence /\
      Py.fgt confidence threshold = true in
  let carries (table : list IntentPattern.t) (r : IntentResult.t) :=
    exists pattern_obj,
      best_matching text_lower table pattern_obj (IntentResult.confidence r) /\
      IntentResult.matched_pattern r = Some (IntentPattern.pattern pattern_obj) /\
      IntentResult.keywords r = IntentPattern.keywords pattern_obj in
  exists r,
    classify_intent text = Py.Ok r /\
    (IntentResult.intent r = "command" \/ IntentResult.intent r = "educational") /\
    Py.fge (IntentResult.confidence r) Py.f0_5 = true /\
    (IntentResult.intent r = "command" <->
     exists pattern_obj confidence,
       best_matching text_lower command_patterns pattern_obj confidence /\
       Py.fgt confidence Py.f0_6 = true) /\
    (IntentResult.intent r = "command" <->
     exists pattern_obj, pattern_obj ∈ command_patterns /\
       re_search (IntentPattern.pattern pattern_obj) text_lower = true) /\
    (IntentResult.intent r = "command" -> carries command_patterns r) /\
    (~ exceeds command_patterns Py.f0_6 ->
     IntentResult.intent r = "educational" /\
     (exceeds educational_patterns Py.f0_5 -> carries educational_patterns r) /\
     (~ exceeds educational_patterns Py.f0_5 ->
      IntentResult.confidence r = Py.f0_5 /\
      IntentResult.matched_pattern r = None /\
      IntentResult.keywords r = [])).
Proof.
  intros text_lower exceeds carries. subst exceeds carries. cbn beta.
  unfold classify_intent. fold text_lower.
  destruct (_check_patterns_greatest Py.f0_6 (or_intror eq_refl) text_lower
              command_patterns command_patterns_decide)
    as (cr & Hcr & _ & Hciff & Hcfrom & Hcnone).
  destruct (_check_patterns_best Py.f0_6 (or_intror eq_refl) text_lower command_patterns
              command_patterns_decide) as (cr' & Hcr' & Hcre & _).
  assert (cr' = cr) by congruence. subst cr'. clear Hcr'.
  destruct (_check_patterns_greatest Py.f0_5 (or_introl eq_refl) text_lower
              educational_patterns educational_patterns_decide)
    as (er & Her & _ & Heiff & Hefrom & Henone).
  rewrite Hcr. cbn [mbind Py.result_bind Py.bind].
  destruct (Py.fgt (BestMatch.confidence cr) Py.f0_6) eqn:Ec.
  - eexists. split; [reflexivity |]. cbn.
    split; [left; reflexivity |].
    split; [apply above_0_6_above_0_5; exact Ec |].
    split; [split; [intros _; apply Hciff; reflexivity | reflexivity] |].
    split; [split; [intros _; apply Hcre; reflexivity | reflexivity] |].
    split; [intros _; apply Hcfrom; reflexivity |].
    intros Hn. exfalso. apply Hn.
    destruct (proj1 Hciff eq_refl) as (p & c & [Hy _] & Hg). eauto.
  - assert (Hnc : ~ exists p c, yields text_lower command_patterns p c /\
                    Py.fgt c Py.f0_6 = true).
    { intros (p & c & Hy & Hg). rewrite (Hcnone eq_refl p c Hy) in Hg. discriminate. }
    rewrite Her. cbn [mbind Py.result_bind Py.bind].
    destruct (Py.fgt (BestMatch.confidence er) Py.f0_5) eqn:Ee.
    + eexists. split; [reflexivity |]. cbn.
      split; [right; reflexivity |].
      split; [apply flt_fle; exact Ee |].
      split; [split; [discriminate | intros Hex; apply Hciff in Hex; discriminate] |].
      split; [split; [discriminate | intros Hex; apply Hcre in Hex; discriminate] |].
      split; [discriminate |].
      intros _. split; [reflexivity |]. split.
      * intros _. apply Hefrom. reflexivity.
      * intros Hn. exfalso. apply Hn.
        destruct (proj1 Heiff eq_refl) as (p & c & [Hy _] & Hg). eauto.
    + eexists. split; [reflexivity |]. cbn.
      split; [right; reflexivity |].
      split; [reflexivity |].
      split; [split; [discriminate | intros Hex; apply Hciff in Hex; discriminate] |].
      split; [split; [discriminate | intros Hex; apply Hcre in Hex; discriminate] |].
      split; [discriminate |].
      intros _. split; [reflexivity |]. split.
      * intros (p & c & Hy & Hg). rewrite (Henone eq_refl p c Hy) in Hg. discriminate.
      * intros _. auto.
Qed.
End ClassifierClaim.


Section ClassifierTheorems.
Context `{PyEnv}.

Local Opaque _check_patterns.

(** X12. The regular expressions decide the classification; the keyword
    lists never do.  The intent is "command" exactly when the regular
    expression of some command pattern matches the lowered, stripped
    text; the result then carries the confidence, the pattern and the
    keywords of a matching command pattern, and no matching command
    pattern has a higher confidence.  Otherwise the same holds with the
    educational patterns and the intent "educational" when one of their
    regular expressions matches, and the result is the default
    (educational, 0.5, no pattern, no keywords) when none does. *)
Theorem classify_intent_by_regex (text : string) :
  let text_lower := Py.strip (Py.lower text) in
  let matching (table : list IntentPattern.t) (pattern_obj : IntentPattern.t) :=
    pattern_obj ∈ table /\
    re_search (IntentPattern.pattern pattern_obj) text_lower = true in
  let best_in (table : list IntentPattern.t) (r : IntentResult.t) :=
    exists pattern_obj, matching table pattern_obj /\
      IntentResult.confidence r = IntentPattern.confidence pattern_obj /\
      IntentResult.matched_pattern r = Some (IntentPattern.pattern pattern_obj) /\
      IntentResult.keywords r = IntentPattern.keywords pattern_obj /\
      forall other, matching table other ->
        Py.fgt (IntentPattern.confidence other) (IntentResult.confidence r) = false in
  exists r, classify_intent text = Py.Ok r /\
    (IntentResult.intent r = "command" <-> exists p, matching command_patterns p) /\
    ((exists p, matching command_patterns p) -> best_in command_patterns r) /\
    (~ (exists p, matching command_patterns p) ->
     (exists p, matching educational_patterns p) ->
     IntentResult.intent r = "educational" /\ best_in educational_patterns r) /\
    (~ (exists p, matching command_patterns p) ->
     ~ (exists p, matching educational_patterns p) ->
     IntentResult.intent r = "educational" /\
     IntentResult.confidence r = Py.f0_5 /\
     IntentResult.matched_pattern r = None /\
     IntentResult.keywords r = []).
Proof.
  intros text_lower matching best_in. subst matching best_in. cbn beta.
  unfold classify_intent. fold text_lower.
  destruct (_check_patterns_best Py.f0_6 (or_intror eq_refl) text_lower command_patterns
              command_patterns_decide) as (cr & -> & Hc & Hcfrom & Hcmax).
  destruct (_check_patterns_best Py.f0_5 (or_introl eq_refl) text_lower
              educational_patterns educational_patterns_decide)
    as (er & Her & He & Hefrom & Hemax).
  cbn [mbind Py.result_bind Py.bind].
  destruct (Py.fgt (BestMatch.confidence cr) Py.f0_6) eqn:Ec.
  - destruct (Hcfrom eq_refl) as (p & Hp & Hm & ->).
    eexists. split; [reflexivity |]. cbn.
    split; [split; [intros _; apply Hc; reflexivity | reflexivity] |].
    split; [| split].
    + intros _. exists p. repeat split; auto. intros other [Ho Hmo]. apply Hcmax; assumption.
    + intros Hn. exfalso. apply Hn. apply Hc. reflexivity.
    + intros Hn. exfalso. apply Hn. apply Hc. reflexivity.
  - assert (Hnc : ~ exists p, p ∈ command_patterns /\
                    re_search (IntentPattern.pattern p) text_lower = true).
    { intros Hex. apply Hc in Hex. discriminate. }
    rewrite Her. cbn [mbind Py.result_bind Py.bind].
    destruct (Py.fgt (BestMatch.confidence er) Py.f0_5) eqn:Ee.
    + destruct (Hefrom eq_refl) as (p & Hp & Hm & ->).
      eexists. split; [reflexivity |]. cbn.
      split; [split; [discriminate | intros Hex; contradiction] |].
      split; [intros Hex; contradiction |]. split.
      * intros _ _. split; [reflexivity |]. exists p. repeat split; auto.
        intros other [Ho Hmo]. apply Hemax; assumption.
      * intros _ Hn. exfalso. apply Hn. apply He. reflexivity.
    + eexists. split; [reflexivity |]. cbn.
      split; [split; [discriminate | intros Hex; contradiction] |].
      split; [intros Hex; contradiction |]. split.
      * intros _ Hex. apply He in Hex. discriminate.
      * intros _ _. auto.
Qed.
End ClassifierTheorems.

(* ===================================================================== *)
(** * Math commands and the tracker *)
(* ===================================================================== *)

Section MathOutcomeFacts.
Context `{PyEnv}.

Ltac logged :=
  conversions; run_tracker;
  match goal with
  | |- context [log_progress ?a ?b ?c (Py.Ok ?d) ?w0] =>
      let w' := fresh "w'" in
      let E := fresh "E" in
      destruct (log_progress_returns a b c d w0) as (w' & E);
      rewrite E; run_tracker; unfold math_outcome; cbn [fst snd CommandResult.success];
      eexists; exact E
  end.

Lemma _handle_addition_outcome learning_tracker numbers grade_level text (w : World) :
  math_outcome learning_tracker "math_addition" text w
    (_handle_addition learning_tracker numbers grade_level text w).
Proof.
  unfold _handle_addition.
  destruct (length numbers <? 2)%nat; [unfold math_outcome; cbn; auto |].
  run_tracker.
  destruct (sum numbers) as [result | e]; run_tracker;
    [| unfold math_outcome; cbn; reflexivity].
  destruct (_create_addition_explanation_cases numbers result
              (grade_approach grade_level) grade_level)
    as [(explanation & -> & Hn & Hr) | ->]; run_tracker;
    [| unfold math_outcome; cbn; reflexivity].
  destruct (_create_addition_scene _ _ _) as [scene | e]; run_tracker;
    [| unfold math_outcome; cbn; reflexivity].
  destruct (display result) as [cv | e]; run_tracker;
    [| unfold math_outcome; cbn; reflexivity].
  logged.
Qed.

Lemma _handle_subtraction_outcome learning_tracker numbers grade_level text (w : World) :
  math_outcome learning_tracker "math_subtraction" text w
    (_handle_subtraction learning_tracker numbers grade_level text w).
Proof.
  unfold _handle_subtraction.
  destruct (length numbers <? 2)%nat; [unfold math_outcome; cbn; auto |].
  destruct numbers as [| n0 rest]; run_tracker; [unfold math_outcome; cbn; reflexivity |].
  destruct (accumulate Py.sub n0 rest) as [result | e]; run_tracker;
    [| unfold math_outcome; cbn; reflexivity].
  destruct (_create_subtraction_explanation_cases n0 rest result
              (grade_approach grade_level) grade_level)
    as [(explanation & -> & Hn & Hr) | ->]; run_tracker;
    [| unfold math_outcome; cbn; reflexivity].
  destruct (_create_subtraction_scene _ _ _) as [scene | e]; run_tracker;
    [| unfold math_outcome; cbn; reflexivity].
  destruct (display result) as [cv | e]; run_tracker;
    [| unfold math_outcome; cbn; reflexivity].
  logged.
Qed.

Lemma _handle_multiplication_outcome learning_tracker numbers grade_level text (w : World) :
  math_outcome learning_tracker "math_multiplication" text w
    (_handle_multiplication learning_tracker numbers grade_level text w).
Proof.
  unfold _handle_multiplication.
  destruct (length numbers <? 2)%nat; [unfold math_outcome; cbn; auto |].
  run_tracker.
  destruct (accumulate Py.mul (Py.Int 1) numbers) as [result | e]; run_tracker;
    [| unfold math_outcome; cbn; reflexivity].
  destruct (_create_multiplication_explanation_cases numbers result
              (grade_approach grade_level) grade_level)
    as [(explanation & -> & Hn & Hr) | ->]; run_tracker;
    [| unfold math_outcome; cbn; reflexivity].
  destruct (_create_multiplication_scene _ _ _) as [scene | e]; run_tracker;
    [| unfold math_outcome; cbn; reflexivity].
  destruct (display result) as [cv | e]; run_tracker;
    [| unfold math_outcome; cbn; reflexivity].
  logged.
Qed.

Lemma _handle_division_outcome learning_tracker numbers grade_level text (w : World) :
  math_outcome learning_tracker "math_division" text w
    (_handle_division learning_tracker numbers grade_level text w).
Proof.
  unfold _handle_division.
  destruct (length numbers <? 2)%nat; [unfold math_outcome; cbn; auto |].
  destruct (existsb _ (tail numbers)); [unfold math_outcome; cbn; auto |].
  destruct numbers as [| n0 rest]; run_tracker; [unfold math_outcome; cbn; reflexivity |].
  destruct (accumulate Py.truediv n0 rest) as [result | e]; run_tracker;
    [| unfold math_outcome; cbn; reflexivity].
  destruct (tidy result) as [result' | e]; run_tracker;
    [| unfold math_outcome; cbn; reflexivity].
  destruct (_create_division_explanation_cases (n0 :: rest) result'
              (grade_approach grade_level) grade_level)
    as [(explanation & -> & Hn & Hr) | ->]; run_tracker;
    [| unfold math_outcome; cbn; reflexivity].
  destruct (_create_division_scene _ _ _) as [scene | e]; run_tracker;
    [| unfold math_outcome; cbn; reflexivity].
  logged.
Qed.

(** [execute] never raises: what a handler raises becomes a failure
    dict. *)
Lemma execute_outcome learning_tracker command_type text (w : World) :
  exists r w',
    execute learning_tracker command_type text w = (Py.Ok r, w') /\
    math_outcome learning_tracker command_type text w (Py.Ok r, w').
Proof.
  unfold execute, try_with.
  set (numbers := _extract_numbers text).
  set (grade_level := _determine_grade_level text numbers).
  assert (Hcase : forall kind (out : Py.result CommandResult.t * World),
            math_outcome learning_tracker kind text w out ->
            command_type = kind ->
            exists r w',
              (let (r0, w'0) := out in
               match r0 with
               | Py.Ok a => (Py.Ok a, w'0)
               | Py.Raise e =>
                   (Py.Ok (failure ("Error in math calculation: " +:+ exn_text e)), w'0)
               end) = (Py.Ok r, w') /\
              math_outcome learning_tracker command_type text w (Py.Ok r, w')).
  { intros kind [[r | e] w'] Hout ->; unfold math_outcome in *; cbn in *.
    - eauto.
    - subst w'. eexists. eexists. split; [reflexivity |]. cbn. auto. }
  destruct (String.eqb_spec command_type "math_addition") as [E | _];
    [exact (Hcase _ _ (_handle_addition_outcome _ _ _ _ _) E) |].
  destruct (String.eqb_spec command_type "math_subtraction") as [E | _];
    [exact (Hcase _ _ (_handle_subtraction_outcome _ _ _ _ _) E) |].
  destruct (String.eqb_spec command_type "math_multiplication") as [E | _];
    [exact (Hcase _ _ (_handle_multiplication_outcome _ _ _ _ _) E) |].
  destruct (String.eqb_spec command_type "math_division") as [E | _];
    [exact (Hcase _ _ (_handle_division_outcome _ _ _ _ _) E) |].
  run_tracker. eexists. eexists. split; [reflexivity |].
  unfold math_outcome. cbn. auto.
Qed.

(** What a math handler logs on a success: the topic "math" is marked
    and one interaction of the kind of the command is logged. *)
Lemma log_progress_effect kind text solved (w : World) :
  exists w' p' s' t,
    log_progress true kind text (Py.Ok solved) w = (Py.Ok tt, w') /\
    current_session (self w') = Some s' /\
    student_profile (self w') = Some p' /\
    profile_file (disk w') = Doc (profile_to_json p') /\
    sessions_file (disk w') = sessions_file (disk w) /\
    temp_progress_file (disk w') = temp_progress_file (disk w) /\
    answers_kept (student_profile (self w)) (Some p') /\
    is_Some (topics p' !! "math") /\
    interactions s' =
      from_option interactions [] (current_session (self w)) ++
      [JObj [("timestamp", JStr (isoformat t)); ("type", JStr kind);
             ("input", JStr text); ("response", JStr solved);
             ("success", JBool true)]] /\
    questions_asked (performance_metrics s') =
      from_option (fun s => questions_asked (performance_metrics s)) 0
        (current_session (self w)) + 1.
Proof.
  unfold log_progress. run_tracker.
  destruct (mark_topic_encountered_effect "math" w)
    as (w1 & p1 & -> & Hs1 & Hp1 & Hf1 & Hsf1 & Htf1 & Hk1 & _ & Hm1).
  destruct (log_interaction_effect kind text solved w1)
    as (w2 & s0 & s2 & t & -> & Hs0 & Hs2 & Hp2 & Hd2 & Hi2 & Hrest).
  cbn zeta in Hrest. destruct Hrest as (_ & Hq2 & _).
  exists w2, p1, s2, t. split; [reflexivity |]. split; [exact Hs2 |].
  rewrite Hp2, Hd2. do 5 (split; [assumption |]).
  split.
  { destruct (student_profile (self w) ≫= _) as [tp |]; [eauto |].
    destruct Hm1 as (t1 & t2 & ->). eauto. }
  rewrite <- Hs1. rewrite Hi2, Hq2.
  destruct Hs0 as [-> | (-> & _ & -> & ->)]; cbn; auto.
Qed.
End MathOutcomeFacts.

Section MathCommandTheorems.
Context `{PyEnv}.

(** [execute] with a tracker: a failure changes nothing, a success
    logs one interaction. *)
Lemma execute_logs_once (command_type text : string) (w : World) :
  exists r w',
    execute true command_type text w = (Py.Ok r, w') /\
    (CommandResult.success r = false -> w' = w) /\
    (CommandResult.success r = true ->
     answers_kept (student_profile (self w)) (student_profile (self w')) /\
     exists s' entry,
       current_session (self w') = Some s' /\
       interactions s' =
         from_option interactions [] (current_session (self w)) ++ [JObj entry] /\
       dict_get "type" entry = Some (JStr command_type) /\
       questions_asked (performance_metrics s') =
         from_option (fun s => questions_asked (performance_metrics s)) 0
           (current_session (self w)) + 1).
Proof.
  destruct (execute_outcome true command_type text w) as (r & w' & -> & Hout).
  exists r, w'. split; [reflexivity |]. unfold math_outcome in Hout.
  cbn [fst snd] in Hout.
  destruct (CommandResult.success r).
  - split; [discriminate |]. intros _. destruct Hout as (solved & Hlog).
    destruct (log_progress_effect command_type text solved w)
      as (w2 & p' & s' & t & Hlog' & Hs & Hp & Hf & Hsf & Htf & Hk & Hm & Hi & Hq).
    rewrite Hlog in Hlog'. injection Hlog' as <-.
    rewrite Hp. split; [assumption |]. exists s'. eexists.
    split; [assumption |]. split; [exact Hi |]. split; [reflexivity | exact Hq].
  - split; [intros _; apply Hout | discriminate].
Qed.

End MathCommandTheorems.

(* ===================================================================== *)
(** * The command executor and the core agent *)
(* ===================================================================== *)

(** Substrings. *)
Lemma prefix_app a s : String.prefix a s = true <-> exists post, s = a +:+ post.
Proof.
  revert s. induction a as [| c a IH]; intros s.
  - split; [intros _; exists s; reflexivity | intros _; destruct s; reflexivity].
  - destruct s as [| c' s]; simpl.
    + split; [discriminate | intros [post Hp]; discriminate].
    + destruct (Ascii.ascii_dec c c') as [-> | Hne].
      * rewrite IH. split; intros [post Hp]; exists post; [rewrite Hp; reflexivity |].
        injection Hp as ->. reflexivity.
      * split; [discriminate |]. intros [post Hp]. injection Hp as -> _. contradiction.
Qed.

Lemma contains_app sub s :
  Py.contains sub s = true <-> exists pre post, s = pre +:+ sub +:+ post.
Proof.
  induction s as [| c s IH]; cbn [Py.contains].
  - rewrite orb_false_r, prefix_app. split.
    + intros [post Hp]. exists "", post. exact Hp.
    + intros (pre & post & Hp). destruct pre; [exists post; exact Hp |]. discriminate.
  - rewrite orb_true_iff, IH, prefix_app. split.
    + intros [[post Hp] | (pre & post & Hp)].
      * exists "", post. exact Hp.
      * exists (String c pre), post. simpl. rewrite Hp. reflexivity.
    + intros (pre & post & Hp). destruct pre as [| c' pre].
      * left. exists post. exact Hp.
      * right. simpl in Hp. injection Hp as _ ->. eauto.
Qed.

Lemma append_assoc (a b c : string) : (a +:+ b) +:+ c = a +:+ (b +:+ c).
Proof.
  induction a as [| x a IH]; [reflexivity |].
  change (String x ((a +:+ b) +:+ c) = String x (a +:+ (b +:+ c))).
  f_equal. exact IH.
Qed.

Lemma contains_trans a b s :
  Py.contains a b = true -> Py.contains b s = true -> Py.contains a s = true.
Proof.
  rewrite !contains_app. intros (p1 & q1 & ->) (p2 & q2 & ->).
  exists (p2 +:+ p1), (q1 +:+ q2). rewrite !append_assoc. reflexivity.
Qed.

Section ExecutorTheorems.
Context `{PyEnv}.
Variable camera_execute learning_execute general_execute :
  string -> string -> IntentResult.t -> M CommandResult.t.

(** X14. A text with "deactivate" and "cam" switches the camera on: the
    words that switch it on are looked for first, and "activate" is a
    part of "deactivate". *)
Theorem deactivate_turns_camera_on (text : string) :
  Py.contains "deactivate" (Py.lower text) = true ->
  Py.contains "cam" (Py.lower text) = true ->
  get_command_type text = Some "camera_on".
Proof.
  intros Hd Hc. unfold get_command_type, any_in. cbn [existsb].
  rewrite Hc. rewrite (contains_trans "activate" "deactivate" _ eq_refl Hd).
  rewrite !orb_true_r. reflexivity.
Qed.

(** The command types that [get_command_type] finds, and the branch
    of [execute_command] that each of them takes. *)
Lemma get_command_type_cases (text command_type : string) :
  get_command_type text = Some command_type ->
  command_type ∈ ["camera_on"; "camera_off"; "take_photo"; "math_addition";
                  "math_subtraction"; "math_multiplication"; "math_division";
                  "draw_apple"; "draw_circle"; "clear_board"; "set_timer";
                  "get_weather"] /\
  command_type <> "" /\
  branch_of command_type <> LearningBranch /\
  branch_of command_type <> FallbackBranch /\
  (branch_of command_type = MathBranch <->
   String.prefix "math_" command_type = true).
Proof.
  unfold get_command_type.
  repeat match goal with
         | |- context [if ?b then _ else _] => destruct b
         end;
    cbn; intros [= <-];
    (split; [repeat first [apply list_elem_of_here | apply list_elem_of_further] |]);
    (split; [discriminate |]);
    (split; [vm_compute; discriminate |]); (split; [vm_compute; discriminate |]);
    vm_compute; split; intros Hx; first [reflexivity | discriminate Hx].
Qed.

(** X15. No text reaches the learning module or the fallback branch of
    [execute_command].  Every command type that [get_command_type]
    finds is one of twelve names, none of them empty, and each is sent
    to the math, the camera or the general module through an explicit
    branch, to the math module exactly when its name starts with
    "math_"; so what [execute_command] does never depends on the
    [execute] of the learning module. *)
Theorem known_command_types_are_dispatched (learning_tracker : bool) (text : string)
  (intent_result : IntentResult.t) :
  (forall command_type, get_command_type text = Some command_type ->
     command_type ∈ ["camera_on"; "camera_off"; "take_photo"; "math_addition";
                     "math_subtraction"; "math_multiplication"; "math_division";
                     "draw_apple"; "draw_circle"; "clear_board"; "set_timer";
                     "get_weather"] /\
     command_type <> "" /\
     branch_of command_type <> LearningBranch /\
     branch_of command_type <> FallbackBranch /\
     (module_of (branch_of command_type) = MathCommands <->
      String.prefix "math_" command_type = true)) /\
  forall (other_learning_execute : string -> string -> IntentResult.t -> M CommandResult.t)
         (w : World),
    execute_command camera_execute learning_execute general_execute
      learning_tracker text intent_result w =
    execute_command camera_execute other_learning_execute general_execute
      learning_tracker text intent_result w.
Proof.
  split.
  - intros command_type Hct.
    destruct (get_command_type_cases text command_type Hct) as (Hin & Hne & Hl & Hf & Hm).
    do 4 (split; [assumption |]). rewrite <- Hm.
    destruct (branch_of command_type); cbn; split; congruence.
  - intros other w. unfold execute_command, try_with.
    destruct (get_command_type text) as [command_type |] eqn:Hct; [| reflexivity].
    destruct (get_command_type_cases text command_type Hct) as (_ & _ & Hl & _).
    destruct (String.eqb command_type ""); [reflexivity |].
    destruct (branch_of command_type); first [reflexivity | contradiction].
Qed.
End ExecutorTheorems.

Section CoreAgentTheorems.
Context `{PyEnv}.
Variable camera_execute learning_execute general_execute :
  string -> string -> IntentResult.t -> M CommandResult.t.

(** X16. A math command that succeeds is logged twice.  For a text that
    [get_command_type] takes for a math command, whatever the other
    modules are, [_handle_command] either falls back to the educational
    path with the tracker untouched (the command failed), or answers
    with the result of the command after two interactions were logged,
    one of the type of the command by the math module and one of type
    "command" by the agent: [questions_asked] goes up by 2. *)
Theorem math_command_is_logged_twice (text : string) (intent_result : IntentResult.t)
  (command_type : string) (w : World) :
  get_command_type text = Some command_type ->
  String.prefix "math_" command_type = true ->
  exists handling w',
    _handle_command camera_execute learning_execute general_execute
      true text intent_result w = (Py.Ok handling, w') /\
    match handling with
    | EducationalFallback text' intent_result' =>
        text' = text /\ intent_result' = intent_result /\ w' = w
    | CommandResponse question explanation scene final_answer =>
        question = text /\
        fst (execute true command_type text w) =
          Py.Ok {| CommandResult.success := true;
                   CommandResult.response := explanation;
                   CommandResult.scene := scene;
                   CommandResult.final_answer := final_answer |} /\
        exists s' first second,
          current_session (self w') = Some s' /\
          interactions s' =
            from_option interactions [] (current_session (self w)) ++
            [JObj first; JObj second] /\
          dict_get "type" first = Some (JStr command_type) /\
          dict_get "type" second = Some (JStr "command") /\
          dict_get "response" second = Some (JStr explanation) /\
          questions_asked (performance_metrics s') =
            from_option (fun s => questions_asked (performance_metrics s)) 0
              (current_session (self w)) + 2 /\
          answers_kept (student_profile (self w)) (student_profile (self w'))
    end.
Proof.
  intros Hct Hmath.
  assert (Hne : String.eqb command_type "" = false).
  { destruct command_type; [discriminate | reflexivity]. }
  unfold _handle_command, execute_command, try_with. rewrite Hct, Hne.
  unfold branch_of. rewrite Hmath. run_tracker.
  destruct (execute_logs_once command_type text w)
    as (r & w1 & Hrun & Hfail & Hok).
  rewrite Hrun. destruct r as [[|] response scene final_answer];
    cbn [CommandResult.success CommandResult.response CommandResult.scene
         CommandResult.final_answer] in *.
  - destruct (Hok eq_refl) as (Hk & s1 & entry & Hs1 & Hi1 & Ht1 & Hq1).
    destruct (log_interaction_effect "command" text response w1)
      as (w2 & s0 & s2 & t & Hlog & Hs0 & Hs2 & Hp2 & _ & Hi2 & Hrest).
    cbn zeta in Hrest. destruct Hrest as (_ & Hq2 & _).
    rewrite Hlog. run_tracker. eexists. eexists. split; [reflexivity |].
    split; [reflexivity |]. split; [reflexivity |].
    destruct Hs0 as [Hs0 | [Hs0 _]]; [| congruence].
    rewrite Hs1 in Hs0. injection Hs0 as <-.
    exists s2. eexists. eexists. split; [exact Hs2 |].
    split; [rewrite Hi2, Hi1, <- app_assoc; reflexivity |].
    split; [exact Ht1 |]. split; [reflexivity |]. split; [reflexivity |].
    split; [rewrite Hq2, Hq1; lia |]. rewrite Hp2. exact Hk.
  - rewrite (Hfail eq_refl). run_tracker.
    eexists. eexists. split; [reflexivity |]. cbn. auto.
Qed.
End CoreAgentTheorems.

Section AssessmentTheorems.
Context `{PyEnv}.
Variable extract_topic : string -> Py.result (option string).

End AssessmentTheorems.

Section GradeTheorems.
Context `{PyEnv}.

(** X18. The grade level that [_determine_grade_level] gives is always a
    key of [grade_approaches]: the handlers never fall back on the
    default of their lookup, and "sixth_grade" comes from the text only,
    never from the size of the numbers. *)
Theorem grade_level_is_known (text : string) (numbers : list Py.number) :
  let grade_level := _determine_grade_level text numbers in
  (exists approach,
     (grade_level, approach) ∈ grade_approaches /\
     grade_approach grade_level = approach) /\
  (grade_level = "sixth_grade" ->
   re_search "sixth|6th|grade 6" (Py.lower text) = true).
Proof.
  cbn zeta. unfold _determine_grade_level.
  assert (Hkey : forall g, g ∈ grade_approaches.*1 ->
            exists approach, (g, approach) ∈ grade_approaches /\
              grade_approach g = approach).
  { intros g Hg. unfold grade_approaches in Hg. cbn in Hg.
    repeat (apply elem_of_cons in Hg as [-> | Hg];
            [eexists; split; [| reflexivity];
             repeat first [apply list_elem_of_here | apply list_elem_of_further] |]).
    inversion Hg. }
  destruct (List.find _ grade_patterns) as [entry |] eqn:E.
  - apply List.find_some in E as [Hin Hm].
    unfold grade_patterns in Hin. cbn [In] in Hin.
    repeat (destruct Hin as [<- | Hin];
            [split; [apply Hkey; cbn;
                     repeat first [apply list_elem_of_here | apply list_elem_of_further]
                    | cbn; intros; first [discriminate | assumption]] |]).
    contradiction.
  - destruct (Py.abs <$> numbers) as [| a rest];
      [split; [apply Hkey; cbn;
               repeat first [apply list_elem_of_here | apply list_elem_of_further]
              | discriminate] |].
    repeat match goal with
           | |- context [if ?b then _ else _] => destruct b
           end;
      (split; [apply Hkey; cbn;
               repeat first [apply list_elem_of_here | apply list_elem_of_further]
              | discriminate]).
Qed.
End GradeTheorems.

(* ===================================================================== *)
(** * What a new process finds *)
(* ===================================================================== *)

Section RestartTheorems.
Context `{PyEnv}.


End RestartTheorems.

(* ===================================================================== *)
(** * The theorems at concrete inputs *)
(* ===================================================================== *)


Lemma process_text_input_routes_witness :
  exists intent_result,
    @process_text_input sample_env "add 2 and 3" = HandleCommand "add 2 and 3" intent_result /\
    exists other,
      @process_text_input sample_env "draw an apple" =
        HandleEducationalQuery "draw an apple" other /\
      IntentResult.intent other = "command".
Proof.
  destruct (@process_text_input_routes sample_env "add 2 and 3") as (r & Hr & Hroute).
  destruct (@process_text_input_routes sample_env "draw an apple") as (r' & Hr' & Hroute').
  vm_compute in Hr. injection Hr as <-.
  vm_compute in Hr'. injection Hr' as <-.
  eexists. split; [vm_compute; reflexivity |].
  eexists. split; vm_compute; reflexivity.
Defined.

Lemma classify_intent_total_two_valued_witness :
  exists r, @classify_intent sample_env "add 2 and 3" = Py.Ok r /\
    IntentResult.intent r = "command" /\
    Py.fge (IntentResult.confidence r) Py.f0_5 = true.
Proof.
  destruct (@classify_intent_total_two_valued sample_env "add 2 and 3")
    as (r & Hr & _ & Hconf & _ & Hre & _).
  exists r. split; [exact Hr |]. split; [| exact Hconf].
  apply Hre. eexists. split.
  - do 3 apply list_elem_of_further. apply list_elem_of_here.
  - vm_compute. reflexivity.
Defined.

Lemma end_current_session_appends_witness :
  let w := sample_world (Some sample_session) (Some (sample_profile 4 1))
             (Doc (JList (replicate 50 JNull))) in
  exists w' log,
    @end_current_session sample_env w = (Py.Ok tt, w') /\
    sessions_file (disk w') = Doc (JList log) /\
    last log = Some (@session_to_json sample_env
                       (@set_end_time sample_env (Some "T0") sample_session)) /\
    (length log <= 50)%nat.
Proof.
  intros w.
  destruct (@end_current_session_appends sample_env w sample_session
              (replicate 50 JNull) eq_refl eq_refl)
    as (w' & log & H1 & _ & H3 & H4 & H5 & _).
  exists w', log. repeat split; assumption.
Defined.


Lemma log_answer_result_counts_witness :
  let w := sample_world (Some sample_session) (Some (sample_profile 4 1)) NoFile in
  exists p' tp',
    student_profile (self (snd (@log_answer_result sample_env "math" true w))) = Some p' /\
    topics p' !! "math" = Some tp' /\
    correct_answers tp' = 5 /\ incorrect_answers tp' = 1.
Proof.
  intros w.
  destruct (@log_answer_result_counts sample_env w sample_session "math" true eq_refl)
    as (p' & tp' & H1 & H2 & H3 & H4 & _).
  exists p', tp'. split; [exact H1 |]. split; [exact H2 |]. split; [exact H3 | exact H4].
Defined.

Lemma integer_arithmetic_exact_witness :
  let w := sample_world (Some sample_session) None NoFile in
  let numbers := [Py.Int 2; Py.Int 3; Py.Int 4] in
  (exists r w',
     @_handle_addition sample_env true numbers "third_grade" "add 2, 3 and 4" w
       = (Py.Ok r, w') /\
     dict_get "correct_value" (CommandResult.final_answer r) = Some (JStr "9")) /\
  (exists r w',
     @_handle_subtraction sample_env true numbers "third_grade" "2 minus 3 minus 4" w
       = (Py.Ok r, w') /\
     dict_get "correct_value" (CommandResult.final_answer r) = Some (JStr "-5")) /\
  (exists r w',
     @_handle_multiplication sample_env true numbers "third_grade" "2 times 3 times 4" w
       = (Py.Ok r, w') /\
     dict_get "correct_value" (CommandResult.final_answer r) = Some (JStr "24")).
Proof.
  intros w numbers.
  assert (Hzs : Forall (fun z => Py.within_digit_limit z = true) [2; 3; 4])
    by (repeat constructor).
  split; [| split].
  - destruct (@integer_arithmetic_exact sample_env true [2; 3; 4] "third_grade"
                "add 2, 3 and 4" w ltac:(simpl; lia) Hzs)
      as (_ & _ & _ & Hadd & _).
    destruct (Hadd eq_refl) as (r & w' & H1 & _ & H3).
    exists r, w'. split; [exact H1 | exact H3].
  - destruct (@integer_arithmetic_exact sample_env true [2; 3; 4] "third_grade"
                "2 minus 3 minus 4" w ltac:(simpl; lia) Hzs)
      as (_ & _ & _ & _ & Hsub & _).
    destruct (Hsub eq_refl) as (r & w' & H1 & _ & H3).
    exists r, w'. split; [exact H1 | exact H3].
  - destruct (@integer_arithmetic_exact sample_env true [2; 3; 4] "third_grade"
                "2 times 3 times 4" w ltac:(simpl; lia) Hzs)
      as (_ & _ & _ & _ & _ & Hmul).
    destruct (Hmul eq_refl) as (r & w' & H1 & _ & H3).
    exists r, w'. split; [exact H1 | exact H3].
Defined.

Lemma division_by_zero_guarded_witness :
  let w := sample_world (Some sample_session) None NoFile in
  exists r,
    @_handle_division sample_env true [Py.Int 7; Py.Int 0] "third_grade"
      "divide 7 by 0" w = (Py.Ok r, w) /\
    CommandResult.success r = false /\
    CommandResult.final_answer r = [].
Proof.
  intros w.
  destruct (@division_by_zero_guarded sample_env true [Py.Int 7; Py.Int 0]
              "third_grade" "divide 7 by 0" w ltac:(simpl; lia)) as [H _].
  destruct H as (r & H1 & H2 & _ & _ & H5).
  - apply Exists_cons_hd. reflexivity.
  - exists r. repeat split; assumption.
Defined.

Lemma handlers_need_two_numbers_witness :
  let w := sample_world (Some sample_session) None NoFile in
  exists r,
    @_handle_multiplication sample_env true [Py.Int 5] "third_grade" "times 5" w
      = (Py.Ok r, w) /\
    CommandResult.success r = false /\ CommandResult.scene r = [].
Proof.
  intros w.
  destruct (@handlers_need_two_numbers sample_env true [Py.Int 5] "third_grade"
              "times 5" w ltac:(simpl; lia)) as (_ & _ & (r & H1 & H2 & H3 & _) & _).
  exists r. repeat split; assumption.
Defined.

Lemma strengths_and_areas_disjoint_witness :
  let w := sample_world (Some sample_session) None NoFile in
  let calls := [("math", false); ("math", true); ("math", true); ("math", true)] in
  exists p,
    student_profile (self (@log_answers sample_env calls w)) = Some p /\
    strengths p = ["math"] /\
    forall topic, ~ (topic ∈ strengths p /\ topic ∈ areas_for_improvement p).
Proof.
  intros w calls.
  assert (Hs : strengths <$> student_profile (self (@log_answers sample_env calls w))
               = Some ["math"]) by (vm_compute; reflexivity).
  destruct (student_profile (self (@log_answers sample_env calls w))) as [p |] eqn:E;
    [| discriminate Hs].
  exists p. split; [reflexivity |]. split.
  - injection Hs as Hs. exact Hs.
  - apply (@strengths_and_areas_disjoint sample_env w calls (or_introl eq_refl) p E).
Defined.
(* ===================================================================== *)
(** * The further theorems at concrete inputs *)
(* ===================================================================== *)

Section FurtherSampleRuns.
#[local] Existing Instance sample_env.

Lemma knowledge_level_in_exact_arithmetic_witness :
  exists d,
    get_topic_knowledge
      {| current_session := None; student_profile := Some (sample_profile 3 2) |}
      "math" = Py.Ok (Some d) /\
    dict_get "level" d = Some (JStr "intermediate").
Proof.
  destruct (knowledge_level_in_exact_arithmetic
              {| current_session := None; student_profile := Some (sample_profile 3 2) |}
              (sample_profile 3 2) "math" (sample_topic 3 2) eq_refl eq_refl
              ltac:(cbn; lia) ltac:(cbn; lia) ltac:(cbn; lia))
    as (d & level & Hd & Hl & _ & _ & Hmid & _).
  exists d. split; [exact Hd |]. rewrite Hl. do 2 f_equal.
  apply Hmid. cbn. lia.
Defined.

Lemma lists_rule_in_exact_arithmetic_witness :
  let w := sample_world (Some sample_session) (Some (sample_profile 2 0)) NoFile in
  exists p',
    student_profile (self (snd (log_answer_result "math" true w))) = Some p' /\
    strengths p' = ["math"] /\ areas_for_improvement p' = [].
Proof.
  intros w.
  destruct (lists_rule_in_exact_arithmetic w sample_session (sample_profile 2 0)
              "math" true eq_refl eq_refl
              ltac:(vm_compute; discriminate) ltac:(vm_compute; discriminate)
              ltac:(vm_compute; discriminate))
    as (p' & Hp' & Hjoin & _).
  exists p'. split; [exact Hp' |]. apply Hjoin.
  split; [vm_compute; discriminate |]. split; [vm_compute; discriminate |].
  cbn. apply not_elem_of_nil.
Defined.

Lemma session_bookkeeping_consistent_witness :
  let w := sample_world None None NoFile in
  exists s',
    current_session (self (run_calls sample_calls w)) = Some s' /\
    session_consistent s'.
Proof.
  intros w.
  assert (Hs : session_id <$> current_session (self (run_calls sample_calls w))
               = Some "session_0") by (vm_compute; reflexivity).
  destruct (current_session (self (run_calls sample_calls w))) as [s' |] eqn:E;
    [| discriminate Hs].
  exists s'. split; [reflexivity |].
  apply (session_bookkeeping_consistent sample_calls w); [discriminate | exact E].
Defined.

Lemma counters_count_logged_answers_witness :
  let w := sample_world (Some sample_session) (Some (sample_profile 4 1)) NoFile in
  answer_counters (student_profile (self (run_calls sample_calls w))) "math" = (5, 2).
Proof.
  intros w.
  rewrite (counters_count_logged_answers sample_calls w "math");
    [reflexivity | eexists; reflexivity | reflexivity].
Defined.

Lemma only_answers_change_counters_witness :
  let w := sample_world None (Some (sample_profile 4 1)) NoFile in
  answer_counters (student_profile (self (run_calls sample_quiet_calls w))) "math"
    = (4, 1).
Proof.
  intros w.
  destruct (only_answers_change_counters sample_quiet_calls w eq_refl) as [H1 _].
  rewrite H1. reflexivity.
Defined.

Lemma lists_stay_separate_witness :
  let w := sample_world (Some sample_session) None NoFile in
  exists p',
    student_profile (self (run_calls sample_answer_calls w)) = Some p' /\
    forall topic, ~ (topic ∈ strengths p' /\ topic ∈ areas_for_improvement p').
Proof.
  intros w.
  assert (Hs : student_id <$> student_profile (self (run_calls sample_answer_calls w))
               = Some "student_0") by (vm_compute; reflexivity).
  destruct (student_profile (self (run_calls sample_answer_calls w))) as [p' |] eqn:E;
    [| discriminate Hs].
  exists p'. split; [reflexivity |].
  apply (lists_stay_separate sample_answer_calls w); [discriminate | exact E].
Defined.

Lemma saved_objective_is_active_witness :
  let w := sample_world_with NoFile in
  exists w',
    save_learning_objective "fractions" "Learn basic concepts of fractions" "medium" w
      = (Py.Ok tt, w') /\
    get_active_objectives w' =
      (Py.Ok [sample_objective "Learn basic concepts of fractions"], w').
Proof.
  intros w.
  destruct (saved_objective_is_active w [] "fractions"
              "Learn basic concepts of fractions" "medium" eq_refl)
    as (w' & H1 & H2).
  exists w'. split; [exact H1 | exact H2].
Defined.

Lemma mark_objective_completed_marks_first_witness :
  let w := sample_world_with
             (sample_progress [sample_objective "Learn basic concepts of fractions";
                               sample_objective "Learn basic concepts of algebra"]) in
  exists w' d',
    mark_objective_completed "Learn basic concepts of algebra" w = (Py.Ok tt, w') /\
    objectives_list (temp_progress_file (disk w')) =
      Some [sample_objective "Learn basic concepts of fractions"; JObj d'] /\
    dict_get "completed" d' = Some (JBool true).
Proof.
  intros w.
  destruct (mark_objective_completed_marks_first w "Learn basic concepts of algebra"
              [sample_objective "Learn basic concepts of fractions"] _ []
              eq_refl eq_refl eq_refl)
    as (w' & d' & H1 & H2 & H3 & _).
  exists w', d'. split; [exact H1 |]. split; [exact H2 | exact H3].
Defined.

Lemma completed_objective_is_not_active_witness :
  let w := sample_world_with
             (sample_progress [sample_objective "Learn basic concepts of fractions"]) in
  exists w1 w2,
    save_learning_objective "algebra" "Learn basic concepts of algebra" "easy" w
      = (Py.Ok tt, w1) /\
    mark_objective_completed "Learn basic concepts of algebra" w1 = (Py.Ok tt, w2) /\
    get_active_objectives w2 =
      (Py.Ok [sample_objective "Learn basic concepts of fractions"], w2).
Proof.
  intros w.
  apply (completed_objective_is_not_active w
           [sample_objective "Learn basic concepts of fractions"]
           [sample_objective "Learn basic concepts of fractions"]
           "algebra" "Learn basic concepts of algebra" "easy" eq_refl eq_refl eq_refl).
Defined.

Lemma save_learning_objective_refuses_witness :
  let w := sample_world_with (Doc (JList [])) in
  fst (save_learning_objective "fractions" "Learn basic concepts of fractions" "medium" w)
    = Py.Raise Py.TypeError /\
  disk (snd (save_learning_objective "fractions" "Learn basic concepts of fractions"
               "medium" w)) = disk w.
Proof.
  intros w.
  destruct (save_learning_objective_refuses w "fractions"
              "Learn basic concepts of fractions" "medium" eq_refl)
    as (e & He & _ & Hd & _).
  split; [reflexivity | exact Hd].
Defined.

Lemma only_objective_calls_change_objectives_witness :
  let w := sample_world_with
             (sample_progress [sample_objective "Learn basic concepts of fractions"]) in
  objectives_list (temp_progress_file (disk (run_calls sample_answer_calls w))) =
    Some [sample_objective "Learn basic concepts of fractions"].
Proof.
  intros w.
  rewrite (only_objective_calls_change_objectives sample_answer_calls w eq_refl).
  reflexivity.
Defined.

Lemma classify_intent_by_regex_witness :
  exists r, classify_intent "add 2 and 3" = Py.Ok r /\
    IntentResult.intent r = "command" /\
    exists pattern_obj, pattern_obj ∈ command_patterns /\
      IntentResult.matched_pattern r = Some (IntentPattern.pattern pattern_obj).
Proof.
  destruct (classify_intent_by_regex "add 2 and 3")
    as (r & Hr & Hcmd & Hbest & _).
  assert (Hi : match classify_intent "add 2 and 3" with
               | Py.Ok r => IntentResult.intent r
               | Py.Raise _ => ""
               end = "command") by (vm_compute; reflexivity).
  rewrite Hr in Hi.
  exists r. split; [exact Hr |]. split; [exact Hi |].
  destruct (Hbest (proj1 Hcmd Hi)) as (p & [Hp _] & _ & Hm & _).
  exists p. split; [exact Hp | exact Hm].
Defined.


Lemma deactivate_turns_camera_on_witness :
  get_command_type "Deactivate the camera" = Some "camera_on".
Proof.
  apply (deactivate_turns_camera_on "Deactivate the camera"); reflexivity.
Defined.

Lemma known_command_types_are_dispatched_witness :
  branch_of "math_addition" <> LearningBranch /\
  forall w,
    execute_command sample_module sample_module sample_module true "add 2 and 3"
      (sample_intent "add 2 and 3") w =
    execute_command sample_module (fun _ _ _ => raise Py.ValueError) sample_module true
      "add 2 and 3" (sample_intent "add 2 and 3") w.
Proof.
  destruct (known_command_types_are_dispatched sample_module sample_module sample_module
              true "add 2 and 3" (sample_intent "add 2 and 3")) as [Hct Hsame].
  split; [apply (Hct "math_addition" eq_refl) |].
  intros w. apply Hsame.
Defined.

Lemma math_command_is_logged_twice_witness :
  let w := sample_world None None NoFile in
  exists handling w',
    _handle_command sample_module sample_module sample_module true "add 2 and 3"
      (sample_intent "add 2 and 3") w = (Py.Ok handling, w') /\
    exists s', current_session (self w') = Some s' /\
      questions_asked (performance_metrics s') = 2.
Proof.
  intros w.
  destruct (math_command_is_logged_twice sample_module sample_module sample_module
              "add 2 and 3" (sample_intent "add 2 and 3") "math_addition" w
              eq_refl eq_refl) as (handling & w' & Hrun & Hh).
  assert (Hs : match fst (_handle_command sample_module sample_module sample_module
                                 true "add 2 and 3" (sample_intent "add 2 and 3") w) with
               | Py.Ok (CommandResponse _ _ _ _) => true
               | _ => false
               end = true) by (vm_compute; reflexivity).
  rewrite Hrun in Hs. cbn [fst] in Hs.
  destruct handling; [| discriminate Hs].
  destruct Hh as (_ & _ & s' & first & second & Hs' & _ & _ & _ & _ & Hq & _).
  eexists. exists w'. split; [exact Hrun |]. exists s'. split; [exact Hs' | exact Hq].
Defined.


Lemma grade_level_is_known_witness :
  exists approach,
    (_determine_grade_level "add 2 and 3" [Py.Int 2; Py.Int 3], approach)
      ∈ grade_approaches.
Proof.
  destruct (grade_level_is_known "add 2 and 3" [Py.Int 2; Py.Int 3])
    as [(approach & Hin & _) _].
  exists approach. exact Hin.
Defined.



End FurtherSampleRuns.

(* ===================================================================== *)
(** * Where the specification says more than the code does *)
(* ===================================================================== *)

Section Counterexamples.
#[local] Existing Instance sample_env.

(** C3, as the specification states it, fails on a sessions file that
    holds JSON that is not a list, here the object [{}]: with an active
    session [end_current_session] returns and ends the session, the
    exception of [append] is caught in [_save_session_data], and the
    file is left as it was: the record of the session is not its last
    entry. *)
Lemma end_current_session_appends_counterexample :
  current_session (self (sample_world (Some sample_session) None (Doc (JObj []))))
    = Some sample_session /\
  fst (end_current_session (sample_world (Some sample_session) None (Doc (JObj []))))
    = Py.Ok tt /\
  current_session
    (self (snd (end_current_session
                  (sample_world (Some sample_session) None (Doc (JObj []))))))
    = None /\
  sessions_file
    (disk (snd (end_current_session
                  (sample_world (Some sample_session) None (Doc (JObj []))))))
    = Doc (JObj []) /\
  ~ exists log,
      sessions_file
        (disk (snd (end_current_session
                      (sample_world (Some sample_session) None (Doc (JObj []))))))
        = Doc (JList log) /\
      last log = Some (session_to_json
                         (set_end_time (Some (datetime_now 0)) sample_session)).
Proof.
  assert (Hfile : sessions_file
            (disk (snd (end_current_session
                          (sample_world (Some sample_session) None (Doc (JObj []))))))
          = Doc (JObj [])) by reflexivity.
  split; [reflexivity |]. split; [reflexivity |].
  split; [reflexivity |]. split; [exact Hfile |].
  intros (log & Hlog & _). rewrite Hfile in Hlog. discriminate Hlog.
Qed.

(** C7, as the specification states it, fails on two integers that
    can both be extracted from a text, the greatest integer of 4300
    digits and 1: their sum has 4301 digits, its conversion to [str]
    raises [ValueError], and the addition handler raises instead of
    returning a success. *)
Lemma integer_arithmetic_exact_counterexample :
  Py.within_digit_limit (10 ^ 4300 - 1) = true /\
  Py.within_digit_limit 1 = true /\
  sum [Py.Int (10 ^ 4300 - 1); Py.Int 1] = Py.Ok (Py.Int (10 ^ 4300)) /\
  _handle_addition true [Py.Int (10 ^ 4300 - 1); Py.Int 1] "third_grade" "add"
    (sample_world None None NoFile)
    = (Py.Raise Py.ValueError, sample_world None None NoFile) /\
  ~ exists r w',
      _handle_addition true [Py.Int (10 ^ 4300 - 1); Py.Int 1] "third_grade" "add"
        (sample_world None None NoFile) = (Py.Ok r, w') /\
      CommandResult.success r = true.
Proof.
  assert (Hsum : sum [Py.Int (10 ^ 4300 - 1); Py.Int 1] = Py.Ok (Py.Int (10 ^ 4300)))
    by (vm_compute; reflexivity).
  assert (Hbig : printable (Py.Int (10 ^ 4300)) = false) by (vm_compute; reflexivity).
  assert (Hrun : _handle_addition true [Py.Int (10 ^ 4300 - 1); Py.Int 1]
                   "third_grade" "add" (sample_world None None NoFile)
                 = (Py.Raise Py.ValueError, sample_world None None NoFile)).
  { apply (_handle_addition_refuses true _ (Py.Int (10 ^ 4300))); [| exact Hsum | exact Hbig].
    cbn [length]. lia. }
  split; [vm_compute; reflexivity |]. split; [reflexivity |].
  split; [exact Hsum |]. split; [exact Hrun |].
  intros (r & w' & Hok & _). rewrite Hrun in Hok. discriminate Hok.
Qed.

End Counterexamples.

(* ===================================================================== *)
(** * Sample runs *)
(* ===================================================================== *)

(** The sample engine reads every pattern of the two tables. *)
Example tables_compile :
  forallb (fun p => bool_decide (is_Some (Regex.compile (IntentPattern.pattern p))))
    (command_patterns ++ educational_patterns) = true.
Proof. vm_compute. reflexivity. Qed.

(** "add 2 and 3" is classified as a command with confidence 0.8, routed
    to the command executor, recognised as an addition and answered
    with 5. *)
Example add_2_and_3 :
  let text := "add 2 and 3" in
  (exists r, @classify_intent sample_env text = Py.Ok r /\
     IntentResult.confidence r = Py.f0_8 /\
     @process_text_input sample_env text = HandleCommand text r) /\
  get_command_type text = Some "math_addition" /\
  @_extract_numbers sample_env text = [Py.Int 2; Py.Int 3] /\
  exists r,
    fst (@execute sample_env true "math_addition" text (sample_world None None NoFile))
      = Py.Ok r /\
    CommandResult.success r = true /\
    dict_get "correct_value" (CommandResult.final_answer r) = Some (JStr "5").
Proof.
  intros text. split; [| split; [| split]].
  - eexists. split; [vm_compute; reflexivity |]. split; vm_compute; reflexivity.
  - vm_compute. reflexivity.
  - vm_compute. reflexivity.
  - eexists. split; [vm_compute; reflexivity |]. split; vm_compute; reflexivity.
Qed.

(** "draw an apple" matches a command pattern of confidence 0.7, which
    is not above 0.7: the utterance goes to the educational path. *)
Example draw_an_apple :
  let text := "draw an apple" in
  exists r, @classify_intent sample_env text = Py.Ok r /\
    IntentResult.intent r = "command" /\
    IntentResult.confidence r = Py.f0_7 /\
    @process_text_input sample_env text = HandleEducationalQuery text r.
Proof.
  intros text. eexists. split; [vm_compute; reflexivity |].
  split; [| split]; vm_compute; reflexivity.
Qed.

(** "divide 7 by 0" reaches the division handler, which declines. *)
Example divide_7_by_0 :
  let text := "divide 7 by 0" in
  get_command_type text = Some "math_division" /\
  exists r,
    fst (@execute sample_env true "math_division" text (sample_world None None NoFile))
      = Py.Ok r /\
    CommandResult.success r = false /\
    CommandResult.response r = "I can't divide by zero. That's undefined in mathematics.".
Proof.
  intros text. split; [vm_compute; reflexivity |].
  eexists. split; [vm_compute; reflexivity |]. split; vm_compute; reflexivity.
Qed.
